(** * update-dependencies.py: a shallow embedding and its verified properties

    The script regenerates the list of Maven artifacts a build downloads:
    it reads the upstream git source out of the Flatpak manifest, runs the
    build against an empty local repository, greps the build log for
    downloaded artifact URLs, and turns every URL into a Flatpak file
    source with a SHA-512 checksum, sorted by URL.

    The embedding follows the Python source function by function.  Python
    strings are sequences of Unicode code points and are modelled as lists
    of code points ([N]); file contents are lists of bytes.  Exceptions are
    an explicit error type, and the file system the script reads is an
    explicit argument. *)

From Stdlib Require Import String Ascii.
From Stdlib Require Import List NArith Bool Arith Lia.
From Stdlib Require Import Permutation Sorted.
Import ListNotations.

(* ================================================================== *)
(** * Python values: strings, exceptions *)
(* ================================================================== *)

(** A Python [str]: a sequence of Unicode code points. *)
Definition str := list N.

(** The code points of an ASCII literal of the source. *)
Definition py (s : string) : str := map N_of_ascii (list_ascii_of_string s).
Arguments py s%_string.

(** The exceptions the script raises or lets escape. [IndexError] is a
    subclass of [LookupError] in Python; [FileNotFoundError] and
    [IsADirectoryError] are subclasses of [OSError]. *)
Inductive exn : Type :=
| ValueError (msg : str)
| LookupError (msg : str)
| IndexError
| FileNotFoundError
| IsADirectoryError.

(** [isinstance(e, LookupError)] *)
Definition is_lookup_error (e : exn) : bool :=
  match e with
  | LookupError _ | IndexError => true
  | _ => false
  end.

(** A computation that returns a value or raises. *)
Inductive result (A : Type) : Type :=
| Ok (a : A)
| Raise (e : exn).
Arguments Ok {A} a.
Arguments Raise {A} e.

Definition bind {A B} (r : result A) (k : A -> result B) : result B :=
  match r with
  | Ok a => k a
  | Raise e => Raise e
  end.

Notation "x <- r ;; k" := (bind r (fun x => k))
  (at level 61, r at next level, right associativity).

Module PyStr.

(** [c1 == c2] on code points *)
Definition ceqb (a b : N) : bool := N.eqb a b.

(** [len(s) == 0]; Python's truth value of a [str] is its negation. *)
Definition is_empty (s : str) : bool :=
  match s with [] => true | _ :: _ => false end.

(** [bool(s)] *)
Definition truthy (s : str) : bool := negb (is_empty s).

(** [s == t] *)
Fixpoint eqb (s t : str) : bool :=
  match s, t with
  | [], [] => true
  | a :: s', b :: t' => ceqb a b && eqb s' t'
  | _, _ => false
  end.

(** [s < t]: Python compares strings code point by code point. *)
Fixpoint ltb (s t : str) : bool :=
  match s, t with
  | _, [] => false
  | [], _ :: _ => true
  | a :: s', b :: t' => N.ltb a b || (ceqb a b && ltb s' t')
  end.

(** [s.startswith(prefix)] *)
Fixpoint startswith (s prefix : str) {struct prefix} : bool :=
  match prefix, s with
  | [], _ => true
  | _ :: _, [] => false
  | p :: prefix', c :: s' => ceqb c p && startswith s' prefix'
  end.

(** [s[n:]] for [0 <= n] *)
Definition slice_from (n : nat) (s : str) : str := skipn n s.

(** [str.isspace] on one code point (CPython's [_PyUnicode_IsWhitespace]). *)
Definition is_space (c : N) : bool :=
  ((9 <=? c) && (c <=? 13) || (28 <=? c) && (c <=? 32)
   || (c =? 133) || (c =? 160) || (c =? 5760)
   || (8192 <=? c) && (c <=? 8202)
   || (c =? 8232) || (c =? 8233) || (c =? 8239) || (c =? 8287)
   || (c =? 12288))%N.

(** The line boundaries of [str.splitlines]: LF, VT, FF, CR, FS, GS, RS,
    NEL, LS and PS ([_PyUnicode_IsLinebreak]). *)
Definition is_linebreak (c : N) : bool :=
  ((10 <=? c) && (c <=? 13) || (28 <=? c) && (c <=? 30)
   || (c =? 133) || (c =? 8232) || (c =? 8233))%N.

Fixpoint drop_while (f : N -> bool) (s : str) : str :=
  match s with
  | [] => []
  | c :: s' => if f c then drop_while f s' else s
  end.

Fixpoint take_while (f : N -> bool) (s : str) : str :=
  match s with
  | [] => []
  | c :: s' => if f c then c :: take_while f s' else []
  end.

(** [s.strip(chars)] generalised to a predicate on the stripped code
    points: leading and trailing code points satisfying [f] are removed. *)
Definition strip_by (f : N -> bool) (s : str) : str :=
  rev (drop_while f (rev (drop_while f s))).

(** [s.strip()] *)
Definition strip (s : str) : str := strip_by is_space s.

(** [s.strip(chars)] *)
Definition strip_chars (chars : str) (s : str) : str :=
  strip_by (fun c => existsb (ceqb c) chars) s.

(** [s.splitlines()], with [cur] the text of the line being read.  A line
    ends at a line boundary, CR LF counting as one; the text after the
    last boundary is a line only when it is not empty. *)
Fixpoint splitlines_from (cur : str) (s : str) : list str :=
  match s with
  | [] => if is_empty cur then [] else [cur]
  | c :: s' =>
      if is_linebreak c then
        cur :: match s' with
               | d :: s'' =>
                   if ceqb c 13 && ceqb d 10 then splitlines_from [] s''
                   else splitlines_from [] s'
               | [] => splitlines_from [] s'
               end
      else splitlines_from (cur ++ [c]) s'
  end.

Definition splitlines (s : str) : list str := splitlines_from [] s.

(** [s.split(sep, maxsplit=1)] for a separator of one code point: the text
    before and after the first [sep], or [s] alone when there is none. *)
Fixpoint split_once_from (sep : N) (before : str) (s : str) : list str :=
  match s with
  | [] => [before]
  | c :: s' =>
      if ceqb c sep then [before; s']
      else split_once_from sep (before ++ [c]) s'
  end.

Definition split_once (sep : N) (s : str) : list str :=
  split_once_from sep [] s.

(** [xs[i]] on a list, raising [IndexError] out of range. *)
Definition index {A} (xs : list A) (i : nat) : result A :=
  match nth_error xs i with
  | Some x => Ok x
  | None => Raise IndexError
  end.

End PyStr.

(* ================================================================== *)
(** * The script's data classes *)
(* ================================================================== *)

(** [class FlatpakGitSource] *)
Module FlatpakGitSource.
Record t : Type := mk {
  url : str;
  commit : str
}.
End FlatpakGitSource.

(** [class FlatpakFileSource] *)
Module FlatpakFileSource.
Record t : Type := mk {
  url : str;
  dest : str;
  dest_filename : str;
  sha512 : str
}.

(** [as_json]: the dict it returns, as its items in insertion order. *)
Definition as_json (self : t) : list (str * str) :=
  [ (py "type", py "file");
    (py "url", url self);
    (py "dest", dest self);
    (py "dest-filename", dest_filename self);
    (py "sha512", sha512 self) ].
End FlatpakFileSource.

(** [REPO_BASES] *)
Definition REPO_BASES : list str :=
  [ py "https://repo.maven.apache.org/maven2/";
    py "https://oss.sonatype.org/content/repositories/snapshots/";
    py "https://maven.ej-technologies.com/repository/" ].

(** [class ArtifactUrl] *)
Module ArtifactUrl.
Record t : Type := mk {
  url : str;
  repo_base_url : str;
  relpath : str
}.

(** The loop of [parse_url], over the bases still to try. *)
Fixpoint parse_url_in (bases : list str) (u : str) : result t :=
  match bases with
  | [] =>
      Raise (ValueError (u ++ py " is not from a known Maven repository"))
  | base :: bases' =>
      if PyStr.startswith u base then
        Ok (mk u base (PyStr.slice_from (length base) u))
      else parse_url_in bases' u
  end.

(** [ArtifactUrl.parse_url] *)
Definition parse_url (u : str) : result t :=
  parse_url_in REPO_BASES u.
End ArtifactUrl.

(* ================================================================== *)
(** * Reading the manifest *)
(* ================================================================== *)

(** [":"] *)
Definition colon : N := 58.

(** The two quote characters of the literal passed to [strip] in
    [parse_from_manifest]: the apostrophe and the double quote. *)
Definition quote_chars : str := [39; 34]%N.

(** [x and y] on two variables that are [None] or a [str]: the values when
    both are set and not empty. *)
Definition both_truthy (x y : option str) : option (str * str) :=
  match x, y with
  | Some a, Some b =>
      if PyStr.truthy a && PyStr.truthy b then Some (a, b) else None
  | _, _ => None
  end.

(** [line.split(":", maxsplit=1)[1]] *)
Definition after_colon (line : str) : result str :=
  PyStr.index (PyStr.split_once colon line) 1.

(** [class FlatpakSdk] *)
Module FlatpakSdk.
Record t : Type := mk {
  name : str;
  version : str
}.

(** One iteration of the loop of [parse_from_manifest], up to
    the test [if name and version]: the variables after the line. *)
Definition sdk_step (name version : option str) (line : str)
  : result (option str * option str) :=
  if PyStr.startswith line (py "sdk:") then
    v <- after_colon line ;; Ok (Some (PyStr.strip v), version)
  else if PyStr.startswith line (py "runtime-version") then
    v <- after_colon line ;;
    Ok (name, Some (PyStr.strip_chars quote_chars (PyStr.strip v)))
  else Ok (name, version).

(** The loop of [parse_from_manifest] over the lines left, with
    the current values of [name] and [version]. *)
Fixpoint parse_from_manifest_loop (name version : option str)
    (lines : list str) : result t :=
  match lines with
  | [] =>
      Raise (LookupError
               (py "Failed to find sdk or runtime-version in manifest"))
  | line :: rest =>
      st <- sdk_step name version line ;;
      match both_truthy (fst st) (snd st) with
      | Some (n, v) => Ok (mk n v)
      | None => parse_from_manifest_loop (fst st) (snd st) rest
      end
  end.

(** [FlatpakSdk.parse_from_manifest] *)
Definition parse_from_manifest (manifest : str) : result t :=
  parse_from_manifest_loop None None (PyStr.splitlines manifest).

(** [FlatpakSdk.__str__] *)
Definition __str__ (self : t) : str := name self ++ py "//" ++ version self.
End FlatpakSdk.

(** [for line in lines: if cond(line): break] followed by [else]: whether
    the loop left through [break].  [lines] is a list, so every [for]
    statement over it starts again at its first element. *)
Fixpoint for_break (cond : str -> bool) (lines : list str) : bool :=
  match lines with
  | [] => false
  | line :: rest => if cond line then true else for_break cond rest
  end.

(** One iteration of the third loop of [find_mediathekview_source]. *)
Definition source_step (u commit : option str) (line0 : str)
  : result (option str * option str) :=
  let line := PyStr.strip line0 in
  if PyStr.startswith line (py "url:") then
    v <- after_colon line ;; Ok (Some (PyStr.strip v), commit)
  else if PyStr.startswith line (py "commit:") then
    v <- after_colon line ;; Ok (u, Some (PyStr.strip v))
  else Ok (u, commit).

(** The third loop of [find_mediathekview_source]. *)
Fixpoint find_url_commit (u commit : option str) (lines : list str)
  : result FlatpakGitSource.t :=
  match lines with
  | [] =>
      Raise (LookupError
               (py "url or commit not found in main mediathekview source"))
  | line :: rest =>
      st <- source_step u commit line ;;
      match both_truthy (fst st) (snd st) with
      | Some (a, c) => Ok (FlatpakGitSource.mk a c)
      | None => find_url_commit (fst st) (snd st) rest
      end
  end.

(** [find_mediathekview_source], on the text [manifest.read_text] returns. *)
Definition find_mediathekview_source (text : str) : result FlatpakGitSource.t :=
  let lines := PyStr.splitlines text in
  if for_break (fun line => PyStr.eqb (PyStr.strip line)
                              (py "- name: mediathekview")) lines then
    if for_break (fun line => PyStr.eqb (PyStr.strip line)
                                (py "- type: git")) lines then
      find_url_commit None None lines
    else Raise (LookupError (py "git source not found"))
  else Raise (LookupError (py "mediathekview module not found")).

(* ================================================================== *)
(** * Scanning the build log *)
(* ================================================================== *)

(** [DOWNLOADED_RE = "Downloaded from .*: (https?://[^ ]+)"], matched the
    way Python's backtracking engine does: [search] tries the start
    positions from left to right, [.*] takes as much as it can and gives
    back one code point at a time, [s?] tries the [s] first. *)
Module DownloadedRe.

(** A literal at the start of [s]: the text after it. *)
Fixpoint literal (lit s : str) {struct lit} : option str :=
  match lit, s with
  | [], _ => Some s
  | _ :: _, [] => None
  | a :: lit', c :: s' => if PyStr.ceqb c a then literal lit' s' else None
  end.

(** [[^ ]+] at the start of [s], nothing after it in the pattern: the
    longest run of code points other than the space, at least one. *)
Definition nonspace_plus (s : str) : option str :=
  let tok := PyStr.take_while (fun c => negb (PyStr.ceqb c 32)) s in
  if PyStr.is_empty tok then None else Some tok.

(** [://[^ ]+] at the start of [s], after the scheme [scheme]. *)
Definition url_rest (scheme s : str) : option str :=
  match literal (py "://") s with
  | Some t =>
      match nonspace_plus t with
      | Some tok => Some (scheme ++ py "://" ++ tok)
      | None => None
      end
  | None => None
  end.

(** [(https?://[^ ]+)] at the start of [s]: the text of group 1. *)
Definition url_group (s : str) : option str :=
  match literal (py "http") s with
  | Some r =>
      match r with
      | c :: r' =>
          if PyStr.ceqb c 115 then
            match url_rest (py "https") r' with
            | Some g => Some g
            | None => url_rest (py "http") r
            end
          else url_rest (py "http") r
      | [] => url_rest (py "http") r
      end
  | None => None
  end.

(** [: (https?://[^ ]+)] at the start of [s]. *)
Definition colon_url (s : str) : option str :=
  match literal (py ": ") s with
  | Some r => url_group r
  | None => None
  end.

(** [.*: (https?://[^ ]+)] at the start of [s]: [.] matches every code
    point but the line feed, and the longest extent of [.*] is tried
    first. *)
Fixpoint dotstar_colon_url (s : str) : option str :=
  match s with
  | [] => colon_url s
  | c :: s' =>
      if PyStr.ceqb c 10 then colon_url s
      else
        match dotstar_colon_url s' with
        | Some g => Some g
        | None => colon_url s
        end
  end.

(** The whole pattern at the start of [s]. *)
Definition match_here (s : str) : option str :=
  match literal (py "Downloaded from ") s with
  | Some r => dotstar_colon_url r
  | None => None
  end.

(** [DOWNLOADED_RE.search(line)], as [match.group(1)] of the match found. *)
Fixpoint search (line : str) : option str :=
  match match_here line with
  | Some g => Some g
  | None =>
      match line with
      | [] => None
      | _ :: line' => search line'
      end
  end.

End DownloadedRe.

(** What a generator does when it is run to its end: the values it
    yields, and the exception that ends it if one does. *)
Definition generated (A : Type) : Type := (list A * option exn)%type.

(** The loop of [extract_downloaded_artifacts] over the lines left. *)
Fixpoint extract_from_lines (lines : list str) : generated ArtifactUrl.t :=
  match lines with
  | [] => ([], None)
  | line :: rest =>
      match DownloadedRe.search line with
      | Some g =>
          match ArtifactUrl.parse_url g with
          | Ok a =>
              let (ys, e) := extract_from_lines rest in (a :: ys, e)
          | Raise e => ([], Some e)
          end
      | None => extract_from_lines rest
      end
  end.

(** [extract_downloaded_artifacts] *)
Definition extract_downloaded_artifacts (build_log : str)
  : generated ArtifactUrl.t :=
  extract_from_lines (PyStr.splitlines build_log).

(* ================================================================== *)
(** * pathlib, the file system, glob, hashlib *)
(* ================================================================== *)

(** [pathlib.PosixPath] (the script runs on Linux, where [Path] is
    [PosixPath]).  As in CPython a path object keeps the strings it was
    built from; they are joined with [posixpath.join] and parsed into a
    root and the list of components when a property is asked for. *)
Module PosixPath.

(** ["/"] *)
Definition sep : N := 47.

(** ["."] *)
Definition dot : str := [46%N].

Definition t : Type := list str.

(** [PosixPath(s)] *)
Definition of_str (s : str) : t := [s].

(** [self / key] for a string [key] *)
Definition joinpath (p : t) (key : str) : t := p ++ [key].

(** [s.endswith("/")] *)
Fixpoint ends_with_sep (s : str) : bool :=
  match s with
  | [] => false
  | [c] => PyStr.ceqb c sep
  | _ :: s' => ends_with_sep s'
  end.

(** One step of [posixpath.join]: [path] extended by the segment [b]. *)
Definition join2 (path b : str) : str :=
  if PyStr.startswith b [sep] then b
  else if PyStr.is_empty path || ends_with_sep path then path ++ b
  else path ++ sep :: b.

(** [posixpath.join] of all of [paths], the empty string for none. *)
Definition join_all (paths : list str) : str :=
  match paths with
  | [] => []
  | a :: ps => fold_left join2 ps a
  end.

(** [posixpath.splitroot], without the drive, which is always empty. *)
Definition splitroot (p : str) : str * str :=
  match p with
  | [] => ([], p)
  | c0 :: p1 =>
      if negb (PyStr.ceqb c0 sep) then ([], p)
      else
        match p1 with
        | [] => ([sep], p1)
        | c1 :: p2 =>
            if negb (PyStr.ceqb c1 sep) then ([sep], p1)
            else
              match p2 with
              | [] => ([sep; sep], p2)
              | c2 :: _ =>
                  if PyStr.ceqb c2 sep then ([sep], p1)
                  else ([sep; sep], p2)
              end
        end
  end.

(** [s.split("/")], with [cur] the text of the component being read. *)
Fixpoint split_from (cur : str) (s : str) : list str :=
  match s with
  | [] => [cur]
  | c :: s' =>
      if PyStr.ceqb c sep then cur :: split_from [] s'
      else split_from (cur ++ [c]) s'
  end.

Definition split (s : str) : list str := split_from [] s.

(** The components [_parse_path] keeps: [x and x != "."]. *)
Definition kept (x : str) : bool :=
  PyStr.truthy x && negb (PyStr.eqb x dot).

(** The components of the part of a path after its root. *)
Definition components (rel : str) : list str := filter kept (split rel).

(** [_parse_path]: the root and the components of a path string. *)
Definition parse_path (path : str) : str * list str :=
  let (root, rel) := splitroot path in
  (root, components rel).

(** [path.is_absolute()] on a path string. *)
Definition is_absolute (path : str) : bool := PyStr.startswith path [sep].

(** The root and components of a path object. *)
Definition parsed (p : t) : str * list str := parse_path (join_all p).

Definition root (p : t) : str := fst (parsed p).
Definition tail (p : t) : list str := snd (parsed p).

(** ["/".join(xs)] *)
Fixpoint join_sep (xs : list str) : str :=
  match xs with
  | [] => []
  | [x] => x
  | x :: xs' => x ++ sep :: join_sep xs'
  end.

(** [_format_parsed_parts] *)
Definition format_parsed (rt : str) (tl : list str) : str :=
  rt ++ join_sep tl.

(** [str(path)], which is also [os.fspath(path)] and [path.as_posix()]. *)
Definition to_str (p : t) : str :=
  let s := format_parsed (root p) (tail p) in
  if PyStr.is_empty s then dot else s.

Definition as_posix (p : t) : str := to_str p.

(** [path.name] *)
Definition name (p : t) : str := last (tail p) [].

(** [path.parent] *)
Definition parent (p : t) : t :=
  match tail p with
  | [] => p
  | _ :: _ => of_str (format_parsed (root p) (removelast (tail p)))
  end.

End PosixPath.

(** What a path names in the file system: a regular file with its bytes,
    or a directory with the names of its entries in the order the system
    lists them. *)
Inductive node : Type :=
| File (content : list Byte.byte)
| Dir (entries : list str).

(** The file system the script reads, by path string. *)
Definition filesystem : Type := str -> option node.

(** [path.read_bytes()], as far as the properties below need it: the bytes
    of a regular file, [IsADirectoryError] for a directory.  A path that
    names nothing is reported as [FileNotFoundError]; the other ways the
    real call fails on such a path (a path below a regular file, a NUL in
    the path) are not told apart from it, and nothing below depends on
    which error a path that names no file gives. *)
Definition read_bytes (fs : filesystem) (p : PosixPath.t)
  : result (list Byte.byte) :=
  match fs (PosixPath.to_str p) with
  | Some (File content) => Ok content
  | Some (Dir _) => Raise IsADirectoryError
  | None => Raise FileNotFoundError
  end.

(** [fnmatch] for a pattern of literal characters and [*]. *)
Module Fnmatch.

Inductive item : Type :=
| Lit (c : N)
| Star.

(** The pattern string read as items; [*] is code point 42. *)
Definition compile (pat : str) : list item :=
  map (fun c => if PyStr.ceqb c 42 then Star else Lit c) pat.

(** Whether the whole of [s] matches [pat]; [*] stands for any text. *)
Fixpoint matches (pat : list item) (s : str) : bool :=
  match pat with
  | [] => PyStr.is_empty s
  | Lit c :: pat' =>
      match s with
      | [] => false
      | d :: s' => PyStr.ceqb d c && matches pat' s'
      end
  | Star :: pat' =>
      (fix star (s : str) : bool :=
         matches pat' s ||
         match s with
         | [] => false
         | _ :: s' => star s'
         end) s
  end.

End Fnmatch.

(** [glob.glob(pattern, root_dir=d)] for a pattern without a directory
    part: the entries of [d] that match, in listing order; hidden names
    are left out since the pattern does not start with a dot; nothing when
    [d] cannot be listed. *)
Definition glob (fs : filesystem) (pattern : str) (root_dir : str)
  : list str :=
  match fs root_dir with
  | Some (Dir entries) =>
      filter (Fnmatch.matches (Fnmatch.compile pattern))
        (filter (fun x => negb (PyStr.startswith x PosixPath.dot)) entries)
  | _ => []
  end.

(** [hashlib.sha512]: SHA-512 of FIPS 180-4 on 64-bit words. *)
Module Sha512.
Local Open Scope N_scope.

Definition mask64 : N := 0xffffffffffffffff.
Definition add64 (a b : N) : N := N.land (a + b) mask64.
Definition not64 (a : N) : N := N.lxor a mask64.
Definition rotr (n x : N) : N :=
  N.lor (N.shiftr x n) (N.land (N.shiftl x (64 - n)) mask64).

Definition Ch (x y z : N) : N := N.lxor (N.land x y) (N.land (not64 x) z).
Definition Maj (x y z : N) : N :=
  N.lxor (N.lxor (N.land x y) (N.land x z)) (N.land y z).
Definition Sigma0 (x : N) : N :=
  N.lxor (N.lxor (rotr 28 x) (rotr 34 x)) (rotr 39 x).
Definition Sigma1 (x : N) : N :=
  N.lxor (N.lxor (rotr 14 x) (rotr 18 x)) (rotr 41 x).
Definition sigma0 (x : N) : N :=
  N.lxor (N.lxor (rotr 1 x) (rotr 8 x)) (N.shiftr x 7).
Definition sigma1 (x : N) : N :=
  N.lxor (N.lxor (rotr 19 x) (rotr 61 x)) (N.shiftr x 6).

Definition H0 : list N :=
  [
    0x6a09e667f3bcc908; 0xbb67ae8584caa73b; 0x3c6ef372fe94f82b;
    0xa54ff53a5f1d36f1; 0x510e527fade682d1; 0x9b05688c2b3e6c1f;
    0x1f83d9abfb41bd6b; 0x5be0cd19137e2179
  ].

Definition K : list N :=
  [
    0x428a2f98d728ae22; 0x7137449123ef65cd; 0xb5c0fbcfec4d3b2f;
    0xe9b5dba58189dbbc; 0x3956c25bf348b538; 0x59f111f1b605d019;
    0x923f82a4af194f9b; 0xab1c5ed5da6d8118; 0xd807aa98a3030242;
    0x12835b0145706fbe; 0x243185be4ee4b28c; 0x550c7dc3d5ffb4e2;
    0x72be5d74f27b896f; 0x80deb1fe3b1696b1; 0x9bdc06a725c71235;
    0xc19bf174cf692694; 0xe49b69c19ef14ad2; 0xefbe4786384f25e3;
    0x0fc19dc68b8cd5b5; 0x240ca1cc77ac9c65; 0x2de92c6f592b0275;
    0x4a7484aa6ea6e483; 0x5cb0a9dcbd41fbd4; 0x76f988da831153b5;
    0x983e5152ee66dfab; 0xa831c66d2db43210; 0xb00327c898fb213f;
    0xbf597fc7beef0ee4; 0xc6e00bf33da88fc2; 0xd5a79147930aa725;
    0x06ca6351e003826f; 0x142929670a0e6e70; 0x27b70a8546d22ffc;
    0x2e1b21385c26c926; 0x4d2c6dfc5ac42aed; 0x53380d139d95b3df;
    0x650a73548baf63de; 0x766a0abb3c77b2a8; 0x81c2c92e47edaee6;
    0x92722c851482353b; 0xa2bfe8a14cf10364; 0xa81a664bbc423001;
    0xc24b8b70d0f89791; 0xc76c51a30654be30; 0xd192e819d6ef5218;
    0xd69906245565a910; 0xf40e35855771202a; 0x106aa07032bbd1b8;
    0x19a4c116b8d2d0c8; 0x1e376c085141ab53; 0x2748774cdf8eeb99;
    0x34b0bcb5e19b48a8; 0x391c0cb3c5c95a63; 0x4ed8aa4ae3418acb;
    0x5b9cca4f7763e373; 0x682e6ff3d6b2b8a3; 0x748f82ee5defb2fc;
    0x78a5636f43172f60; 0x84c87814a1f0ab72; 0x8cc702081a6439ec;
    0x90befffa23631e28; 0xa4506cebde82bde9; 0xbef9a3f7b2c67915;
    0xc67178f2e372532b; 0xca273eceea26619c; 0xd186b8c721c0c207;
    0xeada7dd6cde0eb1e; 0xf57d4f7fee6ed178; 0x06f067aa72176fba;
    0x0a637dc5a2c898a6; 0x113f9804bef90dae; 0x1b710b35131c471b;
    0x28db77f523047d84; 0x32caab7b40c72493; 0x3c9ebe0a15c9bebc;
    0x431d67c49c100d4c; 0x4cc5d4becb3e42b6; 0x597f299cfc657e2a;
    0x5fcb6fab3ad6faec; 0x6c44198c4a475817
  ].

(** [n] as [k] bytes, most significant first. *)
Fixpoint be_bytes (k : nat) (n : N) : list N :=
  match k with
  | O => []
  | S k' => be_bytes k' (N.shiftr n 8) ++ [N.land n 255]
  end.

(** The bytes read as one number, most significant first. *)
Definition be_word (bs : list N) : N :=
  fold_left (fun acc b => acc * 256 + b) bs 0.

(** The message followed by the bit 1, zeros, and its length in bits on
    sixteen bytes, a multiple of 128 bytes in all. *)
Definition pad (msg : list N) : list N :=
  let n := length msg in
  let zeros := ((128 + 111 - n mod 128) mod 128)%nat in
  msg ++ [128] ++ repeat 0 zeros ++ be_bytes 16 (8 * N.of_nat n).

(** [l] cut into [n] pieces of [size] elements. *)
Fixpoint chunks {A} (size n : nat) (l : list A) : list (list A) :=
  match n with
  | O => []
  | S n' => firstn size l :: chunks size n' (skipn size l)
  end.

(** The message schedule, latest word first: [n] more words. *)
Fixpoint extend (n : nat) (w : list N) : list N :=
  match n with
  | O => w
  | S n' =>
      let x := add64 (add64 (add64 (sigma1 (nth 1 w 0)) (nth 6 w 0))
                        (sigma0 (nth 14 w 0))) (nth 15 w 0) in
      extend n' (x :: w)
  end.

Definition schedule (block : list N) : list N :=
  rev (extend 64 (rev (map be_word (chunks 8 16 block)))).

Definition state : Type := (N * N * N * N * N * N * N * N)%type.

Definition round (st : state) (kw : N * N) : state :=
  let '(a, b, c, d, e, f, g, h) := st in
  let t1 := add64 (add64 (add64 (add64 h (Sigma1 e)) (Ch e f g)) (fst kw))
              (snd kw) in
  let t2 := add64 (Sigma0 a) (Maj a b c) in
  (add64 t1 t2, a, b, c, add64 d t1, e, f, g).

Definition compress (st : state) (block : list N) : state :=
  let '(a, b, c, d, e, f, g, h) :=
    fold_left round (combine K (schedule block)) st in
  let '(a0, b0, c0, d0, e0, f0, g0, h0) := st in
  (add64 a0 a, add64 b0 b, add64 c0 c, add64 d0 d,
   add64 e0 e, add64 f0 f, add64 g0 g, add64 h0 h).

Definition init : state :=
  (nth 0 H0 0, nth 1 H0 0, nth 2 H0 0, nth 3 H0 0,
   nth 4 H0 0, nth 5 H0 0, nth 6 H0 0, nth 7 H0 0).

(** [hashlib.sha512(data).digest()], as byte values. *)
Definition digest (data : list Byte.byte) : list N :=
  let padded := pad (map Byte.to_N data) in
  let '(a, b, c, d, e, f, g, h) :=
    fold_left compress (chunks 128 (length padded / 128) padded) init in
  flat_map (be_bytes 8) [a; b; c; d; e; f; g; h].

(** One hexadecimal digit, in lower case. *)
Definition hex_digit (d : N) : N := if d <? 10 then 48 + d else 87 + d.

(** [hashlib.sha512(data).hexdigest()] *)
Definition hexdigest (data : list Byte.byte) : str :=
  flat_map (fun b => [hex_digit (b / 16); hex_digit (b mod 16)])
    (digest data).

End Sha512.

(* ================================================================== *)
(** * Building the sources *)
(* ================================================================== *)

(** [create_flatpak_source] *)
Definition create_flatpak_source (fs : filesystem) (repo : PosixPath.t)
    (u : ArtifactUrl.t) : result FlatpakFileSource.t :=
  let artifact := PosixPath.joinpath repo (ArtifactUrl.relpath u) in
  let dest_filename := PosixPath.name artifact in
  let dest_filename :=
    if PyStr.eqb dest_filename (py "maven-metadata.xml") then
      match glob fs (py "maven-metadata-*.xml")
              (PosixPath.to_str (PosixPath.parent artifact)) with
      | first :: _ => first
      | [] => dest_filename
      end
    else dest_filename in
  let dest :=
    PosixPath.as_posix
      (PosixPath.parent
         (PosixPath.joinpath
            (PosixPath.joinpath (PosixPath.of_str (py ".m2"))
               (py "repository"))
            (ArtifactUrl.relpath u))) in
  content <- read_bytes fs artifact ;;
  Ok (FlatpakFileSource.mk (ArtifactUrl.url u) dest dest_filename
        (Sha512.hexdigest content)).

(** The list comprehension of [update_dependencies]: the generator's
    values are turned into sources one by one, and its exception, if it
    ends with one, is raised after the last value. *)
Fixpoint collect_sources (fs : filesystem) (repo : PosixPath.t)
    (urls : list ArtifactUrl.t) (ending : option exn)
  : result (list FlatpakFileSource.t) :=
  match urls with
  | [] =>
      match ending with
      | Some e => Raise e
      | None => Ok []
      end
  | u :: rest =>
      src <- create_flatpak_source fs repo u ;;
      srcs <- collect_sources fs repo rest ending ;;
      Ok (src :: srcs)
  end.

(** Where [list.sort(key=...)] puts [x] in a sorted list: before the first
    element whose key is not below the key of [x], never past an equal key,
    which is what keeps the sort stable. *)
Fixpoint insert_by_key {A} (key : A -> str) (x : A) (l : list A) : list A :=
  match l with
  | [] => [x]
  | y :: l' =>
      if PyStr.ltb (key y) (key x) then y :: insert_by_key key x l'
      else x :: l
  end.

(** [l.sort(key=key)]: a stable sort that compares keys with [<]. *)
Fixpoint sort_by_key {A} (key : A -> str) (l : list A) : list A :=
  match l with
  | [] => []
  | x :: l' => insert_by_key key x (sort_by_key key l')
  end.

(** The list comprehension of [update_dependencies]: the sources of the
    artifacts found in the build output, in log order. *)
Definition synthesize_sources (fs : filesystem)
    (repo_directory : PosixPath.t) (stdout : str)
  : result (list FlatpakFileSource.t) :=
  let (urls, ending) := extract_downloaded_artifacts stdout in
  collect_sources fs repo_directory urls ending.

(** The part of [update_dependencies] after the build has run: [stdout] is
    the build's captured output and [fs] the file system it left, with the
    local repository at [repo_directory]. *)
Definition update_dependencies (fs : filesystem)
    (repo_directory : PosixPath.t) (stdout : str)
  : result (list FlatpakFileSource.t) :=
  sources <- synthesize_sources fs repo_directory stdout ;;
  Ok (sort_by_key FlatpakFileSource.url sources).

(* ================================================================== *)
(** * Writing the result *)
(* ================================================================== *)

(** [json.dump(sources, sink, indent=2, cls=SourceEncoder)]: the text the
    pure-Python encoder of the [json] module writes for a list of sources,
    each turned into its dict by [SourceEncoder.default]. *)
Module Json.

(** [n] as four lower-case hexadecimal digits, for [n] below 65536. *)
Definition hex4 (n : N) : str :=
  map Sha512.hex_digit
    [(n / 4096) mod 16; (n / 256) mod 16; (n / 16) mod 16; n mod 16]%N.

(** A backslash and the letter [u] before four digits. *)
Definition unicode_escape (n : N) : str := 92%N :: 117%N :: hex4 n.

(** What [encode_basestring_ascii] writes for one code point: the
    backslash, the double quote and every code point outside the range
    from the space to the tilde are escaped, code points from 65536 on as
    a surrogate pair. *)
Definition escape (c : N) : str :=
  (if c =? 92 then [92; 92]
   else if c =? 34 then [92; 34]
   else if (32 <=? c) && (c <=? 126) then [c]
   else if c =? 8 then [92; 98]
   else if c =? 12 then [92; 102]
   else if c =? 10 then [92; 110]
   else if c =? 13 then [92; 114]
   else if c =? 9 then [92; 116]
   else if c <? 65536 then unicode_escape c
   else
     let n := c - 65536 in
     unicode_escape (N.lor 55296 (N.land (N.shiftr n 10) 1023)) ++
     unicode_escape (N.lor 56320 (N.land n 1023)))%N.

(** [encode_basestring_ascii] *)
Definition encode_string (s : str) : str :=
  34%N :: flat_map escape s ++ [34%N].

(** A line feed and the indentation of nesting level [level]. *)
Definition newline_indent (level : nat) : str :=
  10%N :: repeat 32%N (2 * level).

(** The chunks joined, each but the first after [separator]. *)
Fixpoint join (separator : str) (chunks : list str) : str :=
  match chunks with
  | [] => []
  | [c] => c
  | c :: rest => c ++ separator ++ join separator rest
  end.

(** A dict of strings at nesting level [level]. *)
Definition encode_dict (level : nat) (items : list (str * str)) : str :=
  match items with
  | [] => py "{}"
  | _ :: _ =>
      py "{" ++ newline_indent (S level) ++
      join (py "," ++ newline_indent (S level))
        (map (fun kv => encode_string (fst kv) ++ py ": " ++
                        encode_string (snd kv)) items) ++
      newline_indent level ++ py "}"
  end.

(** The list of sources, at the top level. *)
Definition dump (sources : list FlatpakFileSource.t) : str :=
  match sources with
  | [] => py "[]"
  | _ :: _ =>
      py "[" ++ newline_indent 1 ++
      join (py "," ++ newline_indent 1)
        (map (fun o => encode_dict 1 (FlatpakFileSource.as_json o))
           sources) ++
      newline_indent 0 ++ py "]"
  end.

End Json.

(** The file [run_direct] writes: [maven-dependencies.json] beside the
    manifest. *)
Definition run_direct_target (manifest : PosixPath.t) : PosixPath.t :=
  PosixPath.joinpath (PosixPath.parent manifest)
    (py "maven-dependencies.json").

(** [run_direct], as the text it writes to its target: [manifest_text] is
    the text of the manifest, [stdout] and [fs] what the build of the
    source leaves in [repo_directory]. *)
Definition run_direct (manifest_text : str) (fs : filesystem)
    (repo_directory : PosixPath.t) (stdout : str) : result str :=
  source <- find_mediathekview_source manifest_text ;;
  sources <- update_dependencies fs repo_directory stdout ;;
  Ok (Json.dump sources).

(* ================================================================== *)
(** * The vocabulary of the specification *)
(* ================================================================== *)

(** [b] is a prefix of [u]. *)
Definition is_prefix_of (b u : str) : Prop := exists r, u = b ++ r.

(** [u] comes from a known repository. *)
Definition known_origin (u : str) : Prop :=
  exists b, In b REPO_BASES /\ is_prefix_of b u.

(** [b] is the first base of [REPO_BASES], in list order, that [u] starts
    with. *)
Definition first_matching_base (b u : str) : Prop :=
  exists before after,
    REPO_BASES = before ++ b :: after /\ is_prefix_of b u /\
    forall b', In b' before -> ~ is_prefix_of b' u.

(** The message of the [ValueError] for [u]. *)
Definition unknown_origin_message (u : str) : str :=
  u ++ py " is not from a known Maven repository".

(** [u] is a URL token: [http://] or [https://] and at least one code
    point, none of them a space. *)
Definition url_token (u : str) : Prop :=
  exists scheme tok,
    u = scheme ++ py "://" ++ tok /\
    (scheme = py "http" \/ scheme = py "https") /\
    tok <> [] /\ Forall (fun c => c <> 32%N) tok.

(** What may follow the URL token in its line: nothing, or a space. *)
Definition token_end (after : str) : Prop :=
  after = [] \/ exists after', after = 32%N :: after'.

(** The line [l] holds the phrase [Downloaded from], a repository
    identifier, a colon and the URL token [u], which ends with the line or
    at a space. *)
Definition download_line (l u : str) : Prop :=
  exists before ident after,
    l = before ++ py "Downloaded from " ++ ident ++ py ": " ++ u ++ after /\
    url_token u /\ token_end after.

(** Whether the regular expression finds a download in the line. *)
Definition has_download (l : str) : bool :=
  match DownloadedRe.search l with
  | Some _ => true
  | None => false
  end.

(** The URL tokens the regular expression takes out of the lines, in
    order. *)
Definition log_urls (lines : list str) : list str :=
  flat_map (fun l => match DownloadedRe.search l with
                     | Some g => [g]
                     | None => []
                     end) lines.

(** The name of a versioned Maven metadata file: what the wildcard
    [maven-metadata-*.xml] stands for. *)
Definition versioned_metadata_name (x : str) : Prop :=
  exists mid, x = py "maven-metadata-" ++ mid ++ py ".xml".

(** A lower-case hexadecimal digit. *)
Definition is_lower_hex (c : N) : bool :=
  ((48 <=? c) && (c <=? 57) || (97 <=? c) && (c <=? 102))%N.

(** The order of [list.sort] on a key: [a] may come before [b] when the
    key of [b] is not below the key of [a]. *)
Definition key_le {A} (key : A -> str) (a b : A) : Prop :=
  PyStr.ltb (key b) (key a) = false.

(** The order of the sources: by url, ascending. *)
Definition url_le (a b : FlatpakFileSource.t) : Prop :=
  key_le FlatpakFileSource.url a b.

(** The sources of [l] whose url is [k], in the order of [l]. *)
Definition with_url (k : str) (l : list FlatpakFileSource.t)
  : list FlatpakFileSource.t :=
  filter (fun a => PyStr.eqb (FlatpakFileSource.url a) k) l.

(** A text made of the given lines, each ended by a line feed. *)
Definition unlines (ls : list str) : str :=
  flat_map (fun l => l ++ [10%N]) ls.

(** ** The manifest scans as the specification words them *)

(** The lines after the first line that satisfies [cond]. *)
Fixpoint lines_after (cond : str -> bool) (lines : list str)
  : option (list str) :=
  match lines with
  | [] => None
  | l :: rest => if cond l then Some rest else lines_after cond rest
  end.

(** The text after the first colon of [l], nothing when there is none. *)
Definition value_after_colon (l : str) : str :=
  skipn 1 (PyStr.drop_while (fun c => negb (PyStr.ceqb c colon)) l).

(** The trimmed value of the first line whose trimmed form starts with
    [key]. *)
Definition first_value (key : str) (lines : list str) : option str :=
  match find (fun l => PyStr.startswith (PyStr.strip l) key) lines with
  | Some l => Some (PyStr.strip (value_after_colon (PyStr.strip l)))
  | None => None
  end.

(** The forward-only scan of the specification: the module marker, then
    from there the git marker, then from there the first [url:] and the
    first [commit:] line. *)
Definition find_source_forward (text : str) : result FlatpakGitSource.t :=
  let lines := PyStr.splitlines text in
  match lines_after (fun l => PyStr.eqb (PyStr.strip l)
                                (py "- name: mediathekview")) lines with
  | None => Raise (LookupError (py "mediathekview module not found"))
  | Some in_module =>
      match lines_after (fun l => PyStr.eqb (PyStr.strip l)
                                    (py "- type: git")) in_module with
      | None => Raise (LookupError (py "git source not found"))
      | Some in_source =>
          match first_value (py "url:") in_source,
                first_value (py "commit:") in_source with
          | Some u, Some c => Ok (FlatpakGitSource.mk u c)
          | _, _ =>
              Raise (LookupError
                (py "url or commit not found in main mediathekview source"))
          end
      end
  end.

Definition is_sdk_line (l : str) : bool := PyStr.startswith l (py "sdk:").

Definition is_version_line (l : str) : bool :=
  PyStr.startswith l (py "runtime-version").

(** A value with white space, then quotes, stripped. *)
Definition unquoted (s : str) : str :=
  PyStr.strip_chars quote_chars (PyStr.strip s).

(** The SDK identity as the specification words it: the values of the
    first [sdk:] line and of the first [runtime-version] line, both with
    quotes stripped. *)
Definition sdk_of_first_lines (manifest : str) : result FlatpakSdk.t :=
  let lines := PyStr.splitlines manifest in
  match find is_sdk_line lines, find is_version_line lines with
  | Some a, Some b =>
      Ok (FlatpakSdk.mk (unquoted (value_after_colon a))
            (unquoted (value_after_colon b)))
  | _, _ =>
      Raise (LookupError
               (py "Failed to find sdk or runtime-version in manifest"))
  end.

(** The latest line of [lines] that satisfies [p]. *)
Definition latest (p : str -> bool) (lines : list str) : option str :=
  find p (rev lines).

(** What [parse_from_manifest] holds after the lines [seen]: the name is
    the white-space-stripped value of the latest [sdk:] line, the version
    the unquoted value of the latest [runtime-version] line; both are
    there when both are set and not empty. *)
Definition sdk_seen (seen : list str) : option (str * str) :=
  match latest is_sdk_line seen, latest is_version_line seen with
  | Some a, Some b =>
      let n := PyStr.strip (value_after_colon a) in
      let v := unquoted (value_after_colon b) in
      if PyStr.truthy n && PyStr.truthy v then Some (n, v) else None
  | _, _ => None
  end.

(** The variables [name] and [version] of [parse_from_manifest] after the
    lines [seen]. *)
Definition sdk_vars (seen : list str) : option str * option str :=
  (option_map (fun a => PyStr.strip (value_after_colon a))
     (latest is_sdk_line seen),
   option_map (fun b => unquoted (value_after_colon b))
     (latest is_version_line seen)).

(** The loop of [parse_from_manifest], having read the lines [seen], goes
    through the lines [before] and returns at [line] with the name [n] and
    the version [v]: every [runtime-version] line up to [line] has a
    colon, after no line of [before] are both values there, and after
    [line] they are [n] and [v]. *)
Definition sdk_returns_at (seen before : list str) (line : str)
    (n v : str) : Prop :=
  (forall l, In l (before ++ [line]) ->
             is_version_line l = true -> In colon l) /\
  (forall p x q, before = p ++ x :: q ->
                 sdk_seen (seen ++ p ++ [x]) = None) /\
  sdk_seen (seen ++ before ++ [line]) = Some (n, v).

(** The loop goes through the lines [before] and breaks at [line], a
    [runtime-version] line without a colon. *)
Definition sdk_breaks_at (seen before : list str) (line : str) : Prop :=
  (forall l, In l before -> is_version_line l = true -> In colon l) /\
  (forall p x q, before = p ++ x :: q ->
                 sdk_seen (seen ++ p ++ [x]) = None) /\
  is_version_line line = true /\ ~ In colon line.

(** The loop goes through all of [rest] without returning or breaking. *)
Definition sdk_runs_out (seen rest : list str) : Prop :=
  (forall l, In l rest -> is_version_line l = true -> In colon l) /\
  (forall p x q, rest = p ++ x :: q ->
                 sdk_seen (seen ++ p ++ [x]) = None).

(** Whether after none of the lines both name and version are there. *)
Definition never_seen (lines : list str) : bool :=
  forallb (fun k => match sdk_seen (firstn (S k) lines) with
                    | None => true
                    | Some _ => false
                    end) (seq 0 (length lines)).

(** A path component as [_parse_path] keeps them: not empty, not a dot,
    and without a separator. *)
Definition component (x : str) : Prop :=
  PosixPath.kept x = true /\ ~ In PosixPath.sep x.

(** The three roots of a POSIX path. *)
Definition path_root (rt : str) : Prop :=
  rt = [] \/ rt = [PosixPath.sep] \/ rt = [PosixPath.sep; PosixPath.sep].

(** The reference names a file: its relative path is absolute or has at
    least one component. *)
Definition names_a_file (relpath : str) : Prop :=
  PosixPath.is_absolute relpath = true \/
  PosixPath.components relpath <> [].

(** The destination directory as the specification words it: the prefix
    [.m2/repository] and the parent directory of the relative path,
    joined with forward slashes; the prefix is always there, followed by
    the components of the parent directory. *)
Definition dest_of_prefix_and_parent (relpath : str) : str :=
  PosixPath.join_sep
    ([py ".m2"; py "repository"] ++
     PosixPath.tail (PosixPath.parent (PosixPath.of_str relpath))).

(** The destination directory as [create_flatpak_source] computes it. *)
Definition dest_of_joined (relpath : str) : str :=
  PosixPath.as_posix
    (PosixPath.parent
       (PosixPath.joinpath
          (PosixPath.joinpath (PosixPath.of_str (py ".m2"))
             (py "repository"))
          relpath)).

(** The entries of the directory [dir], in listing order; none when [dir]
    is not a directory. *)
Definition siblings (fs : filesystem) (dir : str) : list str :=
  match fs dir with
  | Some (Dir entries) => entries
  | _ => []
  end.

(** ["maven-metadata.xml"] *)
Definition maven_metadata : str := py "maven-metadata.xml".

(** The path of the cached artifact of a reference. *)
Definition artifact_path (repo : PosixPath.t) (u : ArtifactUrl.t)
  : PosixPath.t :=
  PosixPath.joinpath repo (ArtifactUrl.relpath u).

(** The final path segment of a reference. *)
Definition final_segment (u : ArtifactUrl.t) : str :=
  PosixPath.name (PosixPath.of_str (ArtifactUrl.relpath u)).

(** [repo] is a directory of the file system. *)
Definition fs_is_directory (fs : filesystem) (repo : PosixPath.t) : Prop :=
  exists entries, fs (PosixPath.to_str repo) = Some (Dir entries).

(** ** Further vocabulary *)

(** [s] neither starts nor ends with a code point that satisfies [f]. *)
Definition no_edge (f : N -> bool) (s : str) : Prop :=
  (forall c r, s = c :: r -> f c = false) /\
  (forall r c, s = r ++ [c] -> f c = false).

(** The code points [strip] removes in [parse_from_manifest]. *)
Definition is_quote (c : N) : bool := existsb (PyStr.ceqb c) quote_chars.

Definition is_module_marker (l : str) : bool :=
  PyStr.eqb (PyStr.strip l) (py "- name: mediathekview").

Definition is_git_marker (l : str) : bool :=
  PyStr.eqb (PyStr.strip l) (py "- type: git").

Definition is_url_line (l : str) : bool :=
  PyStr.startswith (PyStr.strip l) (py "url:").

Definition is_commit_line (l : str) : bool :=
  PyStr.startswith (PyStr.strip l) (py "commit:").

(** The trimmed value of a [url:] or [commit:] line. *)
Definition source_value (l : str) : str :=
  PyStr.strip (value_after_colon (PyStr.strip l)).

(** The variables [url] and [commit] of [find_mediathekview_source] after
    the lines [seen] of its third loop. *)
Definition source_vars (seen : list str) : option str * option str :=
  (option_map source_value (latest is_url_line seen),
   option_map source_value (latest is_commit_line seen)).

(** What the third loop of [find_mediathekview_source] holds after the
    lines [seen], when both values are set and not empty. *)
Definition source_seen (seen : list str) : option (str * str) :=
  both_truthy (fst (source_vars seen)) (snd (source_vars seen)).

(** Whether after none of the lines both url and commit are there. *)
Definition never_source_seen (lines : list str) : bool :=
  forallb (fun k => match source_seen (firstn (S k) lines) with
                    | None => true
                    | Some _ => false
                    end) (seq 0 (length lines)).

(** The source of one URL of the build output: the URL classified, then
    [create_flatpak_source]. *)
Definition source_of (fs : filesystem) (repo : PosixPath.t) (u : str)
  : result FlatpakFileSource.t :=
  a <- ArtifactUrl.parse_url u ;; create_flatpak_source fs repo a.

(** A code point of an ASCII text file: the line feed, or printable. *)
Definition is_json_text (c : N) : bool :=
  ((c =? 10) || (32 <=? c) && (c <=? 126))%N.

(** ** A local repository to run the functions on *)

Definition example_repo : PosixPath.t := PosixPath.of_str (py "/cache").

Definition example_fs : filesystem := fun p =>
  if PyStr.eqb p (py "/cache") then Some (Dir [py "foo"; py "g"])
  else if PyStr.eqb p (py "/cache/foo/bar/1.0") then
    Some (Dir [py "bar-1.0.jar"; py "bar-1.0.pom"])
  else if PyStr.eqb p (py "/cache/foo/bar/1.0/bar-1.0.jar") then
    Some (File (list_byte_of_string "abc"))
  else if PyStr.eqb p (py "/cache/foo/bar/1.0/bar-1.0.pom") then
    Some (File (list_byte_of_string "<project/>"))
  else if PyStr.eqb p (py "/cache/g/a/1.0-SNAPSHOT") then
    Some (Dir [py "resolver-status.properties"; py "maven-metadata.xml";
               py "maven-metadata-20240101.120000-3.xml"])
  else if PyStr.eqb p (py "/cache/g/a/1.0-SNAPSHOT/maven-metadata.xml") then
    Some (File (list_byte_of_string "<metadata/>"))
  else if PyStr.eqb p
            (py "/cache/g/a/1.0-SNAPSHOT/maven-metadata-20240101.120000-3.xml")
  then Some (File (list_byte_of_string "<metadata>3</metadata>"))
  else None.

(** The same repository without the versioned metadata file. *)
Definition example_fs_plain : filesystem := fun p =>
  if PyStr.eqb p (py "/cache/g/a/1.0-SNAPSHOT") then
    Some (Dir [py "resolver-status.properties"; py "maven-metadata.xml"])
  else example_fs p.

Definition example_jar : ArtifactUrl.t :=
  ArtifactUrl.mk
    (py "https://repo.maven.apache.org/maven2/foo/bar/1.0/bar-1.0.jar")
    (py "https://repo.maven.apache.org/maven2/")
    (py "foo/bar/1.0/bar-1.0.jar").

Definition example_metadata : ArtifactUrl.t :=
  ArtifactUrl.mk
    (py "https://oss.sonatype.org/content/repositories/snapshots/g/a/1.0-SNAPSHOT/maven-metadata.xml")
    (py "https://oss.sonatype.org/content/repositories/snapshots/")
    (py "g/a/1.0-SNAPSHOT/maven-metadata.xml").

Definition example_log : str :=
  unlines
    [py "[INFO] Scanning for projects...";
     py "Downloading from sonatype: https://oss.sonatype.org/content/repositories/snapshots/g/a/1.0-SNAPSHOT/maven-metadata.xml";
     py "Downloaded from sonatype: https://oss.sonatype.org/content/repositories/snapshots/g/a/1.0-SNAPSHOT/maven-metadata.xml (1 kB at 2 kB/s)";
     py "Downloaded from central: https://repo.maven.apache.org/maven2/foo/bar/1.0/bar-1.0.pom (2 kB at 9 kB/s)";
     py "Downloaded from central: https://repo.maven.apache.org/maven2/foo/bar/1.0/bar-1.0.jar (3 kB at 1 MB/s)";
     py "Downloaded from central: https://repo.maven.apache.org/maven2/foo/bar/1.0/bar-1.0.jar (3 kB at 1 MB/s)";
     py "[INFO] BUILD SUCCESS"].

(* ================================================================== *)
(** * Facts about strings *)
(* ================================================================== *)

Section StringFacts.

Lemma ceqb_eq (a b : N) : PyStr.ceqb a b = true <-> a = b.
Proof. unfold PyStr.ceqb. apply N.eqb_eq. Qed.

Lemma ceqb_neq (a b : N) : PyStr.ceqb a b = false <-> a <> b.
Proof. unfold PyStr.ceqb. apply N.eqb_neq. Qed.

Lemma ceqb_refl (a : N) : PyStr.ceqb a a = true.
Proof. apply ceqb_eq. reflexivity. Qed.

Lemma str_eqb_eq (s t : str) : PyStr.eqb s t = true <-> s = t.
Proof.
  revert t. induction s as [|a s IH]; intros [|b t]; simpl;
    try (split; congruence).
  rewrite andb_true_iff, ceqb_eq, IH. split.
  - intros [-> ->]. reflexivity.
  - intros H. injection H as -> ->. auto.
Qed.

Lemma str_eqb_refl (s : str) : PyStr.eqb s s = true.
Proof. apply str_eqb_eq. reflexivity. Qed.

Lemma str_eqb_neq (s t : str) : PyStr.eqb s t = false <-> s <> t.
Proof.
  split.
  - intros H E. apply str_eqb_eq in E. congruence.
  - intros H. destruct (PyStr.eqb s t) eqn:E; auto.
    apply str_eqb_eq in E. contradiction.
Qed.

Lemma startswith_spec (s p : str) :
  PyStr.startswith s p = true <-> is_prefix_of p s.
Proof.
  revert s. induction p as [|a p IH]; intros s; simpl.
  - split; [intros _; exists s; reflexivity | reflexivity].
  - destruct s as [|c s].
    + split; [discriminate|]. intros [r H]. discriminate.
    + split.
      * intros H. apply andb_true_iff in H. destruct H as [H1 H2].
        apply ceqb_eq in H1. apply IH in H2. destruct H2 as [r ->].
        subst. exists r. reflexivity.
      * intros [r H]. injection H as -> ->. rewrite ceqb_refl. simpl.
        apply IH. exists r. reflexivity.
Qed.

Lemma startswith_false (s p : str) :
  PyStr.startswith s p = false <-> ~ is_prefix_of p s.
Proof.
  split.
  - intros H E. apply startswith_spec in E. congruence.
  - intros H. destruct (PyStr.startswith s p) eqn:E; auto.
    apply startswith_spec in E. contradiction.
Qed.

Lemma slice_from_prefix (b r : str) :
  PyStr.slice_from (length b) (b ++ r) = r.
Proof.
  unfold PyStr.slice_from. induction b; simpl; auto.
Qed.

Lemma literal_spec (lit s r : str) :
  DownloadedRe.literal lit s = Some r <-> s = lit ++ r.
Proof.
  revert s. induction lit as [|a lit IH]; intros s; simpl.
  - split; congruence.
  - destruct s as [|c s]; [split; discriminate|].
    destruct (PyStr.ceqb c a) eqn:E.
    + apply ceqb_eq in E. subst. rewrite IH. split; congruence.
    + apply ceqb_neq in E. split; [discriminate|]. congruence.
Qed.

End StringFacts.

(* ================================================================== *)
(** * Classifying URLs *)
(* ================================================================== *)

Section Classification.

Lemma parse_url_in_found (bases : list str) (u : str) :
  (exists b, In b bases /\ is_prefix_of b u) ->
  exists before b after,
    bases = before ++ b :: after /\ is_prefix_of b u /\
    (forall b', In b' before -> ~ is_prefix_of b' u) /\
    ArtifactUrl.parse_url_in bases u =
      Ok (ArtifactUrl.mk u b (PyStr.slice_from (length b) u)).
Proof.
  induction bases as [|b0 bases IH]; intros [b [Hin Hp]].
  - destruct Hin.
  - simpl. destruct (PyStr.startswith u b0) eqn:E.
    + exists [], b0, bases. split; [reflexivity|].
      split; [apply startswith_spec; exact E|].
      split; [intros b' []|reflexivity].
    + destruct Hin as [->|Hin].
      * apply startswith_false in E. contradiction.
      * destruct IH as (before & b1 & after & -> & H1 & H2 & H3).
        { exists b. auto. }
        exists (b0 :: before), b1, after.
        split; [reflexivity|]. split; [exact H1|]. split; [|exact H3].
        intros b' [<-|Hb']; [apply startswith_false; exact E|auto].
Qed.

Lemma parse_url_in_not_found (bases : list str) (u : str) :
  (forall b, In b bases -> ~ is_prefix_of b u) ->
  ArtifactUrl.parse_url_in bases u =
    Raise (ValueError (unknown_origin_message u)).
Proof.
  induction bases as [|b0 bases IH]; intros H; simpl.
  - reflexivity.
  - destruct (PyStr.startswith u b0) eqn:E.
    + apply startswith_spec in E. exfalso. apply (H b0); simpl; auto.
    + apply IH. intros b Hb. apply H. simpl. auto.
Qed.

Lemma parse_url_known (u : str) :
  known_origin u ->
  exists a, ArtifactUrl.parse_url u = Ok a /\ ArtifactUrl.url a = u /\
            is_prefix_of (ArtifactUrl.repo_base_url a) u.
Proof.
  intros H. destruct (parse_url_in_found REPO_BASES u H)
    as (before & b & after & _ & Hp & _ & Hr).
  eexists. split; [exact Hr|]. simpl. auto.
Qed.

Lemma parse_url_unknown (u : str) :
  ~ known_origin u ->
  ArtifactUrl.parse_url u = Raise (ValueError (unknown_origin_message u)).
Proof.
  intros H. apply parse_url_in_not_found. intros b Hb Hp. apply H.
  exists b. auto.
Qed.

(** Whether [u] is of known origin can be computed. *)
Lemma known_origin_dec (u : str) :
  existsb (PyStr.startswith u) REPO_BASES = true <-> known_origin u.
Proof.
  rewrite existsb_exists. unfold known_origin.
  split; intros [b [H1 H2]]; exists b; split; auto;
    apply startswith_spec; auto.
Qed.

End Classification.

(* ================================================================== *)
(** * Scanning the build log *)
(* ================================================================== *)

Section LineFacts.

Lemma take_drop_while (f : N -> bool) (s : str) :
  s = PyStr.take_while f s ++ PyStr.drop_while f s.
Proof.
  induction s as [|c s IH]; simpl; auto.
  destruct (f c); simpl; congruence.
Qed.

Lemma take_while_all (f : N -> bool) (s : str) :
  Forall (fun c => f c = true) (PyStr.take_while f s).
Proof.
  induction s as [|c s IH]; simpl; auto.
  destruct (f c) eqn:E; auto.
Qed.

Lemma drop_while_head (f : N -> bool) (s : str) :
  PyStr.drop_while f s = [] \/
  exists c r, PyStr.drop_while f s = c :: r /\ f c = false.
Proof.
  induction s as [|c s IH]; simpl; auto.
  destruct (f c) eqn:E; auto. right. exists c, s. auto.
Qed.

Lemma take_while_app_stop (f : N -> bool) (tok after : str) :
  Forall (fun c => f c = true) tok ->
  (after = [] \/ exists c r, after = c :: r /\ f c = false) ->
  PyStr.take_while f (tok ++ after) = tok.
Proof.
  intros Ht Ha. induction Ht as [|c tok Hc Ht IH]; simpl.
  - destruct Ha as [->|(c & r & -> & Hc)]; simpl; auto. rewrite Hc. auto.
  - rewrite Hc, IH. reflexivity.
Qed.

(** No line of [splitlines] holds a line boundary. *)
Lemma splitlines_from_no_linebreak (n : nat) :
  forall s cur, length s <= n ->
    Forall (fun c => PyStr.is_linebreak c = false) cur ->
    Forall (Forall (fun c => PyStr.is_linebreak c = false))
      (PyStr.splitlines_from cur s).
Proof.
  induction n as [|n IH]; intros s cur Hlen Hcur.
  - destruct s; [|simpl in Hlen; lia]. simpl.
    destruct (PyStr.is_empty cur); auto.
  - destruct s as [|c s]; simpl.
    + destruct (PyStr.is_empty cur); auto.
    + simpl in Hlen. destruct (PyStr.is_linebreak c) eqn:E.
      * constructor; auto.
        destruct s as [|d s']; [apply IH; simpl; auto; lia|].
        simpl in Hlen.
        destruct (PyStr.ceqb c 13 && PyStr.ceqb d 10);
          apply IH; simpl; auto; lia.
      * apply IH; [lia|]. apply Forall_app. auto.
Qed.

Lemma splitlines_no_linebreak (s l : str) :
  In l (PyStr.splitlines s) ->
  Forall (fun c => PyStr.is_linebreak c = false) l.
Proof.
  intros H.
  pose proof (splitlines_from_no_linebreak (length s) s [] (le_n _)
                (Forall_nil _)) as HF.
  rewrite Forall_forall in HF. apply HF. exact H.
Qed.

End LineFacts.

Section RegexFacts.

Lemma nonspace_plus_sound (s tok : str) :
  DownloadedRe.nonspace_plus s = Some tok ->
  tok <> [] /\ Forall (fun c => c <> 32%N) tok /\
  exists after, s = tok ++ after /\ token_end after.
Proof.
  unfold DownloadedRe.nonspace_plus. intros H.
  set (f := fun c => negb (PyStr.ceqb c 32)) in *.
  destruct (PyStr.take_while f s) as [|c t] eqn:E; simpl in H;
    [discriminate|]. injection H as <-.
  split; [discriminate|]. split.
  - pose proof (take_while_all f s) as HA. rewrite E in HA.
    eapply Forall_impl; [|exact HA]. intros a Ha. unfold f in Ha.
    apply negb_true_iff, ceqb_neq in Ha. exact Ha.
  - exists (PyStr.drop_while f s). split.
    + rewrite <- E. apply take_drop_while.
    + destruct (drop_while_head f s) as [->|(d & r & -> & Hd)].
      * left. reflexivity.
      * right. exists r. unfold f in Hd.
        apply negb_false_iff, ceqb_eq in Hd. congruence.
Qed.

Lemma nonspace_plus_complete (tok after : str) :
  tok <> [] -> Forall (fun c => c <> 32%N) tok -> token_end after ->
  DownloadedRe.nonspace_plus (tok ++ after) = Some tok.
Proof.
  intros Hne Ht Ha. unfold DownloadedRe.nonspace_plus.
  rewrite take_while_app_stop.
  - destruct tok; [contradiction|reflexivity].
  - eapply Forall_impl; [|exact Ht]. intros a Hn. simpl in Hn.
    apply negb_true_iff, ceqb_neq. exact Hn.
  - destruct Ha as [->|[r ->]]; [left; reflexivity|].
    right. exists 32%N, r. split; reflexivity.
Qed.

Lemma url_rest_sound (scheme s g : str) :
  DownloadedRe.url_rest scheme s = Some g ->
  exists tok after,
    s = py "://" ++ tok ++ after /\ g = scheme ++ py "://" ++ tok /\
    tok <> [] /\ Forall (fun c => c <> 32%N) tok /\ token_end after.
Proof.
  unfold DownloadedRe.url_rest. intros H.
  destruct (DownloadedRe.literal (py "://") s) as [t|] eqn:El;
    [|discriminate].
  destruct (DownloadedRe.nonspace_plus t) as [tok|] eqn:Et;
    [|discriminate].
  injection H as <-. apply literal_spec in El.
  apply nonspace_plus_sound in Et.
  destruct Et as (Hne & Hf & after & -> & Ha).
  exists tok, after. auto.
Qed.

Lemma url_rest_complete (scheme tok after : str) :
  tok <> [] -> Forall (fun c => c <> 32%N) tok -> token_end after ->
  DownloadedRe.url_rest scheme (py "://" ++ tok ++ after) =
    Some (scheme ++ py "://" ++ tok).
Proof.
  intros Hne Ht Ha. unfold DownloadedRe.url_rest.
  assert (El : DownloadedRe.literal (py "://") (py "://" ++ tok ++ after)
               = Some (tok ++ after)) by (apply literal_spec; reflexivity).
  rewrite El, nonspace_plus_complete by assumption. reflexivity.
Qed.

Lemma url_group_sound (s g : str) :
  DownloadedRe.url_group s = Some g ->
  url_token g /\ exists after, s = g ++ after /\ token_end after.
Proof.
  unfold DownloadedRe.url_group. intros H.
  destruct (DownloadedRe.literal (py "http") s) as [r|] eqn:El;
    [|discriminate].
  apply literal_spec in El. subst s.
  assert (Hhttp : DownloadedRe.url_rest (py "http") r = Some g ->
    url_token g /\ exists after, py "http" ++ r = g ++ after /\
                                 token_end after).
  { intros Hr. apply url_rest_sound in Hr.
    destruct Hr as (tok & after & -> & -> & Hne & Hf & Ha). split.
    - exists (py "http"), tok. auto.
    - exists after. split; [|exact Ha]. rewrite <- !app_assoc.
      reflexivity. }
  destruct r as [|c r']; [auto|].
  destruct (PyStr.ceqb c 115) eqn:Ec; [|auto].
  destruct (DownloadedRe.url_rest (py "https") r') as [g'|] eqn:Es;
    [|auto].
  injection H as <-. apply ceqb_eq in Ec. subst c.
  apply url_rest_sound in Es.
  destruct Es as (tok & after & -> & -> & Hne & Hf & Ha). split.
  - exists (py "https"), tok. auto.
  - exists after. split; [|exact Ha]. rewrite <- !app_assoc. reflexivity.
Qed.

Lemma url_group_complete (u after : str) :
  url_token u -> token_end after ->
  DownloadedRe.url_group (u ++ after) = Some u.
Proof.
  intros (scheme & tok & -> & Hs & Hne & Hf) Ha.
  unfold DownloadedRe.url_group.
  destruct Hs as [-> | ->].
  - assert (El : DownloadedRe.literal (py "http")
                   ((py "http" ++ py "://" ++ tok) ++ after)
                 = Some (py "://" ++ tok ++ after)).
    { apply literal_spec. rewrite <- !app_assoc. reflexivity. }
    rewrite El. change (py "://" ++ tok ++ after)
      with (58%N :: 47%N :: 47%N :: tok ++ after).
    change (PyStr.ceqb 58 115) with false. cbv iota.
    apply (url_rest_complete (py "http") tok after); assumption.
  - assert (El : DownloadedRe.literal (py "http")
                   ((py "https" ++ py "://" ++ tok) ++ after)
                 = Some (115%N :: py "://" ++ tok ++ after)).
    { apply literal_spec. rewrite <- !app_assoc. reflexivity. }
    rewrite El. rewrite ceqb_refl.
    rewrite (url_rest_complete (py "https") tok after) by assumption.
    reflexivity.
Qed.

Lemma colon_url_sound (s g : str) :
  DownloadedRe.colon_url s = Some g ->
  url_token g /\ exists after, s = py ": " ++ g ++ after /\ token_end after.
Proof.
  unfold DownloadedRe.colon_url. intros H.
  destruct (DownloadedRe.literal (py ": ") s) as [r|] eqn:El;
    [|discriminate].
  apply literal_spec in El. apply url_group_sound in H.
  destruct H as (Hu & after & -> & Ha). subst s. split; auto.
  exists after. auto.
Qed.

Lemma colon_url_complete (u after : str) :
  url_token u -> token_end after ->
  DownloadedRe.colon_url (py ": " ++ u ++ after) = Some u.
Proof.
  intros Hu Ha. unfold DownloadedRe.colon_url.
  assert (El : DownloadedRe.literal (py ": ") (py ": " ++ u ++ after)
               = Some (u ++ after)) by (apply literal_spec; reflexivity).
  rewrite El. apply url_group_complete; assumption.
Qed.

Lemma dotstar_sound (s g : str) :
  DownloadedRe.dotstar_colon_url s = Some g ->
  url_token g /\
  exists ident after, s = ident ++ py ": " ++ g ++ after /\ token_end after.
Proof.
  induction s as [|c s IH]; simpl; intros H.
  - apply colon_url_sound in H. destruct H as (Hu & after & E & Ha).
    split; auto. exists [], after. auto.
  - assert (Hhere : DownloadedRe.colon_url (c :: s) = Some g ->
      url_token g /\ exists ident after,
        c :: s = ident ++ py ": " ++ g ++ after /\ token_end after).
    { intros Hc. apply colon_url_sound in Hc.
      destruct Hc as (Hu & after & E & Ha). split; auto.
      exists [], after. auto. }
    destruct (PyStr.ceqb c 10); [auto|].
    destruct (DownloadedRe.dotstar_colon_url s) as [g'|] eqn:Ed; [|auto].
    injection H as <-. destruct (IH eq_refl) as (Hu & ident & after & -> & Ha).
    split; auto. exists (c :: ident), after. auto.
Qed.

Lemma dotstar_cons (c : N) (s : str) :
  c <> 10%N ->
  DownloadedRe.dotstar_colon_url (c :: s) =
    match DownloadedRe.dotstar_colon_url s with
    | Some g => Some g
    | None => DownloadedRe.colon_url (c :: s)
    end.
Proof.
  intros H. apply ceqb_neq in H.
  change (DownloadedRe.dotstar_colon_url (c :: s))
    with (if PyStr.ceqb c 10 then DownloadedRe.colon_url (c :: s)
          else match DownloadedRe.dotstar_colon_url s with
               | Some g => Some g
               | None => DownloadedRe.colon_url (c :: s)
               end).
  rewrite H. reflexivity.
Qed.

Lemma dotstar_complete (ident u after : str) :
  Forall (fun c => c <> 10%N) ident -> url_token u -> token_end after ->
  exists g,
    DownloadedRe.dotstar_colon_url (ident ++ py ": " ++ u ++ after) = Some g.
Proof.
  intros Hi Hu Ha. induction Hi as [|c ident Hc Hi IH].
  - pose proof (colon_url_complete u after Hu Ha) as Hc.
    change ([] ++ py ": " ++ u ++ after)
      with (58%N :: 32%N :: u ++ after).
    change (py ": " ++ u ++ after) with (58%N :: 32%N :: u ++ after) in Hc.
    rewrite dotstar_cons by discriminate. rewrite Hc.
    destruct (DownloadedRe.dotstar_colon_url (32%N :: u ++ after)); eauto.
  - destruct IH as [g Hg].
    change ((c :: ident) ++ py ": " ++ u ++ after)
      with (c :: ident ++ py ": " ++ u ++ after).
    rewrite dotstar_cons by assumption. rewrite Hg. eauto.
Qed.

Lemma search_unfold (l : str) :
  DownloadedRe.search l =
    match DownloadedRe.match_here l with
    | Some g => Some g
    | None => match l with
              | [] => None
              | _ :: l' => DownloadedRe.search l'
              end
    end.
Proof. destruct l; reflexivity. Qed.

Lemma match_here_sound (l g : str) :
  DownloadedRe.match_here l = Some g ->
  url_token g /\
  exists ident after,
    l = py "Downloaded from " ++ ident ++ py ": " ++ g ++ after /\
    token_end after.
Proof.
  unfold DownloadedRe.match_here. intros E.
  destruct (DownloadedRe.literal (py "Downloaded from ") l)
    as [r|] eqn:El; [|discriminate].
  apply literal_spec in El. apply dotstar_sound in E.
  destruct E as (Hu & ident & after & -> & Ha).
  split; auto. exists ident, after. auto.
Qed.

Lemma search_sound (l g : str) :
  DownloadedRe.search l = Some g -> download_line l g.
Proof.
  induction l as [|c l IH]; rewrite search_unfold; intros H.
  - destruct (DownloadedRe.match_here []) as [g'|] eqn:E; [|discriminate].
    injection H as <-. apply match_here_sound in E.
    destruct E as (Hu & ident & after & -> & Ha).
    exists [], ident, after. auto.
  - destruct (DownloadedRe.match_here (c :: l)) as [g'|] eqn:E.
    + injection H as <-. apply match_here_sound in E.
      destruct E as (Hu & ident & after & -> & Ha).
      exists [], ident, after. auto.
    + destruct (IH H) as (before & ident & after & -> & Hu & Ha).
      exists (c :: before), ident, after. auto.
Qed.

Lemma search_complete (l u : str) :
  Forall (fun c => c <> 10%N) l -> download_line l u ->
  exists g, DownloadedRe.search l = Some g.
Proof.
  intros Hl (before & ident & after & -> & Hu & Ha).
  assert (Hi : Forall (fun c => c <> 10%N) ident).
  { apply Forall_app in Hl. destruct Hl as [_ Hl].
    apply Forall_app in Hl. destruct Hl as [_ Hl].
    apply Forall_app in Hl. tauto. }
  clear Hl.
  assert (Hm : exists g, DownloadedRe.match_here
             (py "Downloaded from " ++ ident ++ py ": " ++ u ++ after)
             = Some g).
  { unfold DownloadedRe.match_here.
    assert (El : DownloadedRe.literal (py "Downloaded from ")
                   (py "Downloaded from " ++ ident ++ py ": " ++ u ++ after)
                 = Some (ident ++ py ": " ++ u ++ after))
      by (apply literal_spec; reflexivity).
    rewrite El. apply dotstar_complete; assumption. }
  induction before as [|c before IH].
  - destruct Hm as [g Hg]. rewrite search_unfold.
    change ([] ++ py "Downloaded from " ++ ident ++ py ": " ++ u ++ after)
      with (py "Downloaded from " ++ ident ++ py ": " ++ u ++ after).
    rewrite Hg. eauto.
  - rewrite <- app_comm_cons, search_unfold.
    destruct (DownloadedRe.match_here (c :: _)); eauto.
Qed.

Lemma linebreak_free_no_lf (l : str) :
  Forall (fun c => PyStr.is_linebreak c = false) l ->
  Forall (fun c => c <> 10%N) l.
Proof.
  apply Forall_impl. intros a H ->. vm_compute in H. discriminate.
Qed.

(** On a line of [splitlines] the regular expression finds a download
    exactly when the line is a download line. *)
Lemma has_download_iff (log l : str) :
  In l (PyStr.splitlines log) ->
  has_download l = true <-> exists u, download_line l u.
Proof.
  intros Hin. unfold has_download. split.
  - destruct (DownloadedRe.search l) as [g|] eqn:E; [|discriminate].
    intros _. exists g. apply search_sound. exact E.
  - intros [u Hu].
    destruct (search_complete l u) as [g ->]; auto.
    apply linebreak_free_no_lf. eapply splitlines_no_linebreak. eauto.
Qed.

End RegexFacts.

Section Extraction.

Lemma filter_none {A} (f : A -> bool) (l : list A) :
  (forall x, In x l -> f x = false) -> filter f l = [].
Proof.
  induction l as [|x l IH]; intros H; simpl; auto.
  rewrite (H x) by (left; reflexivity). apply IH.
  intros y Hy. apply H. right. exact Hy.
Qed.

Lemma extract_from_lines_known (lines : list str) :
  (forall l g, In l lines -> DownloadedRe.search l = Some g ->
               known_origin g) ->
  exists ys,
    extract_from_lines lines = (ys, None) /\
    Forall2 (fun l y => DownloadedRe.search l = Some (ArtifactUrl.url y) /\
                        ArtifactUrl.parse_url (ArtifactUrl.url y) = Ok y)
      (filter has_download lines) ys.
Proof.
  induction lines as [|l lines IH]; intros H; simpl.
  - exists []. split; [reflexivity|constructor].
  - destruct IH as (ys & Hys & HF).
    { intros l' g Hl'. apply H. right. exact Hl'. }
    unfold has_download at 1.
    destruct (DownloadedRe.search l) as [g|] eqn:E.
    + destruct (parse_url_known g) as (a & Ha & Hu & _).
      { apply (H l g); [left; reflexivity|exact E]. }
      rewrite Ha, Hys. exists (a :: ys). split; [reflexivity|].
      constructor; [|exact HF]. rewrite Hu. auto.
    + exists ys. auto.
Qed.

Lemma extract_from_lines_unknown (before : list str) (line : str)
    (after : list str) (u : str) :
  DownloadedRe.search line = Some u -> ~ known_origin u ->
  (forall l g, In l before -> DownloadedRe.search l = Some g ->
               known_origin g) ->
  exists ys,
    extract_from_lines (before ++ line :: after) =
      (ys, Some (ValueError (unknown_origin_message u))) /\
    map ArtifactUrl.url ys = log_urls before.
Proof.
  intros Hs Hu. induction before as [|l before IH]; intros H; simpl.
  - rewrite Hs, (parse_url_unknown u Hu). exists []. auto.
  - destruct IH as (ys & Hys & Hm).
    { intros l' g Hl'. apply H. right. exact Hl'. }
    destruct (DownloadedRe.search l) as [g|] eqn:E.
    + destruct (parse_url_known g) as (a & Ha & Hg & _).
      { apply (H l g); [left; reflexivity|exact E]. }
      rewrite Ha, Hys. exists (a :: ys). split; [reflexivity|].
      simpl. rewrite Hg, Hm. reflexivity.
    + exists ys. auto.
Qed.

Lemma collect_sources_ending (fs : filesystem) (repo : PosixPath.t)
    (ys : list ArtifactUrl.t) (e : exn) :
  exists e', collect_sources fs repo ys (Some e) = Raise e'.
Proof.
  induction ys as [|y ys [e' IH]]; simpl.
  - exists e. reflexivity.
  - destruct (create_flatpak_source fs repo y); simpl; eauto.
    rewrite IH. simpl. eauto.
Qed.

(** C1: a URL that starts with one of the known base URLs is classified:
    [parse_url] returns a reference with the URL itself, the first base in
    list order the URL starts with, and the URL without that prefix as
    relative path, so that base and relative path concatenate to the URL
    and the base belongs to [REPO_BASES]. *)
Theorem parse_url_round_trip (u : str) :
  known_origin u ->
  exists a,
    ArtifactUrl.parse_url u = Ok a /\
    ArtifactUrl.url a = u /\
    first_matching_base (ArtifactUrl.repo_base_url a) u /\
    ArtifactUrl.relpath a =
      PyStr.slice_from (length (ArtifactUrl.repo_base_url a)) u /\
    ArtifactUrl.repo_base_url a ++ ArtifactUrl.relpath a = u /\
    In (ArtifactUrl.repo_base_url a) REPO_BASES.
Proof.
  intros H.
  destruct (parse_url_in_found REPO_BASES u H)
    as (before & b & after & Hb & Hp & Hfirst & Hr).
  eexists. split; [exact Hr|].
  cbn [ArtifactUrl.url ArtifactUrl.repo_base_url ArtifactUrl.relpath].
  split; [reflexivity|]. split; [exists before, after; auto|].
  split; [reflexivity|]. split.
  - destruct Hp as [r ->]. rewrite slice_from_prefix. reflexivity.
  - rewrite Hb. apply in_or_app. right. left. reflexivity.
Qed.

Lemma parse_url_round_trip_witness :
  let u := py "https://repo.maven.apache.org/maven2/foo/bar/1.0/bar-1.0.jar" in
  known_origin u /\
  exists a,
    ArtifactUrl.parse_url u = Ok a /\
    ArtifactUrl.url a = u /\
    first_matching_base (ArtifactUrl.repo_base_url a) u /\
    ArtifactUrl.relpath a =
      PyStr.slice_from (length (ArtifactUrl.repo_base_url a)) u /\
    ArtifactUrl.repo_base_url a ++ ArtifactUrl.relpath a = u /\
    In (ArtifactUrl.repo_base_url a) REPO_BASES.
Proof.
  intros u.
  assert (H : known_origin u) by (apply known_origin_dec; reflexivity).
  split; [exact H|]. exact (parse_url_round_trip u H).
Defined.

(** C3: a URL that starts with none of the known base URLs is not
    classified: [parse_url] raises a [ValueError] whose message starts with
    the URL, and returns no reference.  When the build log reaches a line
    with such a URL, the lines before it having URLs of known origin, the
    extraction ends with that error after the references of the earlier
    lines, and [update_dependencies] raises. *)
Theorem parse_url_unknown_origin (u : str) :
  ~ known_origin u ->
  ArtifactUrl.parse_url u = Raise (ValueError (unknown_origin_message u)) /\
  is_prefix_of u (unknown_origin_message u) /\
  forall log before line after,
    PyStr.splitlines log = before ++ line :: after ->
    DownloadedRe.search line = Some u ->
    (forall l g, In l before -> DownloadedRe.search l = Some g ->
                 known_origin g) ->
    (exists ys,
       extract_downloaded_artifacts log =
         (ys, Some (ValueError (unknown_origin_message u))) /\
       map ArtifactUrl.url ys = log_urls before) /\
    forall fs repo, exists e, update_dependencies fs repo log = Raise e.
Proof.
  intros Hu. split; [apply parse_url_unknown; exact Hu|].
  split; [eexists; reflexivity|].
  intros log before line after Hl Hs Hb.
  destruct (extract_from_lines_unknown before line after u Hs Hu Hb)
    as (ys & Hys & Hm).
  assert (He : extract_downloaded_artifacts log =
               (ys, Some (ValueError (unknown_origin_message u)))).
  { unfold extract_downloaded_artifacts. rewrite Hl. exact Hys. }
  split; [exists ys; auto|].
  intros fs repo. unfold update_dependencies, synthesize_sources.
  rewrite He.
  destruct (collect_sources_ending fs repo ys
              (ValueError (unknown_origin_message u))) as [e' ->].
  exists e'. reflexivity.
Qed.

Lemma parse_url_unknown_origin_witness :
  let u := py "https://example.org/a.jar" in
  let first :=
    py "Downloaded from central: https://repo.maven.apache.org/maven2/a/1/a-1.pom" in
  let second := py "Downloaded from x: https://example.org/a.jar" in
  let log := first ++ 10%N :: second in
  ~ known_origin u /\
  ArtifactUrl.parse_url u = Raise (ValueError (unknown_origin_message u)) /\
  exists ys,
    extract_downloaded_artifacts log =
      (ys, Some (ValueError (unknown_origin_message u))) /\
    map ArtifactUrl.url ys = log_urls [first].
Proof.
  intros u first second log.
  assert (H : ~ known_origin u).
  { intros K. apply known_origin_dec in K. vm_compute in K.
    discriminate. }
  destruct (parse_url_unknown_origin u H) as (H1 & _ & H2).
  split; [exact H|]. split; [exact H1|].
  refine (proj1 (H2 log [first] second [] eq_refl eq_refl _)).
  intros l g [<-|[]] Hs. vm_compute in Hs. injection Hs as <-.
  apply known_origin_dec. reflexivity.
Defined.

(** C4, as amended: when every URL the regular expression takes out of
    the build output starts with a known base URL, the extraction yields
    one reference per download line, in the order of the lines and
    without dropping repeats, each with the URL token of its line, and
    ends without an error; the download lines are the lines that hold the
    phrase, an identifier, a colon and a URL token; a text without such a
    line yields nothing. *)
Theorem extract_one_reference_per_download_line (log : str) :
  (forall l g, In l (PyStr.splitlines log) ->
               DownloadedRe.search l = Some g -> known_origin g) ->
  exists ys,
    extract_downloaded_artifacts log = (ys, None) /\
    Forall2 (fun l y => download_line l (ArtifactUrl.url y) /\
                        ArtifactUrl.parse_url (ArtifactUrl.url y) = Ok y)
      (filter has_download (PyStr.splitlines log)) ys /\
    (forall l, In l (PyStr.splitlines log) ->
               (has_download l = true <-> exists u, download_line l u)) /\
    ((forall l u, In l (PyStr.splitlines log) -> ~ download_line l u) ->
     ys = []).
Proof.
  intros H.
  destruct (extract_from_lines_known (PyStr.splitlines log) H)
    as (ys & Hys & HF).
  exists ys. split; [exact Hys|]. split; [|split].
  - eapply Forall2_impl; [|exact HF]. intros l y [H1 H2]. split; auto.
    apply search_sound. exact H1.
  - intros l Hl. apply (has_download_iff log l Hl).
  - intros Hnone.
    assert (E : filter has_download (PyStr.splitlines log) = []).
    { apply filter_none. intros l Hl.
      destruct (has_download l) eqn:Ed; auto.
      apply (has_download_iff log l Hl) in Ed. destruct Ed as [u Hd].
      exfalso. apply (Hnone l u Hl Hd). }
    rewrite E in HF. inversion HF. reflexivity.
Qed.

(** C4, the claim as stated fails: a download line whose URL is of
    unknown origin yields no reference, the extraction ends with an
    error. *)
Lemma extract_unknown_origin_counterexample :
  let line := py "Downloaded from x: https://example.org/a.jar" in
  PyStr.splitlines line = [line] /\
  download_line line (py "https://example.org/a.jar") /\
  extract_downloaded_artifacts line =
    ([], Some (ValueError
                 (unknown_origin_message (py "https://example.org/a.jar")))).
Proof.
  intros line. split; [reflexivity|]. split; [|reflexivity].
  apply search_sound. reflexivity.
Qed.

Lemma extract_one_reference_per_download_line_witness :
  let log := py "Downloaded from central: https://repo.maven.apache.org/maven2/foo/bar/1.0/bar-1.0.jar (3 kB)" in
  (forall l g, In l (PyStr.splitlines log) ->
               DownloadedRe.search l = Some g -> known_origin g) /\
  exists ys,
    extract_downloaded_artifacts log = (ys, None) /\
    Forall2 (fun l y => download_line l (ArtifactUrl.url y) /\
                        ArtifactUrl.parse_url (ArtifactUrl.url y) = Ok y)
      (filter has_download (PyStr.splitlines log)) ys.
Proof.
  intros log.
  assert (H : forall l g, In l (PyStr.splitlines log) ->
               DownloadedRe.search l = Some g -> known_origin g).
  { intros l g [<-|[]] Hs. vm_compute in Hs. injection Hs as <-.
    apply known_origin_dec. reflexivity. }
  split; [exact H|].
  destruct (extract_one_reference_per_download_line log H)
    as (ys & H1 & H2 & _).
  exists ys. auto.
Defined.

End Extraction.

(* ================================================================== *)
(** * Reading the manifest *)
(* ================================================================== *)

Section ManifestFacts.

(** [line.split(":", maxsplit=1)] has a second element exactly when the
    line has a colon, and it is the text after the first one. *)
Lemma split_once_from_second (sep : N) (before s : str) :
  nth_error (PyStr.split_once_from sep before s) 1 =
    match PyStr.drop_while (fun c => negb (PyStr.ceqb c sep)) s with
    | [] => None
    | _ :: r => Some r
    end.
Proof.
  revert before. induction s as [|c s IH]; intros before.
  - reflexivity.
  - cbn [PyStr.split_once_from PyStr.drop_while].
    destruct (PyStr.ceqb c sep); cbn [negb]; [reflexivity|apply IH].
Qed.

Lemma drop_to_colon_nil (l : str) :
  PyStr.drop_while (fun c => negb (PyStr.ceqb c colon)) l = [] <->
  ~ In colon l.
Proof.
  induction l as [|c l IH]; simpl.
  - tauto.
  - destruct (PyStr.ceqb c colon) eqn:E; simpl.
    + apply ceqb_eq in E. split; [discriminate|]. intros H. exfalso.
      apply H. left. auto.
    + apply ceqb_neq in E. rewrite IH. split.
      * intros H [K|K]; [congruence|contradiction].
      * intros H K. apply H. right. exact K.
Qed.

Lemma after_colon_ok (l : str) :
  In colon l -> after_colon l = Ok (value_after_colon l).
Proof.
  intros H. unfold after_colon, PyStr.index, PyStr.split_once,
    value_after_colon.
  rewrite split_once_from_second.
  destruct (PyStr.drop_while _ l) eqn:E; [|reflexivity].
  apply drop_to_colon_nil in E. contradiction.
Qed.

Lemma after_colon_raise (l : str) :
  ~ In colon l -> after_colon l = Raise IndexError.
Proof.
  intros H. unfold after_colon, PyStr.index, PyStr.split_once.
  rewrite split_once_from_second.
  apply drop_to_colon_nil in H. rewrite H. reflexivity.
Qed.

Lemma sdk_line_has_colon (l : str) : is_sdk_line l = true -> In colon l.
Proof.
  intros H. apply startswith_spec in H. destruct H as [r ->].
  right. right. right. left. reflexivity.
Qed.

Lemma sdk_line_not_version (l : str) :
  is_sdk_line l = true -> is_version_line l = false.
Proof.
  intros H. apply startswith_spec in H. destruct H as [r ->].
  reflexivity.
Qed.

Lemma latest_snoc (p : str -> bool) (seen : list str) (l : str) :
  latest p (seen ++ [l]) = if p l then Some l else latest p seen.
Proof. unfold latest. rewrite rev_unit. reflexivity. Qed.

Lemma never_seen_spec (lines : list str) :
  never_seen lines = true ->
  forall p x q, lines = p ++ x :: q -> sdk_seen (p ++ [x]) = None.
Proof.
  unfold never_seen. rewrite forallb_forall. intros H p x q ->.
  specialize (H (length p)).
  assert (E : firstn (S (length p)) (p ++ x :: q) = p ++ [x]).
  { clear H. induction p as [|a p IH]; [reflexivity|].
    simpl in *. rewrite IH. reflexivity. }
  rewrite E in H.
  destruct (sdk_seen (p ++ [x])); [|reflexivity].
  assert (K : false = true); [|discriminate].
  apply H. apply in_seq. rewrite length_app. simpl. lia.
Qed.

Lemma both_truthy_sdk_vars (seen : list str) :
  both_truthy (fst (sdk_vars seen)) (snd (sdk_vars seen)) = sdk_seen seen.
Proof.
  unfold sdk_vars, sdk_seen. simpl.
  destruct (latest is_sdk_line seen), (latest is_version_line seen);
    reflexivity.
Qed.

Lemma sdk_step_ok (seen : list str) (l : str) :
  (is_version_line l = true -> In colon l) ->
  FlatpakSdk.sdk_step (fst (sdk_vars seen)) (snd (sdk_vars seen)) l =
    Ok (sdk_vars (seen ++ [l])).
Proof.
  intros Hc. unfold FlatpakSdk.sdk_step, sdk_vars.
  rewrite !latest_snoc. fold (is_sdk_line l). fold (is_version_line l).
  destruct (is_sdk_line l) eqn:Es.
  - rewrite (sdk_line_not_version l Es).
    rewrite (after_colon_ok l (sdk_line_has_colon l Es)). reflexivity.
  - destruct (is_version_line l) eqn:Ev; [|reflexivity].
    rewrite (after_colon_ok l (Hc eq_refl)). reflexivity.
Qed.

Lemma sdk_step_raise (n v : option str) (l : str) :
  is_version_line l = true -> ~ In colon l ->
  FlatpakSdk.sdk_step n v l = Raise IndexError.
Proof.
  intros Hv Hc. unfold FlatpakSdk.sdk_step.
  fold (is_sdk_line l). fold (is_version_line l).
  destruct (is_sdk_line l) eqn:Es.
  - apply sdk_line_has_colon in Es. contradiction.
  - rewrite Hv, (after_colon_raise l Hc). reflexivity.
Qed.

Lemma parse_loop_cons (n v : option str) (l : str) (rest : list str) :
  FlatpakSdk.parse_from_manifest_loop n v (l :: rest) =
    bind (FlatpakSdk.sdk_step n v l)
      (fun st =>
         match both_truthy (fst st) (snd st) with
         | Some (a, b) => Ok (FlatpakSdk.mk a b)
         | None => FlatpakSdk.parse_from_manifest_loop (fst st) (snd st) rest
         end).
Proof. reflexivity. Qed.

Lemma parse_loop_found (before : list str) :
  forall seen line after n v,
    (forall l, In l (before ++ [line]) ->
               is_version_line l = true -> In colon l) ->
    (forall p x q, before = p ++ x :: q ->
                   sdk_seen (seen ++ p ++ [x]) = None) ->
    sdk_seen (seen ++ before ++ [line]) = Some (n, v) ->
    FlatpakSdk.parse_from_manifest_loop
      (fst (sdk_vars seen)) (snd (sdk_vars seen))
      (before ++ line :: after) = Ok (FlatpakSdk.mk n v).
Proof.
  induction before as [|b before IH]; intros seen line after n v Hc Hn Hf.
  - cbn [app] in *. rewrite parse_loop_cons.
    rewrite sdk_step_ok by (apply Hc; left; reflexivity).
    cbn [bind]. rewrite both_truthy_sdk_vars, Hf. reflexivity.
  - rewrite <- app_comm_cons, parse_loop_cons.
    rewrite sdk_step_ok by (apply Hc; left; reflexivity).
    cbn [bind]. rewrite both_truthy_sdk_vars.
    pose proof (Hn [] b before eq_refl) as H0. cbn [app] in H0.
    rewrite H0. apply IH.
    + intros l Hl. apply Hc. right. exact Hl.
    + intros p x q ->. rewrite <- app_assoc.
      apply (Hn (b :: p) x q). reflexivity.
    + rewrite <- app_assoc. exact Hf.
Qed.

Lemma parse_loop_never (rest : list str) :
  forall seen,
    (forall p x q, rest = p ++ x :: q ->
                   sdk_seen (seen ++ p ++ [x]) = None) ->
    exists e,
      FlatpakSdk.parse_from_manifest_loop
        (fst (sdk_vars seen)) (snd (sdk_vars seen)) rest = Raise e /\
      is_lookup_error e = true.
Proof.
  induction rest as [|l rest IH]; intros seen Hn.
  - eexists. split; reflexivity.
  - rewrite parse_loop_cons.
    assert (Hrec : forall p x q, rest = p ++ x :: q ->
                     sdk_seen ((seen ++ [l]) ++ p ++ [x]) = None).
    { intros p x q ->. rewrite <- app_assoc.
      apply (Hn (l :: p) x q). reflexivity. }
    pose proof (Hn [] l rest eq_refl) as H0. cbn [app] in H0.
    destruct (is_version_line l) eqn:Ev.
    + destruct (in_dec N.eq_dec colon l) as [Hc|Hc].
      * rewrite sdk_step_ok by auto. cbn [bind].
        rewrite both_truthy_sdk_vars, H0.
        apply IH. exact Hrec.
      * rewrite (sdk_step_raise _ _ l Ev Hc). cbn [bind].
        exists IndexError. split; reflexivity.
    + rewrite sdk_step_ok by congruence. cbn [bind].
      rewrite both_truthy_sdk_vars, H0.
      apply IH. exact Hrec.
Qed.

Lemma parse_loop_colonless (before : list str) :
  forall seen line after,
    sdk_breaks_at seen before line ->
    FlatpakSdk.parse_from_manifest_loop
      (fst (sdk_vars seen)) (snd (sdk_vars seen))
      (before ++ line :: after) = Raise IndexError.
Proof.
  induction before as [|b before IH];
    intros seen line after (Hc & Hn & Hv & Hno).
  - cbn [app]. rewrite parse_loop_cons.
    rewrite (sdk_step_raise _ _ line Hv Hno). reflexivity.
  - rewrite <- app_comm_cons, parse_loop_cons.
    rewrite sdk_step_ok by (apply Hc; left; reflexivity).
    cbn [bind]. rewrite both_truthy_sdk_vars.
    pose proof (Hn [] b before eq_refl) as H0. cbn [app] in H0.
    rewrite H0. apply IH. split; [|split; [|split; assumption]].
    + intros l Hl. apply Hc. right. exact Hl.
    + intros p x q ->. rewrite <- app_assoc.
      apply (Hn (b :: p) x q). reflexivity.
Qed.

Lemma parse_loop_exhausted (rest : list str) :
  forall seen,
    sdk_runs_out seen rest ->
    FlatpakSdk.parse_from_manifest_loop
      (fst (sdk_vars seen)) (snd (sdk_vars seen)) rest =
      Raise (LookupError
               (py "Failed to find sdk or runtime-version in manifest")).
Proof.
  induction rest as [|l rest IH]; intros seen [Hc Hn].
  - reflexivity.
  - rewrite parse_loop_cons.
    rewrite sdk_step_ok by (apply Hc; left; reflexivity).
    cbn [bind]. rewrite both_truthy_sdk_vars.
    pose proof (Hn [] l rest eq_refl) as H0. cbn [app] in H0.
    rewrite H0. apply IH. split.
    + intros l' Hl'. apply Hc. right. exact Hl'.
    + intros p x q ->. rewrite <- app_assoc.
      apply (Hn (l :: p) x q). reflexivity.
Qed.

(** A line that neither returns nor breaks puts itself before what
    happens next. *)
Lemma never_seen_cons (seen : list str) (l : str) (before : list str) :
  sdk_seen (seen ++ [l]) = None ->
  (forall p x q, before = p ++ x :: q ->
                 sdk_seen ((seen ++ [l]) ++ p ++ [x]) = None) ->
  forall p x q, l :: before = p ++ x :: q ->
                sdk_seen (seen ++ p ++ [x]) = None.
Proof.
  intros Es H p x q E. destruct p as [|p0 p].
  - injection E as <- _. exact Es.
  - injection E as <- E. pose proof (H p x q E) as K.
    rewrite <- app_assoc in K. exact K.
Qed.

(** What happens first to the loop over [rest]: it returns at a line, it
    breaks at a line, or it runs out of lines. *)
Lemma parse_loop_cases (rest : list str) :
  forall seen,
    (exists before line after n v,
       rest = before ++ line :: after /\
       sdk_returns_at seen before line n v) \/
    (exists before line after,
       rest = before ++ line :: after /\ sdk_breaks_at seen before line) \/
    sdk_runs_out seen rest.
Proof.
  induction rest as [|l rest IH]; intros seen.
  - right. right. split; [intros l []|].
    intros p x q E. destruct p; discriminate E.
  - destruct (is_version_line l && negb (existsb (PyStr.ceqb colon) l))
      eqn:Eb.
    + apply andb_true_iff in Eb. destruct Eb as [Ev Ec].
      right. left. exists [], l, rest. split; [reflexivity|].
      split; [intros l' []|].
      split; [intros p x q E; destruct p; discriminate E|].
      split; [exact Ev|]. intros Hin.
      apply negb_true_iff in Ec.
      assert (K : existsb (PyStr.ceqb colon) l = true).
      { apply existsb_exists. exists colon. split; [exact Hin|].
        apply ceqb_refl. }
      congruence.
    + assert (Hl : is_version_line l = true -> In colon l).
      { intros Ev. rewrite Ev in Eb. cbn [andb] in Eb.
        apply negb_false_iff, existsb_exists in Eb.
        destruct Eb as (c & Hc & Ec). apply ceqb_eq in Ec. subst c.
        exact Hc. }
      destruct (sdk_seen (seen ++ [l])) as [[n v]|] eqn:Es.
      * left. exists [], l, rest, n, v. split; [reflexivity|].
        split; [intros l' [<-|[]]; exact Hl|].
        split; [intros p x q E; destruct p; discriminate E|exact Es].
      * destruct (IH (seen ++ [l]))
          as [(before & line & after & n & v & -> & H1 & H2 & H3)
             |[(before & line & after & -> & H1 & H2 & H3 & H4)
              |[H1 H2]]].
        -- left. exists (l :: before), line, after, n, v.
           split; [reflexivity|].
           split; [intros l' [<-|Hl']; [exact Hl|exact (H1 l' Hl')]|].
           split; [apply never_seen_cons; assumption|].
           rewrite <- app_assoc in H3. exact H3.
        -- right. left. exists (l :: before), line, after.
           split; [reflexivity|].
           split; [intros l' [<-|Hl']; [exact Hl|exact (H1 l' Hl')]|].
           split; [apply never_seen_cons; assumption|].
           split; assumption.
        -- right. right.
           split; [intros l' [<-|Hl']; [exact Hl|exact (H1 l' Hl')]|].
           apply never_seen_cons; assumption.
Qed.

(** C9, as amended: [parse_from_manifest] reads the lines in order.  Its
    name is the value after the first colon, with white space stripped and
    quotes kept, of the latest line read that starts with [sdk:]; its
    version is the value after the first colon, with white space and then
    quotes stripped, of the latest line read that starts with
    [runtime-version].  It returns at the first line after which both are
    set and not empty; it raises [IndexError], a lookup error, at a
    [runtime-version] line without a colon that it reads before; it
    raises [LookupError] when the lines run out.  One of the three
    happens for every manifest, so every failure is a lookup error. *)
Theorem parse_from_manifest_latest_lines (manifest : str) :
  (forall before line after n v,
     PyStr.splitlines manifest = before ++ line :: after ->
     sdk_returns_at [] before line n v ->
     FlatpakSdk.parse_from_manifest manifest = Ok (FlatpakSdk.mk n v)) /\
  (forall before line after,
     PyStr.splitlines manifest = before ++ line :: after ->
     sdk_breaks_at [] before line ->
     FlatpakSdk.parse_from_manifest manifest = Raise IndexError) /\
  (sdk_runs_out [] (PyStr.splitlines manifest) ->
   FlatpakSdk.parse_from_manifest manifest =
     Raise (LookupError
              (py "Failed to find sdk or runtime-version in manifest"))) /\
  ((exists before line after n v,
      PyStr.splitlines manifest = before ++ line :: after /\
      sdk_returns_at [] before line n v) \/
   (exists before line after,
      PyStr.splitlines manifest = before ++ line :: after /\
      sdk_breaks_at [] before line) \/
   sdk_runs_out [] (PyStr.splitlines manifest)) /\
  ((forall p x q, PyStr.splitlines manifest = p ++ x :: q ->
                  sdk_seen (p ++ [x]) = None) ->
   exists e, FlatpakSdk.parse_from_manifest manifest = Raise e /\
             is_lookup_error e = true).
Proof.
  unfold FlatpakSdk.parse_from_manifest.
  split; [|split; [|split; [|split]]].
  - intros before line after n v -> (Hc & Hn & Hf).
    apply (parse_loop_found before [] line after n v Hc Hn Hf).
  - intros before line after -> Hb.
    apply (parse_loop_colonless before [] line after Hb).
  - intros Hr. apply (parse_loop_exhausted _ [] Hr).
  - apply (parse_loop_cases (PyStr.splitlines manifest) []).
  - intros Hn.
    apply (parse_loop_never (PyStr.splitlines manifest) [] Hn).
Qed.

Lemma parse_from_manifest_latest_lines_witness :
  let manifest :=
    unlines [py "id: de.mediathekview.MediathekView";
             py "runtime: org.freedesktop.Platform";
             py "runtime-version: '24.08'";
             py "sdk: org.freedesktop.Sdk"] in
  let broken :=
    unlines [py "runtime-version"; py "sdk: a"; py "runtime-version: 1"] in
  FlatpakSdk.parse_from_manifest manifest =
    Ok (FlatpakSdk.mk (py "org.freedesktop.Sdk") (py "24.08")) /\
  FlatpakSdk.parse_from_manifest broken = Raise IndexError /\
  FlatpakSdk.parse_from_manifest (py "sdk: org.freedesktop.Sdk") =
    Raise (LookupError
             (py "Failed to find sdk or runtime-version in manifest")).
Proof.
  intros manifest broken. split; [|split].
  - refine (proj1 (parse_from_manifest_latest_lines manifest)
              [py "id: de.mediathekview.MediathekView";
               py "runtime: org.freedesktop.Platform";
               py "runtime-version: '24.08'"]
              (py "sdk: org.freedesktop.Sdk") [] _ _ eq_refl _).
    split; [|split; [|reflexivity]].
    + intros l [<-|[<-|[<-|[<-|[]]]]] Hv; try discriminate Hv.
      vm_compute. tauto.
    + apply never_seen_spec. reflexivity.
  - refine (proj1 (proj2 (parse_from_manifest_latest_lines broken))
              [] (py "runtime-version")
              [py "sdk: a"; py "runtime-version: 1"] eq_refl _).
    split; [intros l []|].
    split; [intros p x q E; destruct p; discriminate E|].
    split; [reflexivity|].
    intros K. vm_compute in K.
    repeat (destruct K as [K|K]; [discriminate K|]). exact K.
  - refine (proj1 (proj2 (proj2 (parse_from_manifest_latest_lines
                     (py "sdk: org.freedesktop.Sdk")))) _).
    split.
    + intros l [<-|[]] Hv. discriminate Hv.
    + apply never_seen_spec. reflexivity.
Defined.

(** C9, the claim as stated fails: the name keeps its quotes, and a later
    [sdk:] line replaces an earlier one as long as the version is not
    known. *)
Lemma parse_from_manifest_counterexample :
  let quoted := unlines [py "sdk: 'org.freedesktop.Sdk'";
                         py "runtime-version: '24.08'"] in
  let twice := unlines [py "sdk: first"; py "sdk: second";
                        py "runtime-version: 1"] in
  FlatpakSdk.parse_from_manifest quoted =
    Ok (FlatpakSdk.mk (py "'org.freedesktop.Sdk'") (py "24.08")) /\
  sdk_of_first_lines quoted =
    Ok (FlatpakSdk.mk (py "org.freedesktop.Sdk") (py "24.08")) /\
  FlatpakSdk.parse_from_manifest twice =
    Ok (FlatpakSdk.mk (py "second") (py "1")) /\
  sdk_of_first_lines twice = Ok (FlatpakSdk.mk (py "first") (py "1")).
Proof. repeat split; reflexivity. Qed.

(** C2: the three loops of [find_mediathekview_source] each start at the
    first line of the manifest.  On a manifest with another git module
    before the mediathekview module the function returns the url and the
    commit of that other module, where the forward scan returns those of
    the mediathekview module. *)
Theorem find_mediathekview_source_restarts :
  let manifest :=
    unlines [py "modules:";
             py "  - name: other";
             py "    sources:";
             py "      - type: git";
             py "        url: https://example.test/other.git";
             py "        commit: 0123abc";
             py "  - name: mediathekview";
             py "    sources:";
             py "      - type: git";
             py "        url: https://example.test/repo.git";
             py "        commit: abc123"] in
  find_mediathekview_source manifest =
    Ok (FlatpakGitSource.mk (py "https://example.test/other.git")
          (py "0123abc")) /\
  find_source_forward manifest =
    Ok (FlatpakGitSource.mk (py "https://example.test/repo.git")
          (py "abc123")).
Proof. split; reflexivity. Qed.

End ManifestFacts.

(* ================================================================== *)
(** * Paths *)
(* ================================================================== *)

Section PathFacts.

Import PosixPath.

Lemma split_from_cons (cur : str) (c : N) (s : str) :
  split_from cur (c :: s) =
    if PyStr.ceqb c sep then cur :: split_from [] s
    else split_from (cur ++ [c]) s.
Proof. reflexivity. Qed.

Lemma split_from_app_sep (a s cur : str) :
  split_from cur (a ++ sep :: s) = split_from cur a ++ split s.
Proof.
  revert cur. induction a as [|c a IH]; intros cur.
  - cbn [app]. rewrite split_from_cons, ceqb_refl. reflexivity.
  - rewrite <- app_comm_cons, !split_from_cons.
    destruct (PyStr.ceqb c sep); [rewrite <- app_comm_cons; f_equal|];
      apply IH.
Qed.

Lemma split_from_no_sep (x cur : str) :
  ~ In sep x -> split_from cur x = [cur ++ x].
Proof.
  revert cur. induction x as [|c x IH]; intros cur H.
  - rewrite app_nil_r. reflexivity.
  - rewrite split_from_cons.
    destruct (PyStr.ceqb c sep) eqn:E.
    + apply ceqb_eq in E. exfalso. apply H. left. auto.
    + rewrite IH by (intros K; apply H; right; exact K).
      rewrite <- app_assoc. reflexivity.
Qed.

Lemma split_from_sep_free (s cur : str) :
  ~ In sep cur -> Forall (fun x => ~ In sep x) (split_from cur s).
Proof.
  revert cur. induction s as [|c s IH]; intros cur H.
  - constructor; auto.
  - rewrite split_from_cons. destruct (PyStr.ceqb c sep) eqn:E.
    + constructor; auto.
    + apply IH. apply ceqb_neq in E. intros K.
      apply in_app_or in K. destruct K as [K|[K|[]]]; auto.
Qed.

Lemma components_valid (s : str) : Forall component (components s).
Proof.
  unfold components. apply Forall_forall. intros x Hx.
  apply filter_In in Hx. destruct Hx as [Hin Hk]. split; auto.
  pose proof (split_from_sep_free s [] (fun K => K)) as HF.
  rewrite Forall_forall in HF. apply HF. exact Hin.
Qed.

Lemma components_nil : components [] = [].
Proof. reflexivity. Qed.

Lemma ends_with_sep_snoc (a : str) :
  ends_with_sep a = true -> exists a', a = a' ++ [sep].
Proof.
  induction a as [|c a IH]; [discriminate|].
  destruct a as [|d a].
  - intros H. apply ceqb_eq in H. subst. exists []. reflexivity.
  - intros H. destruct (IH H) as [a' E]. exists (c :: a').
    rewrite E. reflexivity.
Qed.

Lemma ends_with_sep_cons (c d : N) (a : str) :
  ends_with_sep (c :: d :: a) = ends_with_sep (d :: a).
Proof. reflexivity. Qed.

(** The components of a path extended by a relative segment. *)
Lemma components_extend (r s : str) :
  components (if ends_with_sep r then r ++ s else r ++ sep :: s) =
    components r ++ components s.
Proof.
  unfold components. destruct (ends_with_sep r) eqn:E.
  - destruct (ends_with_sep_snoc r E) as [a' ->].
    rewrite <- app_assoc. cbn [app]. unfold split.
    rewrite !split_from_app_sep, !filter_app. cbn [split split_from filter].
    cbn. rewrite app_nil_r. reflexivity.
  - unfold split. rewrite split_from_app_sep, filter_app. reflexivity.
Qed.

Lemma splitroot_relative (s : str) :
  is_absolute s = false -> splitroot s = ([], s).
Proof.
  unfold is_absolute. destruct s as [|c s]; [reflexivity|].
  cbn [PyStr.startswith splitroot]. rewrite andb_true_r.
  intros ->. reflexivity.
Qed.

Lemma parse_path_relative (s : str) :
  is_absolute s = false -> parse_path s = ([], components s).
Proof.
  intros H. unfold parse_path. rewrite (splitroot_relative s H).
  reflexivity.
Qed.

Lemma relative_head (s : str) :
  is_absolute s = false ->
  s = [] \/ exists c s', s = c :: s' /\ PyStr.ceqb c sep = false.
Proof.
  unfold is_absolute. destruct s as [|c s]; [auto|].
  cbn [PyStr.startswith]. rewrite andb_true_r. intros H.
  right. exists c, s. auto.
Qed.

(** Parsing a path joined with a relative segment: the root stays, the
    components of the segment are appended. *)
Lemma parse_join2_relative (a s : str) :
  is_absolute s = false ->
  parse_path (join2 a s) =
    (fst (parse_path a), snd (parse_path a) ++ components s).
Proof.
  intros Hrel. unfold join2. fold (is_absolute s). rewrite Hrel.
  destruct a as [|c0 a1].
  - cbn [PyStr.is_empty orb app]. rewrite (parse_path_relative s Hrel).
    reflexivity.
  - cbn [PyStr.is_empty orb].
    pose proof (components_extend (c0 :: a1) s) as HX.
    destruct (PyStr.ceqb c0 sep) eqn:E0.
    2:{ unfold parse_path.
        destruct (ends_with_sep (c0 :: a1)); rewrite <- app_comm_cons;
          cbn [splitroot]; rewrite E0; cbn [negb fst snd];
          rewrite app_comm_cons, HX; reflexivity. }
    apply ceqb_eq in E0. subst c0.
    destruct a1 as [|c1 a2].
    { cbn [ends_with_sep]. rewrite ceqb_refl. unfold parse_path.
      destruct (relative_head s Hrel) as [->|(c & s' & -> & Hc)].
      - reflexivity.
      - cbn [app splitroot]. rewrite ceqb_refl, Hc. reflexivity. }
    pose proof (components_extend (c1 :: a2) s) as H1.
    rewrite ends_with_sep_cons.
    destruct (PyStr.ceqb c1 sep) eqn:E1.
    2:{ unfold parse_path.
        destruct (ends_with_sep (c1 :: a2)); rewrite <- !app_comm_cons;
          cbn [splitroot]; rewrite ceqb_refl, E1; cbn [negb fst snd];
          rewrite app_comm_cons, H1; reflexivity. }
    apply ceqb_eq in E1. subst c1.
    destruct a2 as [|c2 a3].
    { cbn [ends_with_sep]. rewrite ceqb_refl. unfold parse_path.
      destruct (relative_head s Hrel) as [->|(c & s' & -> & Hc)].
      - reflexivity.
      - cbn [app splitroot]. rewrite ceqb_refl, Hc. reflexivity. }
    pose proof (components_extend (c2 :: a3) s) as H2.
    rewrite ends_with_sep_cons in *.
    destruct (PyStr.ceqb c2 sep) eqn:E2.
    + unfold parse_path.
      destruct (ends_with_sep (c2 :: a3)); rewrite <- !app_comm_cons;
        cbn [splitroot]; rewrite ceqb_refl, E2; cbn [negb fst snd];
        rewrite !app_comm_cons, H1; reflexivity.
    + unfold parse_path.
      destruct (ends_with_sep (c2 :: a3)); rewrite <- !app_comm_cons;
        cbn [splitroot]; rewrite ceqb_refl, E2; cbn [negb fst snd];
        rewrite !app_comm_cons, H2; reflexivity.
Qed.

Lemma join2_absolute (a s : str) : is_absolute s = true -> join2 a s = s.
Proof. intros H. unfold join2. fold (is_absolute s). rewrite H. auto. Qed.

Lemma join_all_joinpath (p : t) (key : str) :
  join_all (joinpath p key) = join2 (join_all p) key.
Proof.
  unfold joinpath. destruct p as [|a ps].
  - cbn. unfold join2. destruct (PyStr.startswith key [sep]); reflexivity.
  - cbn [app join_all]. rewrite fold_left_app. reflexivity.
Qed.

Lemma parsed_joinpath_relative (p : t) (key : str) :
  is_absolute key = false ->
  parsed (joinpath p key) = (root p, tail p ++ components key).
Proof.
  intros H. unfold parsed, root, tail, parsed.
  rewrite join_all_joinpath. apply parse_join2_relative. exact H.
Qed.

Lemma parsed_joinpath_absolute (p : t) (key : str) :
  is_absolute key = true -> parsed (joinpath p key) = parse_path key.
Proof.
  intros H. unfold parsed. rewrite join_all_joinpath, join2_absolute; auto.
Qed.

End PathFacts.

Section PathRoundTrip.

Import PosixPath.

Lemma component_head (x : str) :
  component x -> exists c x', x = c :: x' /\ PyStr.ceqb c sep = false.
Proof.
  intros [Hk Hs]. destruct x as [|c x']; [discriminate|].
  exists c, x'. split; auto. apply ceqb_neq. intros ->. apply Hs.
  left. reflexivity.
Qed.

Lemma join_sep_cons2 (x y : str) (r : list str) :
  join_sep (x :: y :: r) = x ++ sep :: join_sep (y :: r).
Proof. reflexivity. Qed.

Lemma join_sep_relative (tl : list str) :
  Forall component tl -> is_absolute (join_sep tl) = false.
Proof.
  intros H. destruct H as [|x tl Hx Htl]; [reflexivity|].
  destruct (component_head x Hx) as (c & x' & -> & Hc).
  unfold is_absolute. destruct tl; cbn; rewrite Hc; reflexivity.
Qed.

Lemma components_join_sep (tl : list str) :
  Forall component tl -> components (join_sep tl) = tl.
Proof.
  induction 1 as [|x tl Hx Htl IH]; [reflexivity|].
  destruct tl as [|y r].
  - cbn [join_sep]. unfold components, split.
    rewrite (split_from_no_sep x [] (proj2 Hx)). cbn [app filter].
    rewrite (proj1 Hx). reflexivity.
  - rewrite join_sep_cons2. unfold components, split in *.
    rewrite split_from_app_sep, filter_app.
    rewrite (split_from_no_sep x [] (proj2 Hx)). cbn [app filter].
    rewrite (proj1 Hx). unfold split. rewrite IH. reflexivity.
Qed.

Lemma splitroot_one_sep (s : str) :
  is_absolute s = false -> splitroot (sep :: s) = ([sep], s).
Proof.
  intros H. destruct (relative_head s H) as [->|(c & s' & -> & Hc)].
  - reflexivity.
  - cbn [splitroot]. rewrite ceqb_refl, Hc. reflexivity.
Qed.

Lemma splitroot_two_sep (s : str) :
  is_absolute s = false -> splitroot (sep :: sep :: s) = ([sep; sep], s).
Proof.
  intros H. destruct (relative_head s H) as [->|(c & s' & -> & Hc)].
  - reflexivity.
  - cbn [splitroot]. rewrite ceqb_refl, Hc. reflexivity.
Qed.

(** Formatting a root and components and parsing the string again gives
    them back. *)
Lemma parse_format (rt : str) (tl : list str) :
  path_root rt -> Forall component tl ->
  parse_path (format_parsed rt tl) = (rt, tl).
Proof.
  intros Hr Ht. pose proof (join_sep_relative tl Ht) as Hrel.
  unfold parse_path, format_parsed.
  destruct Hr as [->|[->| ->]]; cbn [app].
  - rewrite (splitroot_relative _ Hrel), components_join_sep; auto.
  - rewrite (splitroot_one_sep _ Hrel), components_join_sep; auto.
  - rewrite (splitroot_two_sep _ Hrel), components_join_sep; auto.
Qed.

Lemma splitroot_root (p : str) : path_root (fst (splitroot p)).
Proof.
  unfold path_root. destruct p as [|c0 [|c1 [|c2 p]]]; cbn [splitroot].
  - auto.
  - destruct (PyStr.ceqb c0 sep); cbn; auto.
  - destruct (PyStr.ceqb c0 sep); cbn; auto.
    destruct (PyStr.ceqb c1 sep); cbn; auto.
  - destruct (PyStr.ceqb c0 sep); cbn; auto.
    destruct (PyStr.ceqb c1 sep); cbn; auto.
    destruct (PyStr.ceqb c2 sep); cbn; auto.
Qed.

Lemma parse_path_valid (s : str) :
  path_root (fst (parse_path s)) /\ Forall component (snd (parse_path s)).
Proof.
  unfold parse_path. pose proof (splitroot_root s) as H.
  destruct (splitroot s) as [rt rel]. split; [exact H|].
  apply components_valid.
Qed.

Lemma removelast_valid (tl : list str) :
  Forall component tl -> Forall component (removelast tl).
Proof.
  induction 1 as [|x tl Hx Htl IH]; [constructor|].
  destruct tl; [constructor|]. cbn [removelast] in *. constructor; auto.
Qed.

Lemma parsed_of_str (s : str) : parsed (of_str s) = parse_path s.
Proof. reflexivity. Qed.

Lemma to_str_parsed (p : t) (rt : str) (tl : list str) :
  parsed p = (rt, tl) ->
  to_str p = if PyStr.is_empty (format_parsed rt tl) then dot
             else format_parsed rt tl.
Proof. unfold to_str, root, tail. intros ->. reflexivity. Qed.

Lemma parent_parsed (p : t) (rt : str) (tl : list str) :
  parsed p = (rt, tl) ->
  parent p = match tl with
             | [] => p
             | _ :: _ => of_str (format_parsed rt (removelast tl))
             end.
Proof. unfold parent, root, tail. intros ->. reflexivity. Qed.

Lemma name_parsed (p : t) (rt : str) (tl : list str) :
  parsed p = (rt, tl) -> name p = last tl [].
Proof. unfold name, tail. intros ->. reflexivity. Qed.

(** A path is the same path as the one built from its string. *)
Lemma to_str_of_format (rt : str) (tl : list str) :
  path_root rt -> Forall component tl ->
  to_str (of_str (format_parsed rt tl)) =
    if PyStr.is_empty (format_parsed rt tl) then dot
    else format_parsed rt tl.
Proof.
  intros Hr Ht. apply to_str_parsed. rewrite parsed_of_str.
  apply parse_format; assumption.
Qed.

Lemma absolute_root (s : str) :
  is_absolute s = true ->
  exists r, fst (parse_path s) = sep :: r /\ path_root (sep :: r).
Proof.
  intros H. pose proof (splitroot_root s) as Hr. unfold parse_path.
  destruct s as [|c0 s]; [discriminate|].
  unfold is_absolute in H. cbn [PyStr.startswith] in H.
  rewrite andb_true_r in H. revert Hr.
  destruct s as [|c1 [|c2 s]]; cbn [splitroot]; rewrite H; cbn [negb].
  - intros Hr. exists []. auto.
  - destruct (PyStr.ceqb c1 sep); cbn; intros Hr; eexists; eauto.
  - destruct (PyStr.ceqb c1 sep); cbn; [|intros Hr; eexists; eauto].
    destruct (PyStr.ceqb c2 sep); cbn; intros Hr; eexists; eauto.
Qed.

Lemma format_absolute (r : str) (tl : list str) :
  is_absolute (format_parsed (sep :: r) tl) = true.
Proof. reflexivity. Qed.

(** The artifact path of a relative path without components is the
    repository directory itself. *)
Lemma joinpath_no_component (repo : t) (key : str) :
  is_absolute key = false -> components key = [] ->
  to_str (joinpath repo key) = to_str repo.
Proof.
  intros Hrel Hc.
  pose proof (parsed_joinpath_relative repo key Hrel) as H.
  rewrite Hc, app_nil_r in H.
  rewrite (to_str_parsed _ _ _ H). unfold to_str. reflexivity.
Qed.

(** The name of the artifact path is the final segment of the relative
    path. *)
Lemma name_joinpath (repo : t) (key : str) :
  names_a_file key -> name (joinpath repo key) = name (of_str key).
Proof.
  intros [Habs|Hne].
  - unfold name, tail. rewrite parsed_joinpath_absolute by assumption.
    reflexivity.
  - destruct (is_absolute key) eqn:Ha.
    + unfold name, tail. rewrite parsed_joinpath_absolute by assumption.
      reflexivity.
    + rewrite (name_parsed _ _ _ (parsed_joinpath_relative repo key Ha)).
      rewrite (name_parsed (of_str key) [] (components key))
        by (rewrite parsed_of_str; apply parse_path_relative; exact Ha).
      destruct (components key) as [|x tl] eqn:E; [contradiction|].
      clear. induction (tail repo) as [|y r IH]; [reflexivity|].
      cbn [app]. destruct (r ++ x :: tl) eqn:E; [|rewrite <- IH; reflexivity].
      destruct r; discriminate.
Qed.

End PathRoundTrip.

Section Destination.

Import PosixPath.

Lemma m2_repository_joined :
  parsed (joinpath (of_str (py ".m2")) (py "repository")) =
    ([], [py ".m2"; py "repository"]).
Proof. reflexivity. Qed.

Lemma m2_repository_components :
  Forall component [py ".m2"; py "repository"].
Proof.
  repeat constructor; try reflexivity;
    intros K; cbv in K; repeat (destruct K as [K|K]; [discriminate|]);
    exact K.
Qed.

Lemma format_under_m2 (tl : list str) :
  PyStr.is_empty (format_parsed [] ([py ".m2"; py "repository"] ++ tl))
    = false.
Proof. reflexivity. Qed.

End Destination.

(* ================================================================== *)
(** * Wildcards, digests and sorting *)
(* ================================================================== *)

Section GlobFacts.

Lemma matches_star_unfold (pat : list Fnmatch.item) (s : str) :
  Fnmatch.matches (Fnmatch.Star :: pat) s =
    Fnmatch.matches pat s ||
    match s with
    | [] => false
    | _ :: s' => Fnmatch.matches (Fnmatch.Star :: pat) s'
    end.
Proof. destruct s; reflexivity. Qed.

Lemma matches_star (pat : list Fnmatch.item) (s : str) :
  Fnmatch.matches (Fnmatch.Star :: pat) s = true <->
  exists mid rest, s = mid ++ rest /\ Fnmatch.matches pat rest = true.
Proof.
  induction s as [|c s IH]; rewrite matches_star_unfold.
  - rewrite orb_false_r. split.
    + intros H. exists [], []. auto.
    + intros (mid & rest & E & H). symmetry in E.
      apply app_eq_nil in E. destruct E as [_ ->]. exact H.
  - rewrite orb_true_iff, IH. split.
    + intros [H|(mid & rest & -> & H)].
      * exists [], (c :: s). auto.
      * exists (c :: mid), rest. auto.
    + intros (mid & rest & E & H). destruct mid as [|d mid].
      * left. cbn [app] in E. rewrite E. exact H.
      * right. injection E as -> ->. exists mid, rest. auto.
Qed.

Lemma matches_literals (lits : str) (pat : list Fnmatch.item) (s : str) :
  Fnmatch.matches (map Fnmatch.Lit lits ++ pat) s = true <->
  exists r, s = lits ++ r /\ Fnmatch.matches pat r = true.
Proof.
  revert s. induction lits as [|a lits IH]; intros s; cbn [map app].
  - split; [intros H; exists s; auto|intros (r & -> & H); exact H].
  - cbn [Fnmatch.matches]. destruct s as [|d s].
    + split; [discriminate|]. intros (r & E & _). discriminate.
    + rewrite andb_true_iff, ceqb_eq, IH. split.
      * intros [-> (r & -> & H)]. exists r. auto.
      * intros (r & E & H). injection E as -> ->. split; eauto.
Qed.

Lemma matches_nil (s : str) : Fnmatch.matches [] s = true <-> s = [].
Proof. destruct s; cbn; split; congruence. Qed.

(** A name matches [maven-metadata-*.xml] exactly when it is
    [maven-metadata-], any text, and [.xml]. *)
Lemma fnmatch_versioned (x : str) :
  Fnmatch.matches (Fnmatch.compile (py "maven-metadata-*.xml")) x = true <->
  versioned_metadata_name x.
Proof.
  change (Fnmatch.compile (py "maven-metadata-*.xml"))
    with (map Fnmatch.Lit (py "maven-metadata-") ++
          Fnmatch.Star :: (map Fnmatch.Lit (py ".xml") ++ [])).
  rewrite matches_literals. unfold versioned_metadata_name. split.
  - intros (r & -> & H). apply matches_star in H.
    destruct H as (mid & rest & -> & H). apply matches_literals in H.
    destruct H as (r' & -> & H). apply matches_nil in H. subst r'.
    exists mid. rewrite app_nil_r. reflexivity.
  - intros (mid & ->). exists (mid ++ py ".xml"). split; [reflexivity|].
    apply matches_star. exists mid, (py ".xml"). split; [reflexivity|].
    apply matches_literals. exists []. split; reflexivity.
Qed.

Lemma versioned_not_hidden (x : str) :
  versioned_metadata_name x -> PyStr.startswith x PosixPath.dot = false.
Proof. intros (mid & ->). reflexivity. Qed.

Lemma filter_first {A} (f : A -> bool) (before : list A) (first : A)
    (after : list A) :
  f first = true -> (forall x, In x before -> f x = false) ->
  filter f (before ++ first :: after) = first :: filter f after.
Proof.
  intros Hf Hb. rewrite filter_app, (filter_none f before Hb).
  cbn [app filter]. rewrite Hf. reflexivity.
Qed.

Lemma glob_siblings (fs : filesystem) (dir : str) :
  glob fs (py "maven-metadata-*.xml") dir =
    filter (fun x => negb (PyStr.startswith x PosixPath.dot) &&
                     Fnmatch.matches
                       (Fnmatch.compile (py "maven-metadata-*.xml")) x)
      (siblings fs dir).
Proof.
  unfold glob, siblings. destruct (fs dir) as [[content|entries]|];
    try reflexivity.
  induction entries as [|x entries IH]; [reflexivity|].
  cbn [filter]. destruct (negb (PyStr.startswith x PosixPath.dot));
    cbn [filter andb]; rewrite IH; reflexivity.
Qed.

Lemma glob_versioned_true (x : str) :
  versioned_metadata_name x ->
  negb (PyStr.startswith x PosixPath.dot) &&
  Fnmatch.matches (Fnmatch.compile (py "maven-metadata-*.xml")) x = true.
Proof.
  intros H. rewrite (versioned_not_hidden x H).
  apply fnmatch_versioned in H. rewrite H. reflexivity.
Qed.

Lemma glob_versioned_false (x : str) :
  ~ versioned_metadata_name x ->
  negb (PyStr.startswith x PosixPath.dot) &&
  Fnmatch.matches (Fnmatch.compile (py "maven-metadata-*.xml")) x = false.
Proof.
  intros H. apply andb_false_iff. right.
  destruct (Fnmatch.matches _ x) eqn:E; auto.
  apply fnmatch_versioned in E. contradiction.
Qed.

(** The first versioned metadata name of the directory is the first
    result of the glob. *)
Lemma glob_first (fs : filesystem) (dir : str) (before : list str)
    (first : str) (after : list str) :
  siblings fs dir = before ++ first :: after ->
  versioned_metadata_name first ->
  (forall x, In x before -> ~ versioned_metadata_name x) ->
  exists rest, glob fs (py "maven-metadata-*.xml") dir = first :: rest.
Proof.
  intros Hs Hf Hb. rewrite glob_siblings, Hs.
  rewrite filter_first.
  - eexists. reflexivity.
  - apply glob_versioned_true. exact Hf.
  - intros x Hx. apply glob_versioned_false. auto.
Qed.

Lemma glob_none (fs : filesystem) (dir : str) :
  (forall x, In x (siblings fs dir) -> ~ versioned_metadata_name x) ->
  glob fs (py "maven-metadata-*.xml") dir = [].
Proof.
  intros H. rewrite glob_siblings. apply filter_none.
  intros x Hx. apply glob_versioned_false. auto.
Qed.

End GlobFacts.

Section DigestFacts.

Import Sha512.
Local Open Scope N_scope.

Lemma be_bytes_length (k : nat) (n : N) : length (be_bytes k n) = k.
Proof.
  revert n. induction k as [|k IH]; intros n; cbn [be_bytes].
  - reflexivity.
  - rewrite length_app, IH. cbn. lia.
Qed.

Lemma be_bytes_bound (k : nat) (n : N) :
  Forall (fun b => b < 256) (be_bytes k n).
Proof.
  revert n. induction k as [|k IH]; intros n; cbn [be_bytes].
  - constructor.
  - apply Forall_app. split; [apply IH|]. constructor; [|constructor].
    change 255 with (N.ones 8). rewrite N.land_ones.
    apply N.mod_lt. discriminate.
Qed.

Lemma digest_length (data : list Byte.byte) : length (digest data) = 64%nat.
Proof.
  unfold digest.
  destruct (fold_left compress _ init) as [[[[[[[a b] c] d] e] f] g] h].
  cbn [flat_map]. rewrite !length_app, !be_bytes_length. reflexivity.
Qed.

Lemma digest_bytes (data : list Byte.byte) :
  Forall (fun b => b < 256) (digest data).
Proof.
  unfold digest.
  destruct (fold_left compress _ init) as [[[[[[[a b] c] d] e] f] g] h].
  generalize [a; b; c; d; e; f; g; h] as ws. intros ws.
  induction ws as [|w ws IH]; cbn [flat_map]; [constructor|].
  apply Forall_app. split; [apply be_bytes_bound|exact IH].
Qed.

Lemma hex_digit_lower (d : N) : d < 16 -> is_lower_hex (hex_digit d) = true.
Proof.
  intros H. unfold hex_digit, is_lower_hex.
  destruct (N.ltb_spec d 10).
  - apply orb_true_iff. left. apply andb_true_iff.
    split; apply N.leb_le; lia.
  - apply orb_true_iff. right. apply andb_true_iff.
    split; apply N.leb_le; lia.
Qed.

Lemma hexdigest_length (data : list Byte.byte) :
  length (hexdigest data) = 128%nat.
Proof.
  unfold hexdigest. pose proof (digest_length data) as H.
  revert H. generalize (digest data) as l. intros l.
  assert (G : length (flat_map
                (fun b => [hex_digit (b / 16); hex_digit (b mod 16)]) l)
              = (2 * length l)%nat).
  { induction l as [|b l IH]; [reflexivity|]. cbn [flat_map length app].
    rewrite IH. lia. }
  rewrite G. intros ->. reflexivity.
Qed.

Lemma hexdigest_lower_hex (data : list Byte.byte) :
  Forall (fun c => is_lower_hex c = true) (hexdigest data).
Proof.
  unfold hexdigest. pose proof (digest_bytes data) as H.
  induction H as [|b l Hb Hl IH]; cbn [flat_map app].
  - constructor.
  - constructor; [|constructor; [|exact IH]]; apply hex_digit_lower.
    + apply N.Div0.div_lt_upper_bound. exact Hb.
    + apply N.mod_lt. discriminate.
Qed.

(** The digests of the empty message and of ["abc"] are those of the
    standard. *)
Lemma sha512_known_answers :
  hexdigest [] =
    py "cf83e1357eefb8bdf1542850d66d8007d620e4050b5715dc83f4a921d36ce9ce47d0d13c5d85f2b0ff8318d2877eec2f63b931bd47417a81a538327af927da3e" /\
  hexdigest (list_byte_of_string "abc") =
    py "ddaf35a193617abacc417349ae20413112e6fa4e89a97ea20a9eeee64b55d39a2192992a274fc1a836ba3c23a3feebbd454d4423643ce80e2a9ac94fa54ca49f".
Proof. split; vm_compute; reflexivity. Qed.

End DigestFacts.

Section OrderFacts.

Lemma ltb_irrefl (s : str) : PyStr.ltb s s = false.
Proof.
  induction s as [|a s IH]; [reflexivity|]. cbn [PyStr.ltb].
  rewrite N.ltb_irrefl, ceqb_refl, IH. reflexivity.
Qed.

Lemma ltb_cons (a b : N) (s t : str) :
  PyStr.ltb (a :: s) (b :: t) = true <->
  (a < b)%N \/ (a = b /\ PyStr.ltb s t = true).
Proof.
  cbn [PyStr.ltb]. rewrite orb_true_iff, andb_true_iff, N.ltb_lt, ceqb_eq.
  tauto.
Qed.

Lemma ltb_trans (s t u : str) :
  PyStr.ltb s t = true -> PyStr.ltb t u = true -> PyStr.ltb s u = true.
Proof.
  revert t u. induction s as [|a s IH]; intros [|b t] [|c u];
    try discriminate; auto.
  rewrite !ltb_cons. intros [H1|[-> H1]] [H2|[-> H2]].
  - left. lia.
  - left. exact H1.
  - left. exact H2.
  - right. split; [reflexivity|]. apply (IH t u); assumption.
Qed.

Lemma ltb_total (s t : str) :
  PyStr.ltb s t = false -> PyStr.ltb t s = false -> s = t.
Proof.
  revert t. induction s as [|a s IH]; intros [|b t]; try discriminate; auto.
  intros H1 H2.
  destruct (N.lt_trichotomy a b) as [L|[E|G]].
  - assert (K : PyStr.ltb (a :: s) (b :: t) = true)
      by (apply ltb_cons; auto). congruence.
  - subst b. f_equal. apply IH.
    + destruct (PyStr.ltb s t) eqn:E; auto.
      assert (K : PyStr.ltb (a :: s) (a :: t) = true)
        by (apply ltb_cons; auto). congruence.
    + destruct (PyStr.ltb t s) eqn:E; auto.
      assert (K : PyStr.ltb (a :: t) (a :: s) = true)
        by (apply ltb_cons; auto). congruence.
  - assert (K : PyStr.ltb (b :: t) (a :: s) = true)
      by (apply ltb_cons; auto). congruence.
Qed.

Lemma ltb_asym (s t : str) :
  PyStr.ltb s t = true -> PyStr.ltb t s = false.
Proof.
  intros H. destruct (PyStr.ltb t s) eqn:E; auto.
  pose proof (ltb_trans s t s H E) as K. rewrite ltb_irrefl in K.
  discriminate.
Qed.

(** [not (t < s)] is transitive: the order of the keys is total. *)
Lemma not_ltb_trans (s t u : str) :
  PyStr.ltb t s = false -> PyStr.ltb u t = false -> PyStr.ltb u s = false.
Proof.
  intros H1 H2. destruct (PyStr.ltb u s) eqn:E; auto.
  destruct (PyStr.ltb s t) eqn:F.
  - rewrite (ltb_trans u s t E F) in H2. discriminate.
  - rewrite (ltb_total s t F H1) in E. congruence.
Qed.

End OrderFacts.

Section SortFacts.

Variable A : Type.
Variable key : A -> str.

Lemma insert_by_key_perm (x : A) (l : list A) :
  Permutation (x :: l) (insert_by_key key x l).
Proof.
  induction l as [|y l IH]; cbn [insert_by_key]; [reflexivity|].
  destruct (PyStr.ltb (key y) (key x)); [|reflexivity].
  rewrite perm_swap. constructor. exact IH.
Qed.

Lemma sort_by_key_perm (l : list A) : Permutation l (sort_by_key key l).
Proof.
  induction l as [|x l IH]; cbn [sort_by_key]; [constructor|].
  rewrite <- insert_by_key_perm. constructor. exact IH.
Qed.

Lemma insert_by_key_sorted (x : A) (l : list A) :
  StronglySorted (key_le key) l -> StronglySorted (key_le key) (insert_by_key key x l).
Proof.
  induction 1 as [|y l Hs IH Hy]; cbn [insert_by_key].
  - constructor; constructor.
  - destruct (PyStr.ltb (key y) (key x)) eqn:E.
    + constructor; [exact IH|].
      apply (Permutation_Forall (insert_by_key_perm x l)).
      constructor; [|exact Hy]. unfold key_le. apply ltb_asym. exact E.
    + constructor; [constructor; assumption|].
      constructor; [exact E|].
      eapply Forall_impl; [|exact Hy]. intros z Hz. unfold key_le in *.
      apply (not_ltb_trans (key x) (key y) (key z)); assumption.
Qed.

Lemma sort_by_key_sorted (l : list A) :
  StronglySorted (key_le key) (sort_by_key key l).
Proof.
  induction l as [|x l IH]; cbn [sort_by_key]; [constructor|].
  apply insert_by_key_sorted. exact IH.
Qed.

Lemma insert_by_key_stable (k : str) (x : A) (l : list A) :
  filter (fun a => PyStr.eqb (key a) k) (insert_by_key key x l) =
  filter (fun a => PyStr.eqb (key a) k) (x :: l).
Proof.
  induction l as [|y l IH]; cbn [insert_by_key]; [reflexivity|].
  destruct (PyStr.ltb (key y) (key x)) eqn:E; [|reflexivity].
  cbn [filter] in *. rewrite IH.
  destruct (PyStr.eqb (key x) k) eqn:Ex; [|reflexivity].
  destruct (PyStr.eqb (key y) k) eqn:Ey; [|reflexivity].
  apply str_eqb_eq in Ex, Ey. rewrite Ex, Ey, ltb_irrefl in E.
  discriminate.
Qed.

Lemma sort_by_key_stable (k : str) (l : list A) :
  filter (fun a => PyStr.eqb (key a) k) (sort_by_key key l) =
  filter (fun a => PyStr.eqb (key a) k) l.
Proof.
  induction l as [|x l IH]; cbn [sort_by_key]; [reflexivity|].
  rewrite insert_by_key_stable. cbn [filter]. rewrite IH. reflexivity.
Qed.

Lemma sorted_positions (l : list A) :
  StronglySorted (key_le key) l ->
  forall i j a b,
    nth_error l i = Some a -> nth_error l j = Some b ->
    PyStr.ltb (key a) (key b) = true -> i < j.
Proof.
  induction 1 as [|y l Hs IH Hy]; intros i j a b Hi Hj Hlt.
  - destruct i; discriminate.
  - destruct i as [|i], j as [|j]; cbn [nth_error] in Hi, Hj.
    + injection Hi as <-. injection Hj as <-.
      rewrite ltb_irrefl in Hlt. discriminate.
    + lia.
    + injection Hj as <-. apply nth_error_In in Hi.
      rewrite Forall_forall in Hy. specialize (Hy a Hi). unfold key_le in Hy.
      congruence.
    + apply -> Nat.succ_lt_mono. apply (IH i j a b); assumption.
Qed.

End SortFacts.

(* ================================================================== *)
(** * Building the sources *)
(* ================================================================== *)

Section Sources.

(** The destination file name [create_flatpak_source] chooses. *)
Lemma create_flatpak_source_ok (fs : filesystem) (repo : PosixPath.t)
    (u : ArtifactUrl.t) (content : list Byte.byte) :
  read_bytes fs (artifact_path repo u) = Ok content ->
  create_flatpak_source fs repo u =
    Ok (FlatpakFileSource.mk (ArtifactUrl.url u)
          (dest_of_joined (ArtifactUrl.relpath u))
          (if PyStr.eqb (PosixPath.name (artifact_path repo u))
                maven_metadata
           then match glob fs (py "maven-metadata-*.xml")
                        (PosixPath.to_str
                           (PosixPath.parent (artifact_path repo u))) with
                | first :: _ => first
                | [] => PosixPath.name (artifact_path repo u)
                end
           else PosixPath.name (artifact_path repo u))
          (Sha512.hexdigest content)).
Proof.
  intros H. unfold create_flatpak_source.
  fold (artifact_path repo u). rewrite H. reflexivity.
Qed.

Lemma create_flatpak_source_raise (fs : filesystem) (repo : PosixPath.t)
    (u : ArtifactUrl.t) (e : exn) :
  read_bytes fs (artifact_path repo u) = Raise e ->
  create_flatpak_source fs repo u = Raise e.
Proof.
  intros H. unfold create_flatpak_source.
  fold (artifact_path repo u). rewrite H. reflexivity.
Qed.

(** In a repository directory only a reference that names a file has a
    readable artifact: the path of any other reference is the directory
    itself. *)
Lemma readable_names_a_file (fs : filesystem) (repo : PosixPath.t)
    (u : ArtifactUrl.t) (entries : list str) (content : list Byte.byte) :
  fs (PosixPath.to_str repo) = Some (Dir entries) ->
  read_bytes fs (artifact_path repo u) = Ok content ->
  names_a_file (ArtifactUrl.relpath u).
Proof.
  intros Hd Hr. unfold names_a_file.
  destruct (PosixPath.is_absolute (ArtifactUrl.relpath u)) eqn:Ha; auto.
  right. intros Hc. unfold read_bytes, artifact_path in Hr.
  rewrite (joinpath_no_component repo _ Ha Hc), Hd in Hr. discriminate.
Qed.

(** C5: in a repository directory, for a reference with a readable
    artifact, [create_flatpak_source] returns a source whose file name is
    chosen as follows.  When the final path segment of the reference is
    [maven-metadata.xml], the directory of the cached file is searched for
    names of the form [maven-metadata-*.xml]: the first such name in the
    listing is the file name, and [maven-metadata.xml] stays when there is
    none.  When the final path segment is anything else, it is the file
    name. *)
Theorem dest_filename_override (fs : filesystem) (repo : PosixPath.t)
    (u : ArtifactUrl.t) (content : list Byte.byte) :
  fs_is_directory fs repo ->
  read_bytes fs (artifact_path repo u) = Ok content ->
  exists r,
    create_flatpak_source fs repo u = Ok r /\
    (final_segment u = maven_metadata ->
       (forall before first after,
          siblings fs (PosixPath.to_str
                         (PosixPath.parent (artifact_path repo u)))
            = before ++ first :: after ->
          versioned_metadata_name first ->
          (forall x, In x before -> ~ versioned_metadata_name x) ->
          FlatpakFileSource.dest_filename r = first) /\
       ((forall x,
           In x (siblings fs (PosixPath.to_str
                                (PosixPath.parent (artifact_path repo u)))) ->
           ~ versioned_metadata_name x) ->
        FlatpakFileSource.dest_filename r = maven_metadata)) /\
    (final_segment u <> maven_metadata ->
       FlatpakFileSource.dest_filename r = final_segment u).
Proof.
  intros [entries Hd] Hr.
  pose proof (readable_names_a_file fs repo u entries content Hd Hr) as Hf.
  pose proof (name_joinpath repo (ArtifactUrl.relpath u) Hf) as Hn.
  fold (artifact_path repo u) in Hn. fold (final_segment u) in Hn.
  eexists. split; [apply (create_flatpak_source_ok fs repo u content Hr)|].
  cbn [FlatpakFileSource.dest_filename]. rewrite Hn. split.
  - intros E. rewrite E, str_eqb_refl. split.
    + intros before first after Hs Hv Hb.
      destruct (glob_first fs _ before first after Hs Hv Hb) as [rest ->].
      reflexivity.
    + intros Hnone. rewrite (glob_none fs _ Hnone). reflexivity.
  - intros E. apply str_eqb_neq in E. rewrite E. reflexivity.
Qed.

Lemma dest_filename_override_witness :
  fs_is_directory example_fs example_repo /\
  exists r,
    create_flatpak_source example_fs example_repo example_metadata = Ok r /\
    FlatpakFileSource.dest_filename r =
      py "maven-metadata-20240101.120000-3.xml".
Proof.
  assert (Hd : fs_is_directory example_fs example_repo)
    by (exists [py "foo"; py "g"]; reflexivity).
  split; [exact Hd|].
  destruct (dest_filename_override example_fs example_repo example_metadata
              (list_byte_of_string "<metadata/>") Hd eq_refl)
    as (r & Hr & Hm & _).
  exists r. split; [exact Hr|].
  apply (proj1 (Hm eq_refl)
           [py "resolver-status.properties"; py "maven-metadata.xml"]
           (py "maven-metadata-20240101.120000-3.xml") []).
  - reflexivity.
  - exists (py "20240101.120000-3"). reflexivity.
  - intros x [<-|[<-|[]]] K; apply fnmatch_versioned in K; discriminate K.
Defined.

(** C6: when the file at the repository directory joined with the
    relative path of a reference exists, the [sha512] field of the source
    is the SHA-512 digest of the bytes of that file, written as 128
    lower-case hexadecimal digits. *)
Theorem sha512_of_cached_file (fs : filesystem) (repo : PosixPath.t)
    (u : ArtifactUrl.t) (content : list Byte.byte) :
  fs (PosixPath.to_str (artifact_path repo u)) = Some (File content) ->
  exists r,
    create_flatpak_source fs repo u = Ok r /\
    FlatpakFileSource.sha512 r = Sha512.hexdigest content /\
    length (FlatpakFileSource.sha512 r) = 128 /\
    Forall (fun c => is_lower_hex c = true) (FlatpakFileSource.sha512 r).
Proof.
  intros H.
  assert (Hr : read_bytes fs (artifact_path repo u) = Ok content)
    by (unfold read_bytes; rewrite H; reflexivity).
  eexists. split; [apply (create_flatpak_source_ok fs repo u content Hr)|].
  cbn [FlatpakFileSource.sha512]. split; [reflexivity|].
  split; [apply hexdigest_length|apply hexdigest_lower_hex].
Qed.

Lemma sha512_of_cached_file_witness :
  example_fs (PosixPath.to_str (artifact_path example_repo example_jar))
    = Some (File (list_byte_of_string "abc")) /\
  exists r,
    create_flatpak_source example_fs example_repo example_jar = Ok r /\
    FlatpakFileSource.sha512 r =
      py "ddaf35a193617abacc417349ae20413112e6fa4e89a97ea20a9eeee64b55d39a2192992a274fc1a836ba3c23a3feebbd454d4423643ce80e2a9ac94fa54ca49f".
Proof.
  split; [reflexivity|].
  destruct (sha512_of_cached_file example_fs example_repo example_jar
              (list_byte_of_string "abc") eq_refl) as (r & Hr & Hs & _).
  exists r. split; [exact Hr|]. rewrite Hs. vm_compute. reflexivity.
Defined.

(** C10: when the file name override applies, the other fields of the
    source are what they are without it: the url is the url of the
    reference, the destination directory comes from the relative path, and
    the digest is that of the bytes of the cached [maven-metadata.xml]
    itself; on a file system with the same cached file and no versioned
    sibling the source differs in its file name only. *)
Theorem override_changes_dest_filename_only (fs : filesystem)
    (repo : PosixPath.t) (u : ArtifactUrl.t) (content : list Byte.byte)
    (first : str) (others : list str) :
  read_bytes fs (artifact_path repo u) = Ok content ->
  PosixPath.name (artifact_path repo u) = maven_metadata ->
  glob fs (py "maven-metadata-*.xml")
    (PosixPath.to_str (PosixPath.parent (artifact_path repo u)))
    = first :: others ->
  exists r,
    create_flatpak_source fs repo u = Ok r /\
    FlatpakFileSource.dest_filename r = first /\
    FlatpakFileSource.url r = ArtifactUrl.url u /\
    FlatpakFileSource.dest r = dest_of_joined (ArtifactUrl.relpath u) /\
    FlatpakFileSource.sha512 r = Sha512.hexdigest content /\
    forall fs',
      read_bytes fs' (artifact_path repo u) = Ok content ->
      glob fs' (py "maven-metadata-*.xml")
        (PosixPath.to_str (PosixPath.parent (artifact_path repo u))) = [] ->
      create_flatpak_source fs' repo u =
        Ok (FlatpakFileSource.mk (FlatpakFileSource.url r)
              (FlatpakFileSource.dest r) maven_metadata
              (FlatpakFileSource.sha512 r)).
Proof.
  intros Hr Hn Hg.
  eexists. split; [apply (create_flatpak_source_ok fs repo u content Hr)|].
  cbn [FlatpakFileSource.dest_filename FlatpakFileSource.url
       FlatpakFileSource.dest FlatpakFileSource.sha512].
  rewrite Hn, str_eqb_refl, Hg.
  repeat (split; [reflexivity|]).
  intros fs' Hr' Hg'.
  rewrite (create_flatpak_source_ok fs' repo u content Hr').
  rewrite Hn, str_eqb_refl, Hg'. reflexivity.
Qed.

Lemma override_changes_dest_filename_only_witness :
  exists r,
    create_flatpak_source example_fs example_repo example_metadata = Ok r /\
    FlatpakFileSource.dest_filename r =
      py "maven-metadata-20240101.120000-3.xml" /\
    FlatpakFileSource.sha512 r =
      Sha512.hexdigest (list_byte_of_string "<metadata/>") /\
    FlatpakFileSource.sha512 r <>
      Sha512.hexdigest (list_byte_of_string "<metadata>3</metadata>") /\
    create_flatpak_source example_fs_plain example_repo example_metadata =
      Ok (FlatpakFileSource.mk (FlatpakFileSource.url r)
            (FlatpakFileSource.dest r) maven_metadata
            (FlatpakFileSource.sha512 r)).
Proof.
  destruct (override_changes_dest_filename_only example_fs example_repo
              example_metadata (list_byte_of_string "<metadata/>")
              (py "maven-metadata-20240101.120000-3.xml") []
              eq_refl eq_refl eq_refl)
    as (r & Hr & Hf & _ & _ & Hs & Hplain).
  exists r. split; [exact Hr|]. split; [exact Hf|]. split; [exact Hs|].
  split.
  - rewrite Hs. intros K. vm_compute in K. discriminate K.
  - apply Hplain; reflexivity.
Defined.

(** C8: when the sources of the build output can all be built,
    [update_dependencies] returns them sorted by url: the result is a
    permutation of the sources, it ascends in the order of the url strings
    by code points, of two sources with different urls the one with the
    smaller url comes first, and the sources with one and the same url
    keep the order they were built in. *)
Theorem update_dependencies_sorted (fs : filesystem)
    (repo_directory : PosixPath.t) (stdout : str)
    (sources : list FlatpakFileSource.t) :
  synthesize_sources fs repo_directory stdout = Ok sources ->
  exists out,
    update_dependencies fs repo_directory stdout = Ok out /\
    Permutation sources out /\
    StronglySorted url_le out /\
    (forall i j a b,
       nth_error out i = Some a -> nth_error out j = Some b ->
       PyStr.ltb (FlatpakFileSource.url a) (FlatpakFileSource.url b) = true ->
       i < j) /\
    (forall k, with_url k out = with_url k sources).
Proof.
  intros H. unfold update_dependencies. rewrite H. cbn [bind].
  eexists. split; [reflexivity|].
  pose proof (sort_by_key_sorted _ FlatpakFileSource.url sources) as Hs.
  split; [apply sort_by_key_perm|]. split; [exact Hs|]. split.
  - apply (sorted_positions _ FlatpakFileSource.url _ Hs).
  - intros k. apply sort_by_key_stable.
Qed.

Lemma update_dependencies_sorted_witness :
  exists sources out,
    synthesize_sources example_fs example_repo example_log = Ok sources /\
    update_dependencies example_fs example_repo example_log = Ok out /\
    Permutation sources out /\
    StronglySorted url_le out /\
    map FlatpakFileSource.dest_filename sources =
      [py "maven-metadata-20240101.120000-3.xml"; py "bar-1.0.pom";
       py "bar-1.0.jar"; py "bar-1.0.jar"] /\
    map FlatpakFileSource.dest_filename out =
      [py "maven-metadata-20240101.120000-3.xml"; py "bar-1.0.jar";
       py "bar-1.0.jar"; py "bar-1.0.pom"].
Proof.
  destruct (synthesize_sources example_fs example_repo example_log)
    as [sources|e] eqn:E; [|vm_compute in E; discriminate E].
  destruct (update_dependencies_sorted example_fs example_repo example_log
              sources E) as (out & Ho & Hp & Hs & _).
  exists sources, out. split; [reflexivity|]. split; [exact Ho|].
  split; [exact Hp|]. split; [exact Hs|].
  unfold update_dependencies in Ho. rewrite E in Ho. cbn [bind] in Ho.
  injection Ho as <-. vm_compute in E. injection E as <-.
  split; vm_compute; reflexivity.
Defined.

End Sources.

(* ================================================================== *)
(** * Further properties: classification and the log *)
(* ================================================================== *)

Section MoreClassification.

Lemma parse_url_in_ok_inv (bases : list str) (u : str) (a : ArtifactUrl.t) :
  ArtifactUrl.parse_url_in bases u = Ok a ->
  ArtifactUrl.url a = u /\ In (ArtifactUrl.repo_base_url a) bases /\
  ArtifactUrl.repo_base_url a ++ ArtifactUrl.relpath a = u.
Proof.
  induction bases as [|b bases IH]; cbn [ArtifactUrl.parse_url_in].
  - discriminate.
  - destruct (PyStr.startswith u b) eqn:E.
    + intros H. injection H as <-.
      cbn [ArtifactUrl.url ArtifactUrl.repo_base_url ArtifactUrl.relpath].
      apply startswith_spec in E. destruct E as [r ->].
      rewrite slice_from_prefix. split; [reflexivity|].
      split; [left; reflexivity|reflexivity].
    + intros H. destruct (IH H) as (H1 & H2 & H3).
      split; [exact H1|]. split; [right; exact H2|exact H3].
Qed.

Lemma parse_url_in_raise_inv (bases : list str) (u : str) (e : exn) :
  ArtifactUrl.parse_url_in bases u = Raise e ->
  e = ValueError (unknown_origin_message u) /\
  forall b, In b bases -> ~ is_prefix_of b u.
Proof.
  induction bases as [|b bases IH]; cbn [ArtifactUrl.parse_url_in].
  - intros H. injection H as <-. split; [reflexivity|]. intros b [].
  - destruct (PyStr.startswith u b) eqn:E; [discriminate|].
    intros H. destruct (IH H) as [H1 H2]. split; [exact H1|].
    intros b' [<-|Hb']; [apply startswith_false; exact E|auto].
Qed.

Lemma parse_url_ok_url (u : str) (a : ArtifactUrl.t) :
  ArtifactUrl.parse_url u = Ok a -> ArtifactUrl.url a = u.
Proof. intros H. apply (parse_url_in_ok_inv REPO_BASES u a H). Qed.

Lemma parse_url_raise_inv (u : str) (e : exn) :
  ArtifactUrl.parse_url u = Raise e ->
  e = ValueError (unknown_origin_message u) /\ ~ known_origin u.
Proof.
  intros H. destruct (parse_url_in_raise_inv REPO_BASES u e H) as [H1 H2].
  split; [exact H1|]. intros (b & Hb & Hp). exact (H2 b Hb Hp).
Qed.

(** X1: whatever [parse_url] returns keeps the invariant of
    [ArtifactUrl]: the URL is the one given, the base is one of
    [REPO_BASES], and base and relative path concatenate to the URL; the
    only exception it raises is the [ValueError] for a URL that starts
    with none of the bases. *)
Theorem parse_url_outcome (u : str) :
  match ArtifactUrl.parse_url u with
  | Ok a =>
      ArtifactUrl.url a = u /\
      In (ArtifactUrl.repo_base_url a) REPO_BASES /\
      ArtifactUrl.repo_base_url a ++ ArtifactUrl.relpath a = u /\
      known_origin u
  | Raise e =>
      e = ValueError (unknown_origin_message u) /\ ~ known_origin u
  end.
Proof.
  unfold ArtifactUrl.parse_url.
  destruct (ArtifactUrl.parse_url_in REPO_BASES u) as [a|e] eqn:E.
  - destruct (parse_url_in_ok_inv REPO_BASES u a E) as (H1 & H2 & H3).
    repeat (split; [assumption|]).
    exists (ArtifactUrl.repo_base_url a). split; [exact H2|].
    exists (ArtifactUrl.relpath a). symmetry. exact H3.
  - destruct (parse_url_in_raise_inv REPO_BASES u e E) as [H1 H2].
    split; [exact H1|]. intros (b & Hb & Hp). exact (H2 b Hb Hp).
Qed.

(** No URL starts with two different bases of [REPO_BASES]. *)
Lemma repo_bases_exclusive (b b' u : str) :
  In b REPO_BASES -> In b' REPO_BASES ->
  is_prefix_of b u -> is_prefix_of b' u -> b = b'.
Proof.
  intros Hb Hb' [r ->] [r' E].
  cbv [REPO_BASES In] in Hb, Hb'.
  destruct Hb as [<-|[<-|[<-|[]]]]; destruct Hb' as [<-|[<-|[<-|[]]]];
    try reflexivity; exfalso; cbv [py list_ascii_of_string map app] in E;
    cbn in E; discriminate E.
Qed.

(** X2: the classification does not depend on the order of [REPO_BASES]:
    a URL starts with at most one base, so every base it starts with is
    the base [parse_url] returns. *)
Theorem parse_url_any_base (u b : str) :
  In b REPO_BASES -> is_prefix_of b u ->
  ArtifactUrl.parse_url u =
    Ok (ArtifactUrl.mk u b (PyStr.slice_from (length b) u)).
Proof.
  intros Hb Hp.
  destruct (parse_url_in_found REPO_BASES u)
    as (before & b0 & after & Hl & Hp0 & _ & Hr).
  { exists b. auto. }
  assert (E : b0 = b).
  { apply (repo_bases_exclusive b0 b u); auto.
    rewrite Hl. apply in_or_app. right. left. reflexivity. }
  subst b0. exact Hr.
Qed.

Lemma parse_url_any_base_witness :
  let b := py "https://maven.ej-technologies.com/repository/" in
  let u := b ++ py "com/install4j/install4j-runtime/10.0.9/install4j-runtime-10.0.9.jar" in
  In b REPO_BASES /\ is_prefix_of b u /\
  ArtifactUrl.parse_url u =
    Ok (ArtifactUrl.mk u b (PyStr.slice_from (length b) u)).
Proof.
  intros b u.
  assert (Hb : In b REPO_BASES) by (right; right; left; reflexivity).
  assert (Hp : is_prefix_of b u) by (eexists; reflexivity).
  split; [exact Hb|]. split; [exact Hp|].
  exact (parse_url_any_base u b Hb Hp).
Defined.

End MoreClassification.

Section MoreRegex.

Lemma dotstar_nil : DownloadedRe.dotstar_colon_url [] = None.
Proof. reflexivity. Qed.

Lemma dotstar_none_everywhere (s : str) :
  Forall (fun c => c <> 10%N) s ->
  DownloadedRe.dotstar_colon_url s = None ->
  forall p q, s = p ++ q -> DownloadedRe.colon_url q = None.
Proof.
  induction 1 as [|c s Hc Hs IH]; intros Hn p q E.
  - symmetry in E. apply app_eq_nil in E. destruct E as [_ ->].
    reflexivity.
  - rewrite dotstar_cons in Hn by exact Hc.
    destruct (DownloadedRe.dotstar_colon_url s) eqn:Ed; [discriminate|].
    destruct p as [|d p].
    + cbn [app] in E. subst q. exact Hn.
    + injection E as _ E. apply (IH eq_refl p q E).
Qed.

Lemma dotstar_last (s g : str) :
  Forall (fun c => c <> 10%N) s ->
  DownloadedRe.dotstar_colon_url s = Some g ->
  exists ident rest,
    s = ident ++ rest /\ DownloadedRe.colon_url rest = Some g /\
    forall p q, rest = p ++ q -> p <> [] ->
                DownloadedRe.colon_url q = None.
Proof.
  induction 1 as [|c s Hc Hs IH]; intros Hg.
  - discriminate Hg.
  - rewrite dotstar_cons in Hg by exact Hc.
    destruct (DownloadedRe.dotstar_colon_url s) as [g'|] eqn:Ed.
    + injection Hg as <-.
      destruct (IH eq_refl) as (ident & rest & -> & Hr & Hl).
      exists (c :: ident), rest. auto.
    + exists [], (c :: s). split; [reflexivity|]. split; [exact Hg|].
      intros p q E Hp. destruct p as [|d p]; [contradiction|].
      injection E as _ E.
      apply (dotstar_none_everywhere s Hs Ed p q E).
Qed.

Lemma search_match_here (l g : str) :
  DownloadedRe.search l = Some g ->
  exists pre m, l = pre ++ m /\ DownloadedRe.match_here m = Some g.
Proof.
  induction l as [|c l IH]; rewrite search_unfold; intros H.
  - destruct (DownloadedRe.match_here []) eqn:E; [|discriminate].
    exists [], []. split; [reflexivity|]. rewrite E. exact H.
  - destruct (DownloadedRe.match_here (c :: l)) as [g'|] eqn:E.
    + exists [], (c :: l). split; [reflexivity|]. rewrite E. exact H.
    + destruct (IH H) as (pre & m & -> & Hm).
      exists (c :: pre), m. auto.
Qed.

(** A URL token may go on to the next space. *)
Lemma colon_url_finds (u rest : str) :
  url_token u ->
  exists g, DownloadedRe.colon_url (py ": " ++ u ++ rest) = Some g.
Proof.
  intros (scheme & tok & -> & Hs & Hne & Hf).
  set (f := fun c => negb (PyStr.ceqb c 32)).
  exists (scheme ++ py "://" ++ (tok ++ PyStr.take_while f rest)).
  rewrite (take_drop_while f rest) at 1.
  replace (py ": " ++ (scheme ++ py "://" ++ tok) ++
           PyStr.take_while f rest ++ PyStr.drop_while f rest)
    with (py ": " ++ (scheme ++ py "://" ++ tok ++ PyStr.take_while f rest)
            ++ PyStr.drop_while f rest)
    by (rewrite <- !app_assoc; reflexivity).
  apply colon_url_complete.
  - exists scheme, (tok ++ PyStr.take_while f rest).
    split; [reflexivity|]. split; [exact Hs|]. split.
    + destruct tok; [contradiction|discriminate].
    + apply Forall_app. split; [exact Hf|].
      eapply Forall_impl; [|apply (take_while_all f rest)].
      intros a Ha. unfold f in Ha.
      apply negb_true_iff, ceqb_neq in Ha. exact Ha.
  - destruct (drop_while_head f rest) as [->|(d & r & -> & Hd)].
    + left. reflexivity.
    + right. exists r. unfold f in Hd.
      apply negb_false_iff, ceqb_eq in Hd. congruence.
Qed.

Lemma app_eq_later {A} (a b x y : list A) :
  a ++ b = x ++ y -> length a < length x ->
  exists p, p <> [] /\ b = p ++ y.
Proof.
  revert x. induction a as [|c a IH]; intros x E Hl.
  - cbn [app] in E. exists x. split; [|exact E].
    destruct x; [cbn in Hl; lia|discriminate].
  - destruct x as [|d x]; [cbn in Hl; lia|].
    injection E as _ E. apply (IH x E). cbn in Hl. lia.
Qed.

(** X3: of several URLs on a line the regular expression takes the last
    one: the token it returns follows a colon and a space, and no colon,
    space and URL token begin further right on the line. *)
Theorem search_takes_last_url (l g : str) :
  Forall (fun c => c <> 10%N) l ->
  DownloadedRe.search l = Some g ->
  exists before after,
    l = before ++ py ": " ++ g ++ after /\
    url_token g /\ token_end after /\
    forall x y u rest,
      l = x ++ y -> length before < length x ->
      y = py ": " ++ u ++ rest -> ~ url_token u.
Proof.
  intros Hl Hs.
  destruct (search_match_here l g Hs) as (pre & m & -> & Hm).
  unfold DownloadedRe.match_here in Hm.
  destruct (DownloadedRe.literal (py "Downloaded from ") m) as [r|] eqn:El;
    [|discriminate].
  apply literal_spec in El. subst m.
  assert (Hr : Forall (fun c => c <> 10%N) r).
  { apply Forall_app in Hl. destruct Hl as [_ Hl].
    apply Forall_app in Hl. tauto. }
  destruct (dotstar_last r g Hr Hm) as (ident & rest & -> & Hc & Hlast).
  destruct (colon_url_sound rest g Hc) as (Hu & after & -> & Ha).
  exists (pre ++ py "Downloaded from " ++ ident), after.
  split; [rewrite <- !app_assoc; reflexivity|].
  split; [exact Hu|]. split; [exact Ha|].
  intros x y u rest Ex Hlen -> Hu'.
  assert (E : (pre ++ py "Downloaded from " ++ ident) ++
              (py ": " ++ g ++ after) = x ++ py ": " ++ u ++ rest)
    by (rewrite <- Ex, <- !app_assoc; reflexivity).
  destruct (app_eq_later _ _ _ _ E Hlen) as (p & Hp & Ep).
  pose proof (Hlast p _ Ep Hp) as Hnone.
  destruct (colon_url_finds u rest Hu') as [g' Hg'].
  congruence.
Qed.

Lemma search_takes_last_url_witness :
  let l := py "Downloaded from mirror: http://a.test/x.jar (via: https://repo.maven.apache.org/maven2/x.jar )" in
  Forall (fun c => c <> 10%N) l /\
  DownloadedRe.search l = Some (py "https://repo.maven.apache.org/maven2/x.jar") /\
  exists before after,
    l = before ++ py ": " ++ py "https://repo.maven.apache.org/maven2/x.jar"
          ++ after /\
    token_end after.
Proof.
  intros l.
  assert (Hl : Forall (fun c => c <> 10%N) l).
  { apply Forall_forall. intros c Hc ->. vm_compute in Hc.
    repeat (destruct Hc as [Hc|Hc]; [discriminate Hc|]). exact Hc. }
  split; [exact Hl|]. split; [reflexivity|].
  destruct (search_takes_last_url l _ Hl eq_refl)
    as (before & after & E & _ & Ha & _).
  exists before, after. auto.
Defined.

End MoreRegex.

Section MoreExtraction.

(** X4: whatever the build output, the references
    [extract_downloaded_artifacts] yields are the classified URLs of the
    download lines, in order, up to the first URL of unknown origin: each
    reference is what [parse_url] returns for its URL; if the generator
    ends normally there is one reference per URL, and if it ends with an
    exception, that is the [ValueError] of the first URL that starts with
    no known base. *)
Theorem extract_outcome (log : str) :
  let urls := log_urls (PyStr.splitlines log) in
  let (ys, ending) := extract_downloaded_artifacts log in
  Forall (fun y => ArtifactUrl.parse_url (ArtifactUrl.url y) = Ok y) ys /\
  match ending with
  | None => urls = map ArtifactUrl.url ys
  | Some e =>
      exists u rest,
        urls = map ArtifactUrl.url ys ++ u :: rest /\
        ~ known_origin u /\ e = ValueError (unknown_origin_message u)
  end.
Proof.
  unfold extract_downloaded_artifacts.
  induction (PyStr.splitlines log) as [|l lines IH];
    cbn [extract_from_lines log_urls flat_map].
  - split; [constructor|reflexivity].
  - fold (log_urls lines).
    destruct (DownloadedRe.search l) as [g|]; [|exact IH].
    destruct (ArtifactUrl.parse_url g) as [a|e] eqn:Ea.
    + destruct (extract_from_lines lines) as [ys ending].
      pose proof (parse_url_ok_url g a Ea) as Hu. destruct IH as [IH1 IH2].
      split; [constructor; [rewrite Hu; exact Ea|exact IH1]|].
      destruct ending as [e|].
      * destruct IH2 as (u & rest & E & Hn & He).
        exists u, rest. cbn [app map]. rewrite Hu, E. auto.
      * cbn [app map]. rewrite Hu, IH2. reflexivity.
    + destruct (parse_url_raise_inv g e Ea) as [-> Hn].
      split; [constructor|].
      exists g, (log_urls lines). auto.
Qed.

Lemma for_break_exists (cond : str -> bool) (lines : list str) :
  for_break cond lines = true <-> exists l, In l lines /\ cond l = true.
Proof.
  induction lines as [|x lines IH]; cbn [for_break].
  - split; [discriminate|]. intros (l & [] & _).
  - destruct (cond x) eqn:E.
    + split; auto. intros _. exists x. split; [left; reflexivity|exact E].
    + rewrite IH. split.
      * intros (l & Hl & Hc). exists l. split; [right; exact Hl|exact Hc].
      * intros (l & [<-|Hl] & Hc); [congruence|]. exists l. auto.
Qed.

End MoreExtraction.

Section StripFacts.

Lemma drop_while_suffix (f : N -> bool) (s : str) :
  exists p, s = p ++ PyStr.drop_while f s.
Proof.
  induction s as [|c s [p IH]]; [exists []; reflexivity|].
  cbn [PyStr.drop_while]. destruct (f c).
  - exists (c :: p). cbn [app]. rewrite <- IH. reflexivity.
  - exists []. reflexivity.
Qed.

Lemma drop_while_first (f : N -> bool) (s : str) (c : N) (r : str) :
  PyStr.drop_while f s = c :: r -> f c = false.
Proof.
  intros H. destruct (drop_while_head f s) as [E|(d & r' & E & Hd)];
    rewrite E in H; [discriminate|]. injection H as <- _. exact Hd.
Qed.

(** What [strip] leaves neither starts nor ends with a stripped code
    point. *)
Lemma strip_by_no_edge (f : N -> bool) (s : str) :
  no_edge f (PyStr.strip_by f s).
Proof.
  unfold PyStr.strip_by.
  set (t := PyStr.drop_while f s).
  destruct (drop_while_suffix f (rev t)) as [p Hp].
  set (t' := PyStr.drop_while f (rev t)) in *.
  assert (Et : t = rev t' ++ rev p).
  { rewrite <- (rev_involutive t), Hp, rev_app_distr. reflexivity. }
  split.
  - intros c r E. rewrite E in Et. cbn [app] in Et.
    apply (drop_while_first f s c (r ++ rev p)). exact Et.
  - intros r c E.
    assert (E' : t' = c :: rev r).
    { rewrite <- (rev_involutive t'), E, rev_app_distr. reflexivity. }
    apply (drop_while_first f (rev t) c (rev r)). exact E'.
Qed.

Lemma truthy_nonempty (s : str) : PyStr.truthy s = true <-> s <> [].
Proof. destruct s; cbn; split; congruence. Qed.

Lemma both_truthy_some (x y : option str) (a b : str) :
  both_truthy x y = Some (a, b) ->
  x = Some a /\ y = Some b /\ a <> [] /\ b <> [].
Proof.
  unfold both_truthy. destruct x as [a'|], y as [b'|]; try discriminate.
  destruct (PyStr.truthy a') eqn:Ea; [|discriminate].
  destruct (PyStr.truthy b') eqn:Eb; [|discriminate]. cbn [andb].
  intros H. injection H as <- <-.
  apply truthy_nonempty in Ea, Eb. auto.
Qed.

End StripFacts.

Section MoreSdk.

Lemma sdk_step_inv (n v : option str) (l : str) :
  (forall a, n = Some a -> no_edge PyStr.is_space a) ->
  (forall b, v = Some b -> no_edge is_quote b) ->
  match FlatpakSdk.sdk_step n v l with
  | Ok st =>
      (forall a, fst st = Some a -> no_edge PyStr.is_space a) /\
      (forall b, snd st = Some b -> no_edge is_quote b)
  | Raise e => e = IndexError
  end.
Proof.
  intros Hn Hv. unfold FlatpakSdk.sdk_step.
  destruct (PyStr.startswith l (py "sdk:")).
  - unfold after_colon, PyStr.index.
    destruct (nth_error _ 1) as [x|]; cbn [bind fst snd]; [|reflexivity].
    split; [|exact Hv]. intros a H. injection H as <-.
    apply strip_by_no_edge.
  - destruct (PyStr.startswith l (py "runtime-version")).
    + unfold after_colon, PyStr.index.
      destruct (nth_error _ 1) as [x|]; cbn [bind fst snd]; [|reflexivity].
      split; [exact Hn|]. intros b H. injection H as <-.
      apply strip_by_no_edge.
    + cbn [fst snd]. auto.
Qed.

Lemma parse_loop_inv (lines : list str) :
  forall n v,
    (forall a, n = Some a -> no_edge PyStr.is_space a) ->
    (forall b, v = Some b -> no_edge is_quote b) ->
    match FlatpakSdk.parse_from_manifest_loop n v lines with
    | Ok sdk =>
        FlatpakSdk.name sdk <> [] /\ FlatpakSdk.version sdk <> [] /\
        no_edge PyStr.is_space (FlatpakSdk.name sdk) /\
        no_edge is_quote (FlatpakSdk.version sdk)
    | Raise e => is_lookup_error e = true
    end.
Proof.
  induction lines as [|l lines IH]; intros n v Hn Hv.
  - reflexivity.
  - rewrite parse_loop_cons.
    pose proof (sdk_step_inv n v l Hn Hv) as Hs.
    destruct (FlatpakSdk.sdk_step n v l) as [st|e]; cbn [bind].
    + destruct Hs as [Hn' Hv'].
      destruct (both_truthy (fst st) (snd st)) as [[a b]|] eqn:Eb.
      * apply both_truthy_some in Eb.
        destruct Eb as (Ea & Eb & Hna & Hnb).
        cbn [FlatpakSdk.name FlatpakSdk.version]. auto.
      * apply IH; assumption.
    + subst e. reflexivity.
Qed.

(** X7: an SDK identity that [parse_from_manifest] returns has a name and
    a version that are not empty; the name neither starts nor ends with
    white space and the version neither starts nor ends with a quote; and
    every exception it raises is a lookup error ([LookupError] or
    [IndexError]). *)
Theorem parse_from_manifest_outcome (manifest : str) :
  match FlatpakSdk.parse_from_manifest manifest with
  | Ok sdk =>
      FlatpakSdk.name sdk <> [] /\ FlatpakSdk.version sdk <> [] /\
      no_edge PyStr.is_space (FlatpakSdk.name sdk) /\
      no_edge is_quote (FlatpakSdk.version sdk)
  | Raise e => is_lookup_error e = true
  end.
Proof.
  unfold FlatpakSdk.parse_from_manifest.
  apply parse_loop_inv; discriminate.
Qed.

Lemma app_slash_inj (x y r r' : str) :
  ~ In 47%N x -> ~ In 47%N y ->
  x ++ 47%N :: r = y ++ 47%N :: r' -> x = y /\ r = r'.
Proof.
  revert y. induction x as [|a x IH]; intros [|b y] Hx Hy E.
  - injection E as ->. auto.
  - injection E as <- _. exfalso. apply Hy. left. reflexivity.
  - injection E as -> _. exfalso. apply Hx. left. reflexivity.
  - injection E as -> E.
    destruct (IH y) as [-> ->]; auto.
    + intros K. apply Hx. right. exact K.
    + intros K. apply Hy. right. exact K.
Qed.

(** X8: the reference [str(sdk)], name, two slashes, version, tells the
    SDK: two identities whose names hold no slash and whose references
    are equal are the same identity. *)
Theorem sdk_str_injective (a b : FlatpakSdk.t) :
  ~ In 47%N (FlatpakSdk.name a) -> ~ In 47%N (FlatpakSdk.name b) ->
  FlatpakSdk.__str__ a = FlatpakSdk.__str__ b -> a = b.
Proof.
  destruct a as [na va], b as [nb vb].
  cbn [FlatpakSdk.name FlatpakSdk.version FlatpakSdk.__str__].
  intros Ha Hb E.
  change (py "//" ++ va) with (47%N :: 47%N :: va) in E.
  change (py "//" ++ vb) with (47%N :: 47%N :: vb) in E.
  destruct (app_slash_inj na nb _ _ Ha Hb E) as [-> E'].
  injection E' as ->. reflexivity.
Qed.

Lemma sdk_str_injective_witness :
  let a := FlatpakSdk.mk (py "org.freedesktop.Sdk") (py "24.08") in
  FlatpakSdk.__str__ a = py "org.freedesktop.Sdk//24.08" /\
  forall b, ~ In 47%N (FlatpakSdk.name b) ->
            FlatpakSdk.__str__ a = FlatpakSdk.__str__ b -> a = b.
Proof.
  intros a. split; [reflexivity|]. intros b Hb.
  apply (sdk_str_injective a b); [|exact Hb].
  intros K. vm_compute in K.
  repeat (destruct K as [K|K]; [discriminate K|]). exact K.
Defined.

End MoreSdk.

Section MoreSource.

Lemma url_line_has_colon (l : str) :
  is_url_line l = true -> In colon (PyStr.strip l).
Proof.
  intros H. apply startswith_spec in H. destruct H as [r ->].
  right. right. right. left. reflexivity.
Qed.

Lemma commit_line_has_colon (l : str) :
  is_commit_line l = true -> In colon (PyStr.strip l).
Proof.
  intros H. apply startswith_spec in H. destruct H as [r ->].
  do 6 right. left. reflexivity.
Qed.

Lemma url_line_not_commit (l : str) :
  is_url_line l = true -> is_commit_line l = false.
Proof.
  unfold is_url_line, is_commit_line. intros H.
  apply startswith_spec in H. destruct H as [r ->]. reflexivity.
Qed.

(** The third loop never fails at a line: a [url:] or [commit:] line has
    its colon. *)
Lemma source_step_ok (seen : list str) (l : str) :
  source_step (fst (source_vars seen)) (snd (source_vars seen)) l =
    Ok (source_vars (seen ++ [l])).
Proof.
  unfold source_step, source_vars. rewrite !latest_snoc.
  fold (is_url_line l). fold (is_commit_line l).
  destruct (is_url_line l) eqn:Eu.
  - rewrite (url_line_not_commit l Eu).
    rewrite (after_colon_ok _ (url_line_has_colon l Eu)). reflexivity.
  - destruct (is_commit_line l) eqn:Ec; [|reflexivity].
    rewrite (after_colon_ok _ (commit_line_has_colon l Ec)). reflexivity.
Qed.

Lemma find_url_commit_cons (u c : option str) (l : str)
    (rest : list str) :
  find_url_commit u c (l :: rest) =
    bind (source_step u c l)
      (fun st =>
         match both_truthy (fst st) (snd st) with
         | Some (a, b) => Ok (FlatpakGitSource.mk a b)
         | None => find_url_commit (fst st) (snd st) rest
         end).
Proof. reflexivity. Qed.

Lemma never_source_seen_spec (lines : list str) :
  never_source_seen lines = true ->
  forall p x q, lines = p ++ x :: q -> source_seen (p ++ [x]) = None.
Proof.
  unfold never_source_seen. rewrite forallb_forall. intros H p x q ->.
  specialize (H (length p)).
  assert (E : firstn (S (length p)) (p ++ x :: q) = p ++ [x]).
  { clear H. induction p as [|a p IH]; [reflexivity|].
    simpl in *. rewrite IH. reflexivity. }
  rewrite E in H.
  destruct (source_seen (p ++ [x])); [|reflexivity].
  assert (K : false = true); [|discriminate].
  apply H. apply in_seq. rewrite length_app. simpl. lia.
Qed.

Lemma find_loop_found (before : list str) :
  forall seen line after u c,
    (forall p x q, before = p ++ x :: q ->
                   source_seen (seen ++ p ++ [x]) = None) ->
    source_seen (seen ++ before ++ [line]) = Some (u, c) ->
    find_url_commit (fst (source_vars seen)) (snd (source_vars seen))
      (before ++ line :: after) = Ok (FlatpakGitSource.mk u c).
Proof.
  induction before as [|b before IH]; intros seen line after u c Hn Hf.
  - cbn [app] in *. rewrite find_url_commit_cons, source_step_ok.
    cbn [bind]. fold (source_seen (seen ++ [line])). rewrite Hf.
    reflexivity.
  - rewrite <- app_comm_cons, find_url_commit_cons, source_step_ok.
    cbn [bind]. fold (source_seen (seen ++ [b])).
    pose proof (Hn [] b before eq_refl) as H0. cbn [app] in H0.
    rewrite H0. apply IH.
    + intros p x q ->. rewrite <- app_assoc.
      apply (Hn (b :: p) x q). reflexivity.
    + rewrite <- app_assoc. exact Hf.
Qed.

Lemma find_loop_never (rest : list str) :
  forall seen,
    (forall p x q, rest = p ++ x :: q ->
                   source_seen (seen ++ p ++ [x]) = None) ->
    find_url_commit (fst (source_vars seen)) (snd (source_vars seen)) rest =
      Raise (LookupError
               (py "url or commit not found in main mediathekview source")).
Proof.
  induction rest as [|l rest IH]; intros seen Hn.
  - reflexivity.
  - rewrite find_url_commit_cons, source_step_ok. cbn [bind].
    fold (source_seen (seen ++ [l])).
    pose proof (Hn [] l rest eq_refl) as H0. cbn [app] in H0.
    rewrite H0. apply IH. intros p x q ->. rewrite <- app_assoc.
    apply (Hn (l :: p) x q). reflexivity.
Qed.

Lemma find_loop_outcome (rest : list str) (seen : list str) :
  match find_url_commit (fst (source_vars seen)) (snd (source_vars seen))
          rest with
  | Ok s =>
      FlatpakGitSource.url s <> [] /\ FlatpakGitSource.commit s <> [] /\
      no_edge PyStr.is_space (FlatpakGitSource.url s) /\
      no_edge PyStr.is_space (FlatpakGitSource.commit s)
  | Raise e =>
      e = LookupError
            (py "url or commit not found in main mediathekview source")
  end.
Proof.
  revert seen. induction rest as [|l rest IH]; intros seen.
  - reflexivity.
  - rewrite find_url_commit_cons, source_step_ok. cbn [bind].
    destruct (both_truthy (fst (source_vars (seen ++ [l])))
                (snd (source_vars (seen ++ [l])))) as [[a b]|] eqn:Eb.
    + apply both_truthy_some in Eb. destruct Eb as (Ea & Eb & Hna & Hnb).
      cbn [FlatpakGitSource.url FlatpakGitSource.commit].
      split; [exact Hna|]. split; [exact Hnb|].
      unfold source_vars in Ea, Eb. cbn [fst snd] in Ea, Eb. split.
      * destruct (latest is_url_line (seen ++ [l])); [|discriminate].
        injection Ea as <-. apply strip_by_no_edge.
      * destruct (latest is_commit_line (seen ++ [l])); [|discriminate].
        injection Eb as <-. apply strip_by_no_edge.
    + apply IH.
Qed.

(** X5: [find_mediathekview_source] succeeds only on a manifest that
    has both marker lines, and then with a url and a commit that are not
    empty and carry no white space at their ends; it raises nothing but
    [LookupError]: for a missing module marker first, for a missing git
    marker next, and for a missing url or commit last. *)
Theorem find_mediathekview_source_outcome (text : str) :
  let lines := PyStr.splitlines text in
  let has_module :=
    exists l, In l lines /\ is_module_marker l = true in
  let has_git := exists l, In l lines /\ is_git_marker l = true in
  match find_mediathekview_source text with
  | Ok s =>
      has_module /\ has_git /\
      FlatpakGitSource.url s <> [] /\ FlatpakGitSource.commit s <> [] /\
      no_edge PyStr.is_space (FlatpakGitSource.url s) /\
      no_edge PyStr.is_space (FlatpakGitSource.commit s)
  | Raise e =>
      (~ has_module /\
       e = LookupError (py "mediathekview module not found")) \/
      (has_module /\ ~ has_git /\
       e = LookupError (py "git source not found")) \/
      (has_module /\ has_git /\
       e = LookupError
             (py "url or commit not found in main mediathekview source"))
  end.
Proof.
  intros lines has_module has_git. unfold find_mediathekview_source.
  fold lines. fold is_module_marker. fold is_git_marker.
  destruct (for_break is_module_marker lines) eqn:Em.
  - assert (Hm : has_module) by (apply for_break_exists; exact Em).
    destruct (for_break is_git_marker lines) eqn:Eg.
    + assert (Hg : has_git) by (apply for_break_exists; exact Eg).
      pose proof (find_loop_outcome lines []) as H.
      change (fst (source_vars [])) with (@None str) in H.
      change (snd (source_vars [])) with (@None str) in H.
      destruct (find_url_commit None None lines) as [s|e].
      * tauto.
      * right. right. auto.
    + right. left. split; [exact Hm|]. split; [|reflexivity].
      intros Hg. apply for_break_exists in Hg. congruence.
  - left. split; [|reflexivity].
    intros Hm. apply for_break_exists in Hm. congruence.
Qed.

(** X6: on a manifest with both marker lines, wherever they are,
    [find_mediathekview_source] reads the lines from the first one on:
    its url is the trimmed value of the latest [url:] line read and its
    commit that of the latest [commit:] line read, at the first line after
    which both are set and not empty; when there is no such line it
    raises the [LookupError] for a missing url or commit. *)
Theorem find_mediathekview_source_latest_lines (text : str) :
  (exists l, In l (PyStr.splitlines text) /\ is_module_marker l = true) ->
  (exists l, In l (PyStr.splitlines text) /\ is_git_marker l = true) ->
  (forall before line after u c,
     PyStr.splitlines text = before ++ line :: after ->
     (forall p x q, before = p ++ x :: q -> source_seen (p ++ [x]) = None) ->
     source_seen (before ++ [line]) = Some (u, c) ->
     find_mediathekview_source text = Ok (FlatpakGitSource.mk u c)) /\
  ((forall p x q, PyStr.splitlines text = p ++ x :: q ->
                  source_seen (p ++ [x]) = None) ->
   find_mediathekview_source text =
     Raise (LookupError
              (py "url or commit not found in main mediathekview source"))).
Proof.
  intros Hm Hg. unfold find_mediathekview_source.
  fold is_module_marker. fold is_git_marker.
  apply for_break_exists in Hm, Hg. rewrite Hm, Hg. split.
  - intros before line after u c -> Hn Hf.
    apply (find_loop_found before [] line after u c Hn Hf).
  - intros Hn. apply (find_loop_never (PyStr.splitlines text) [] Hn).
Qed.

Lemma find_mediathekview_source_latest_lines_witness :
  let text :=
    unlines [py "modules:";
             py "  - name: mediathekview";
             py "    sources:";
             py "      - type: git";
             py "        url: https://example.test/repo.git";
             py "        commit: abc123";
             py "        tag: 14.1.0"] in
  find_mediathekview_source text =
    Ok (FlatpakGitSource.mk (py "https://example.test/repo.git")
          (py "abc123")) /\
  find_mediathekview_source
    (unlines [py "- name: mediathekview"; py "- type: git";
              py "url: https://example.test/repo.git"]) =
    Raise (LookupError
             (py "url or commit not found in main mediathekview source")).
Proof.
  intros text. split.
  - refine (proj1 (find_mediathekview_source_latest_lines text _ _)
              [py "modules:";
               py "  - name: mediathekview";
               py "    sources:";
               py "      - type: git";
               py "        url: https://example.test/repo.git"]
              (py "        commit: abc123") [py "        tag: 14.1.0"]
              _ _ eq_refl _ eq_refl).
    + exists (py "  - name: mediathekview").
      split; [right; left; reflexivity|reflexivity].
    + exists (py "      - type: git").
      split; [do 3 right; left; reflexivity|reflexivity].
    + apply never_source_seen_spec. reflexivity.
  - refine (proj2 (find_mediathekview_source_latest_lines _ _ _) _).
    + exists (py "- name: mediathekview").
      split; [left; reflexivity|reflexivity].
    + exists (py "- type: git").
      split; [right; left; reflexivity|reflexivity].
    + apply never_source_seen_spec. reflexivity.
Defined.

End MoreSource.

(* ================================================================== *)
(** * Further properties: the sources and the result *)
(* ================================================================== *)

Section MoreSources.

Import PosixPath.

Lemma create_flatpak_source_ok_inv (fs : filesystem) (repo : t)
    (u : ArtifactUrl.t) (r : FlatpakFileSource.t) :
  create_flatpak_source fs repo u = Ok r ->
  exists content,
    fs (to_str (artifact_path repo u)) = Some (File content) /\
    read_bytes fs (artifact_path repo u) = Ok content /\
    FlatpakFileSource.url r = ArtifactUrl.url u.
Proof.
  intros H.
  destruct (read_bytes fs (artifact_path repo u)) as [content|e] eqn:Er.
  - exists content. split; [|split; [reflexivity|]].
    + unfold read_bytes in Er.
      destruct (fs (to_str (artifact_path repo u))) as [[c|entries]|];
        try discriminate Er. injection Er as ->. reflexivity.
    + rewrite (create_flatpak_source_ok fs repo u content Er) in H.
      injection H as <-. reflexivity.
  - rewrite (create_flatpak_source_raise fs repo u e Er) in H.
    discriminate H.
Qed.

Lemma to_str_same_parsed (p q : t) : parsed p = parsed q -> to_str p = to_str q.
Proof. unfold to_str, root, tail. intros ->. reflexivity. Qed.

Lemma dest_of_joined_absolute (relpath : str) :
  is_absolute relpath = true ->
  exists r, dest_of_joined relpath =
            format_parsed (sep :: r) (removelast (snd (parse_path relpath))).
Proof.
  intros Ha. unfold dest_of_joined, as_posix.
  destruct (parse_path_valid relpath) as [Hrt Htl].
  destruct (absolute_root relpath Ha) as (r & Er & _).
  destruct (parse_path relpath) as [rt tl] eqn:Ep.
  cbn [fst snd] in *. subst rt. exists r.
  rewrite (parent_parsed _ (sep :: r) tl)
    by (rewrite parsed_joinpath_absolute; assumption).
  destruct tl as [|x tl0].
  - rewrite (to_str_parsed _ (sep :: r) [])
      by (rewrite parsed_joinpath_absolute; assumption).
    reflexivity.
  - rewrite to_str_of_format; [reflexivity|exact Hrt|].
    apply removelast_valid. exact Htl.
Qed.

(** X10: a relative path that starts with a slash leaves the repository:
    the artifact is read at that absolute path, whatever the repository
    directory is, and the destination directory of the source is
    absolute as well instead of lying under [.m2/repository]. *)
Theorem absolute_relpath_leaves_repository (fs : filesystem) (repo : t)
    (u : ArtifactUrl.t) (content : list Byte.byte) :
  is_absolute (ArtifactUrl.relpath u) = true ->
  fs (to_str (of_str (ArtifactUrl.relpath u))) = Some (File content) ->
  exists r,
    create_flatpak_source fs repo u = Ok r /\
    FlatpakFileSource.sha512 r = Sha512.hexdigest content /\
    is_absolute (FlatpakFileSource.dest r) = true.
Proof.
  intros Ha Hf.
  assert (E : to_str (artifact_path repo u)
              = to_str (of_str (ArtifactUrl.relpath u))).
  { apply to_str_same_parsed. unfold artifact_path.
    rewrite parsed_joinpath_absolute by exact Ha. reflexivity. }
  assert (Hr : read_bytes fs (artifact_path repo u) = Ok content)
    by (unfold read_bytes; rewrite E, Hf; reflexivity).
  eexists. split; [apply (create_flatpak_source_ok fs repo u content Hr)|].
  cbn [FlatpakFileSource.sha512 FlatpakFileSource.dest].
  split; [reflexivity|].
  destruct (dest_of_joined_absolute _ Ha) as [r ->]. reflexivity.
Qed.

Lemma absolute_relpath_leaves_repository_witness :
  let fs : filesystem := fun p =>
    if PyStr.eqb p (py "/etc/hostname") then
      Some (File (list_byte_of_string "abc"))
    else if PyStr.eqb p (py "/cache") then Some (Dir []) else None in
  let u := py "https://repo.maven.apache.org/maven2//etc/hostname" in
  exists a r,
    ArtifactUrl.parse_url u = Ok a /\
    ArtifactUrl.relpath a = py "/etc/hostname" /\
    create_flatpak_source fs example_repo a = Ok r /\
    FlatpakFileSource.dest r = py "/etc" /\
    FlatpakFileSource.sha512 r =
      Sha512.hexdigest (list_byte_of_string "abc").
Proof.
  intros fs u.
  exists (ArtifactUrl.mk u (py "https://repo.maven.apache.org/maven2/")
            (py "/etc/hostname")).
  destruct (absolute_relpath_leaves_repository fs example_repo
              (ArtifactUrl.mk u (py "https://repo.maven.apache.org/maven2/")
                 (py "/etc/hostname"))
              (list_byte_of_string "abc") eq_refl eq_refl)
    as (r & Hr & Hs & _).
  exists r. split; [reflexivity|]. split; [reflexivity|].
  split; [exact Hr|]. split; [|exact Hs].
  vm_compute in Hr. injection Hr as <-. reflexivity.
Defined.

Lemma dest_of_joined_relative (relpath : str) :
  is_absolute relpath = false -> components relpath <> [] ->
  dest_of_joined relpath =
    join_sep ([py ".m2"; py "repository"] ++
              removelast (components relpath)).
Proof.
  intros Ha Hne. unfold dest_of_joined, as_posix.
  set (A := [py ".m2"; py "repository"]).
  pose proof (removelast_valid _ (components_valid relpath)) as Htl'.
  rewrite (parent_parsed _ [] (A ++ components relpath)).
  2:{ rewrite parsed_joinpath_relative by exact Ha.
      unfold root, tail. rewrite m2_repository_joined. reflexivity. }
  change (A ++ components relpath)
    with (py ".m2" :: py "repository" :: components relpath).
  cbv iota.
  change (py ".m2" :: py "repository" :: components relpath)
    with (A ++ components relpath).
  rewrite removelast_app by exact Hne.
  rewrite to_str_of_format.
  - rewrite format_under_m2. reflexivity.
  - left. reflexivity.
  - apply Forall_app. split; [apply m2_repository_components|exact Htl'].
Qed.

(** X11: for a relative path that does not start with a slash, the
    destination directory of a source is [.m2], [repository] and the
    directory components of the relative path joined with slashes, empty
    and single-dot components left out; it starts with
    [.m2/repository]. *)
Theorem dest_under_m2_repository (fs : filesystem) (repo : t)
    (u : ArtifactUrl.t) (r : FlatpakFileSource.t) :
  create_flatpak_source fs repo u = Ok r ->
  is_absolute (ArtifactUrl.relpath u) = false ->
  components (ArtifactUrl.relpath u) <> [] ->
  FlatpakFileSource.dest r =
    join_sep ([py ".m2"; py "repository"] ++
              removelast (components (ArtifactUrl.relpath u))) /\
  is_prefix_of (py ".m2/repository") (FlatpakFileSource.dest r).
Proof.
  intros Hc Ha Hne.
  destruct (create_flatpak_source_ok_inv fs repo u r Hc)
    as (content & _ & Hr & _).
  rewrite (create_flatpak_source_ok fs repo u content Hr) in Hc.
  injection Hc as <-. cbn [FlatpakFileSource.dest].
  rewrite (dest_of_joined_relative _ Ha Hne). split; [reflexivity|].
  destruct (removelast (components (ArtifactUrl.relpath u))) as [|x tl].
  - exists []. reflexivity.
  - exists (sep :: join_sep (x :: tl)). reflexivity.
Qed.

Lemma dest_under_m2_repository_witness :
  let u := ArtifactUrl.mk
             (py "https://repo.maven.apache.org/maven2/foo//bar/./1.0/bar-1.0.jar")
             (py "https://repo.maven.apache.org/maven2/")
             (py "foo//bar/./1.0/bar-1.0.jar") in
  exists r,
    create_flatpak_source example_fs example_repo u = Ok r /\
    FlatpakFileSource.dest r = py ".m2/repository/foo/bar/1.0".
Proof.
  intros u.
  destruct (create_flatpak_source example_fs example_repo u) as [r|e] eqn:E;
    [|vm_compute in E; discriminate E].
  exists r. split; [reflexivity|].
  destruct (dest_under_m2_repository example_fs example_repo u r E
              eq_refl) as [Hd _].
  - vm_compute. discriminate.
  - rewrite Hd. reflexivity.
Defined.

Lemma maven_metadata_not_versioned : ~ versioned_metadata_name maven_metadata.
Proof. intros K. apply fnmatch_versioned in K. discriminate K. Qed.

(** X12: the file name of a source is the name of the cached file, or,
    for a cached [maven-metadata.xml] only, a name of the form
    [maven-metadata-*.xml] that is listed in the directory of the cached
    file. *)
Theorem dest_filename_choice (fs : filesystem) (repo : t)
    (u : ArtifactUrl.t) (r : FlatpakFileSource.t) :
  create_flatpak_source fs repo u = Ok r ->
  FlatpakFileSource.dest_filename r = name (artifact_path repo u) \/
  (name (artifact_path repo u) = maven_metadata /\
   versioned_metadata_name (FlatpakFileSource.dest_filename r) /\
   In (FlatpakFileSource.dest_filename r)
      (siblings fs (to_str (parent (artifact_path repo u))))).
Proof.
  intros Hc.
  destruct (create_flatpak_source_ok_inv fs repo u r Hc)
    as (content & _ & Hr & _).
  rewrite (create_flatpak_source_ok fs repo u content Hr) in Hc.
  injection Hc as <-. cbn [FlatpakFileSource.dest_filename].
  destruct (PyStr.eqb (name (artifact_path repo u)) maven_metadata) eqn:E;
    [|left; reflexivity].
  apply str_eqb_eq in E.
  destruct (glob fs _ _) as [|first rest] eqn:Eg; [left; reflexivity|].
  right. split; [exact E|].
  assert (Hin : In first (first :: rest)) by (left; reflexivity).
  rewrite <- Eg, glob_siblings in Hin. apply filter_In in Hin.
  destruct Hin as [Hin Hm]. apply andb_true_iff in Hm.
  destruct Hm as [_ Hm]. apply fnmatch_versioned in Hm. auto.
Qed.

Lemma dest_filename_choice_witness :
  exists r,
    create_flatpak_source example_fs example_repo example_metadata = Ok r /\
    versioned_metadata_name (FlatpakFileSource.dest_filename r).
Proof.
  destruct (create_flatpak_source example_fs example_repo example_metadata)
    as [r|e] eqn:E; [|vm_compute in E; discriminate E].
  exists r. split; [reflexivity|].
  destruct (dest_filename_choice example_fs example_repo example_metadata
              r E) as [H|(_ & H & _)]; [|exact H].
  exfalso. vm_compute in E. injection E as <-. discriminate H.
Defined.

End MoreSources.

Section MorePipeline.

Lemma collect_sources_cons_ok (fs : filesystem) (repo : PosixPath.t)
    (y : ArtifactUrl.t) (ys : list ArtifactUrl.t) (ending : option exn)
    (srcs : list FlatpakFileSource.t) :
  collect_sources fs repo (y :: ys) ending = Ok srcs <->
  exists r rest,
    srcs = r :: rest /\ create_flatpak_source fs repo y = Ok r /\
    collect_sources fs repo ys ending = Ok rest.
Proof.
  cbn [collect_sources].
  destruct (create_flatpak_source fs repo y) as [r|e]; cbn [bind].
  - destruct (collect_sources fs repo ys ending) as [rest|e]; cbn [bind].
    + split.
      * intros H. injection H as <-. exists r, rest. auto.
      * intros (r' & rest' & -> & Hr & Hrest).
        injection Hr as <-. injection Hrest as <-. reflexivity.
    + split; [discriminate|].
      intros (r' & rest' & _ & _ & K). discriminate K.
  - split; [discriminate|]. intros (r' & rest' & _ & K & _). discriminate K.
Qed.

(** The list comprehension succeeds exactly when every URL of the build
    output has a source, and then with these sources in order. *)
Lemma synthesize_lines (fs : filesystem) (repo : PosixPath.t)
    (lines : list str) :
  forall srcs,
    (let (ys, ending) := extract_from_lines lines in
     collect_sources fs repo ys ending) = Ok srcs <->
    Forall2 (fun u r => source_of fs repo u = Ok r) (log_urls lines) srcs.
Proof.
  induction lines as [|l lines IH]; intros srcs;
    cbn [extract_from_lines log_urls flat_map].
  - cbn [collect_sources]. split.
    + intros H. injection H as <-. constructor.
    + intros H. inversion H. reflexivity.
  - fold (log_urls lines).
    destruct (DownloadedRe.search l) as [g|]; [|apply IH].
    cbn [app].
    destruct (ArtifactUrl.parse_url g) as [a|e] eqn:Ea.
    + destruct (extract_from_lines lines) as [ys ending].
      rewrite collect_sources_cons_ok. split.
      * intros (r & rest & -> & Hr & Hrest). constructor.
        -- unfold source_of. rewrite Ea. exact Hr.
        -- apply IH. exact Hrest.
      * intros H. inversion H as [|u r us rest Hr Hrest]; subst.
        unfold source_of in Hr. rewrite Ea in Hr. cbn [bind] in Hr.
        exists r, rest.
        split; [reflexivity|]. split; [exact Hr|]. apply IH. exact Hrest.
    + cbn [collect_sources]. split; [discriminate|].
      intros H. inversion H as [|u r us rest Hr Hrest]; subst.
      unfold source_of in Hr. rewrite Ea in Hr. discriminate Hr.
Qed.

Lemma synthesize_sources_iff (fs : filesystem) (repo : PosixPath.t)
    (stdout : str) (srcs : list FlatpakFileSource.t) :
  synthesize_sources fs repo stdout = Ok srcs <->
  Forall2 (fun u r => source_of fs repo u = Ok r)
    (log_urls (PyStr.splitlines stdout)) srcs.
Proof.
  unfold synthesize_sources, extract_downloaded_artifacts.
  apply synthesize_lines.
Qed.

Lemma source_of_url (fs : filesystem) (repo : PosixPath.t) (u : str)
    (r : FlatpakFileSource.t) :
  source_of fs repo u = Ok r -> FlatpakFileSource.url r = u.
Proof.
  unfold source_of.
  destruct (ArtifactUrl.parse_url u) as [a|e] eqn:Ea; cbn [bind];
    [|discriminate].
  pose proof (parse_url_ok_url u a Ea) as Hu. intros H.
  destruct (create_flatpak_source_ok_inv fs repo a r H) as (_ & _ & _ & Hr).
  congruence.
Qed.

Lemma sources_urls (fs : filesystem) (repo : PosixPath.t) (urls : list str)
    (srcs : list FlatpakFileSource.t) :
  Forall2 (fun u r => source_of fs repo u = Ok r) urls srcs ->
  map FlatpakFileSource.url srcs = urls.
Proof.
  induction 1 as [|u r urls srcs Hr _ IH]; [reflexivity|].
  cbn [map]. rewrite IH, (source_of_url fs repo u r Hr). reflexivity.
Qed.

Lemma log_urls_length (lines : list str) :
  length (log_urls lines) = length (filter has_download lines).
Proof.
  induction lines as [|l lines IH]; [reflexivity|].
  cbn [log_urls flat_map filter]. fold (log_urls lines).
  unfold has_download at 1.
  destruct (DownloadedRe.search l); cbn [app length]; rewrite IH;
    reflexivity.
Qed.

Lemma update_dependencies_ok_inv (fs : filesystem) (repo : PosixPath.t)
    (stdout : str) (out : list FlatpakFileSource.t) :
  update_dependencies fs repo stdout = Ok out ->
  exists srcs,
    synthesize_sources fs repo stdout = Ok srcs /\
    out = sort_by_key FlatpakFileSource.url srcs.
Proof.
  unfold update_dependencies.
  destruct (synthesize_sources fs repo stdout) as [srcs|e]; cbn [bind];
    [|discriminate].
  intros H. injection H as <-. exists srcs. auto.
Qed.

(** X13: [update_dependencies] neither drops, invents nor merges
    sources: its result has one source per download line of the build
    output, and the urls of the result are the URLs of those lines up to
    order, repeats included. *)
Theorem update_dependencies_keeps_every_download (fs : filesystem)
    (repo : PosixPath.t) (stdout : str) (out : list FlatpakFileSource.t) :
  update_dependencies fs repo stdout = Ok out ->
  length out = length (filter has_download (PyStr.splitlines stdout)) /\
  Permutation (log_urls (PyStr.splitlines stdout))
    (map FlatpakFileSource.url out).
Proof.
  intros H.
  destruct (update_dependencies_ok_inv fs repo stdout out H)
    as (srcs & Hs & ->).
  apply synthesize_sources_iff in Hs.
  pose proof (sources_urls fs repo _ srcs Hs) as Hu.
  pose proof (sort_by_key_perm _ FlatpakFileSource.url srcs) as Hp.
  split.
  - rewrite <- log_urls_length, <- Hu, length_map.
    symmetry. apply Permutation_length. exact Hp.
  - rewrite <- Hu. apply Permutation_map. exact Hp.
Qed.

Lemma update_dependencies_keeps_every_download_witness :
  exists out,
    update_dependencies example_fs example_repo example_log = Ok out /\
    length out = 4 /\
    Permutation (log_urls (PyStr.splitlines example_log))
      (map FlatpakFileSource.url out).
Proof.
  destruct (update_dependencies example_fs example_repo example_log)
    as [out|e] eqn:E; [|vm_compute in E; discriminate E].
  exists out. split; [reflexivity|].
  destruct (update_dependencies_keeps_every_download example_fs example_repo
              example_log out E) as [Hl Hp].
  split; [rewrite Hl; reflexivity|exact Hp].
Defined.

(** X14: [update_dependencies] succeeds exactly when every URL of the
    download lines starts with a known base and names a regular file of
    the local repository. *)
Theorem update_dependencies_succeeds_iff (fs : filesystem)
    (repo : PosixPath.t) (stdout : str) :
  (exists out, update_dependencies fs repo stdout = Ok out) <->
  forall u, In u (log_urls (PyStr.splitlines stdout)) ->
    exists a content,
      ArtifactUrl.parse_url u = Ok a /\
      fs (PosixPath.to_str (artifact_path repo a)) = Some (File content).
Proof.
  split.
  - intros [out H] u Hu.
    destruct (update_dependencies_ok_inv fs repo stdout out H)
      as (srcs & Hs & _).
    apply synthesize_sources_iff in Hs.
    revert Hu. induction Hs as [|u0 r urls srcs Hr _ IH]; [intros []|].
    intros [<-|Hu]; [|exact (IH Hu)].
    unfold source_of in Hr.
    destruct (ArtifactUrl.parse_url u0) as [a|e]; cbn [bind] in Hr;
      [|discriminate].
    destruct (create_flatpak_source_ok_inv fs repo a r Hr)
      as (content & Hf & _).
    exists a, content. auto.
  - intros H.
    assert (Hs : exists srcs,
               Forall2 (fun u r => source_of fs repo u = Ok r)
                 (log_urls (PyStr.splitlines stdout)) srcs).
    { induction (log_urls (PyStr.splitlines stdout)) as [|u urls IH].
      - exists []. constructor.
      - destruct IH as [srcs Hs]; [intros v Hv; apply H; right; exact Hv|].
        destruct (H u (or_introl eq_refl)) as (a & content & Ha & Hf).
        assert (Hr : read_bytes fs (artifact_path repo a) = Ok content)
          by (unfold read_bytes; rewrite Hf; reflexivity).
        eexists (_ :: srcs). constructor; [|exact Hs].
        unfold source_of. rewrite Ha. cbn [bind].
        apply (create_flatpak_source_ok fs repo a content Hr). }
    destruct Hs as [srcs Hs]. apply synthesize_sources_iff in Hs.
    exists (sort_by_key FlatpakFileSource.url srcs).
    unfold update_dependencies. rewrite Hs. reflexivity.
Qed.

Lemma Forall2_permutation {A B} (R : A -> B -> Prop) (l1 l1' : list A) :
  Permutation l1 l1' ->
  forall l2, Forall2 R l1 l2 ->
  exists l2', Permutation l2 l2' /\ Forall2 R l1' l2'.
Proof.
  induction 1 as [|x l1 l1' _ IH|x y l1|l1 l1' l1'' _ IH1 _ IH2];
    intros l2 H.
  - inversion H. exists []. split; constructor.
  - inversion H as [|a b la lb Hab Hl]; subst.
    destruct (IH lb Hl) as (l2' & Hp & Hf).
    exists (b :: l2'). split; constructor; assumption.
  - inversion H as [|a b la lb Hab Hl]; subst.
    inversion Hl as [|a' b' la' lb' Hab' Hl']; subst.
    exists (b' :: b :: lb'). split; [apply perm_swap|].
    repeat constructor; assumption.
  - destruct (IH1 l2 H) as (m & Hp1 & Hf1).
    destruct (IH2 m Hf1) as (m' & Hp2 & Hf2).
    exists m'. split; [eapply perm_trans; eassumption|exact Hf2].
Qed.

(** Two sorted lists with the same elements are the same list when the
    key tells the elements apart. *)
Lemma sorted_unique {A} (key : A -> str) (l1 : list A) :
  forall l2,
    StronglySorted (key_le key) l1 -> StronglySorted (key_le key) l2 ->
    Permutation l1 l2 ->
    (forall a b, In a l1 -> In b l1 -> key a = key b -> a = b) ->
    l1 = l2.
Proof.
  induction l1 as [|x l1 IH]; intros l2 H1 H2 Hp Hinj.
  - apply Permutation_nil in Hp. congruence.
  - destruct l2 as [|y l2].
    + apply Permutation_sym, Permutation_nil in Hp. discriminate.
    + inversion H1 as [|? ? Hs1 Hx]; subst.
      inversion H2 as [|? ? Hs2 Hy]; subst.
      assert (Exy : x = y).
      { assert (Hxin : In x (y :: l2))
          by (apply (Permutation_in _ Hp); left; reflexivity).
        assert (Hyin : In y (x :: l1))
          by (apply (Permutation_in _ (Permutation_sym Hp)); left;
              reflexivity).
        destruct Hxin as [->|Hxin]; [reflexivity|].
        destruct Hyin as [->|Hyin]; [reflexivity|].
        rewrite Forall_forall in Hx, Hy.
        pose proof (Hy x Hxin) as Hle1. pose proof (Hx y Hyin) as Hle2.
        unfold key_le in Hle1, Hle2. symmetry.
        apply Hinj; [right; exact Hyin|left; reflexivity|].
        apply ltb_total; assumption. }
      subst y. f_equal. apply IH; auto.
      * apply (Permutation_cons_inv Hp).
      * intros a b Ha Hb. apply Hinj; right; assumption.
Qed.

(** X15: the result does not depend on the order of the downloads: two
    build outputs whose download URLs are the same up to order give the
    same list of sources. *)
Theorem update_dependencies_order_independent (fs : filesystem)
    (repo : PosixPath.t) (stdout stdout' : str)
    (out : list FlatpakFileSource.t) :
  Permutation (log_urls (PyStr.splitlines stdout))
    (log_urls (PyStr.splitlines stdout')) ->
  update_dependencies fs repo stdout = Ok out ->
  update_dependencies fs repo stdout' = Ok out.
Proof.
  intros Hp H.
  destruct (update_dependencies_ok_inv fs repo stdout out H)
    as (srcs & Hs & ->).
  apply synthesize_sources_iff in Hs.
  destruct (Forall2_permutation _ _ _ Hp srcs Hs) as (srcs' & Hp' & Hs').
  pose proof Hs' as Hs2. apply synthesize_sources_iff in Hs2.
  unfold update_dependencies. rewrite Hs2. cbn [bind]. f_equal.
  symmetry. apply (sorted_unique FlatpakFileSource.url).
  - apply sort_by_key_sorted.
  - apply sort_by_key_sorted.
  - eapply perm_trans; [apply Permutation_sym, sort_by_key_perm|].
    eapply perm_trans; [exact Hp'|apply sort_by_key_perm].
  - intros a b Ha Hb E.
    assert (Hsrc : forall c, In c (sort_by_key FlatpakFileSource.url srcs)
                   -> source_of fs repo (FlatpakFileSource.url c) = Ok c).
    { intros c Hc.
      apply (Permutation_in _ (Permutation_sym
               (sort_by_key_perm _ FlatpakFileSource.url srcs))) in Hc.
      clear -Hs Hc. induction Hs as [|u r urls srcs Hr _ IH]; [destruct Hc|].
      destruct Hc as [<-|Hc]; [|exact (IH Hc)].
      rewrite (source_of_url fs repo u r Hr). exact Hr. }
    pose proof (Hsrc a Ha) as Ka. pose proof (Hsrc b Hb) as Kb.
    rewrite E in Ka. congruence.
Qed.

Lemma update_dependencies_order_independent_witness :
  let other :=
    unlines
      [py "Downloaded from central: https://repo.maven.apache.org/maven2/foo/bar/1.0/bar-1.0.jar";
       py "Downloaded from central: https://repo.maven.apache.org/maven2/foo/bar/1.0/bar-1.0.pom";
       py "Downloaded from central: https://repo.maven.apache.org/maven2/foo/bar/1.0/bar-1.0.jar";
       py "Downloaded from sonatype: https://oss.sonatype.org/content/repositories/snapshots/g/a/1.0-SNAPSHOT/maven-metadata.xml"] in
  exists out,
    update_dependencies example_fs example_repo example_log = Ok out /\
    update_dependencies example_fs example_repo other = Ok out.
Proof.
  intros other.
  destruct (update_dependencies example_fs example_repo example_log)
    as [out|e] eqn:E; [|vm_compute in E; discriminate E].
  exists out. split; [reflexivity|].
  apply (update_dependencies_order_independent example_fs example_repo
           example_log other out); [|exact E].
  change (log_urls (PyStr.splitlines example_log))
    with [py "https://oss.sonatype.org/content/repositories/snapshots/g/a/1.0-SNAPSHOT/maven-metadata.xml";
          py "https://repo.maven.apache.org/maven2/foo/bar/1.0/bar-1.0.pom";
          py "https://repo.maven.apache.org/maven2/foo/bar/1.0/bar-1.0.jar";
          py "https://repo.maven.apache.org/maven2/foo/bar/1.0/bar-1.0.jar"].
  change (log_urls (PyStr.splitlines other))
    with [py "https://repo.maven.apache.org/maven2/foo/bar/1.0/bar-1.0.jar";
          py "https://repo.maven.apache.org/maven2/foo/bar/1.0/bar-1.0.pom";
          py "https://repo.maven.apache.org/maven2/foo/bar/1.0/bar-1.0.jar";
          py "https://oss.sonatype.org/content/repositories/snapshots/g/a/1.0-SNAPSHOT/maven-metadata.xml"].
  set (m := py "https://oss.sonatype.org/content/repositories/snapshots/g/a/1.0-SNAPSHOT/maven-metadata.xml").
  set (p := py "https://repo.maven.apache.org/maven2/foo/bar/1.0/bar-1.0.pom").
  set (j := py "https://repo.maven.apache.org/maven2/foo/bar/1.0/bar-1.0.jar").
  apply (perm_trans (l' := [p; j; j; m])).
  - apply (Permutation_cons_append [p; j; j] m).
  - apply perm_swap.
Defined.

End MorePipeline.

Section MoreOutput.

Local Open Scope N_scope.

Lemma lower_hex_text (c : N) : is_lower_hex c = true -> is_json_text c = true.
Proof.
  unfold is_lower_hex, is_json_text. intros H.
  apply orb_true_iff in H. apply orb_true_iff. right.
  destruct H as [H|H]; apply andb_true_iff in H; destruct H as [H1 H2];
    apply N.leb_le in H1, H2; apply andb_true_iff; split; apply N.leb_le;
    lia.
Qed.

Lemma unicode_escape_text (n : N) :
  Forall (fun c => is_json_text c = true) (Json.unicode_escape n).
Proof.
  unfold Json.unicode_escape, Json.hex4. cbn [map].
  repeat constructor;
    apply lower_hex_text, hex_digit_lower, N.mod_lt; discriminate.
Qed.

Lemma escape_text (c : N) :
  Forall (fun c => is_json_text c = true) (Json.escape c).
Proof.
  unfold Json.escape.
  destruct (c =? 92); [repeat constructor|].
  destruct (c =? 34); [repeat constructor|].
  destruct ((32 <=? c) && (c <=? 126)) eqn:E.
  { constructor; [|constructor]. unfold is_json_text. rewrite E.
    apply orb_true_r. }
  destruct (c =? 8); [repeat constructor|].
  destruct (c =? 12); [repeat constructor|].
  destruct (c =? 10); [repeat constructor|].
  destruct (c =? 13); [repeat constructor|].
  destruct (c =? 9); [repeat constructor|].
  destruct (c <? 65536); [apply unicode_escape_text|].
  apply Forall_app. split; apply unicode_escape_text.
Qed.

Lemma encode_string_text (s : str) :
  Forall (fun c => is_json_text c = true) (Json.encode_string s).
Proof.
  unfold Json.encode_string. constructor; [reflexivity|].
  apply Forall_app. split; [|repeat constructor].
  induction s as [|c s IH]; cbn [flat_map]; [constructor|].
  apply Forall_app. split; [apply escape_text|exact IH].
Qed.

Lemma newline_indent_text (level : nat) :
  Forall (fun c => is_json_text c = true) (Json.newline_indent level).
Proof.
  unfold Json.newline_indent. constructor; [reflexivity|].
  induction (2 * level)%nat as [|n IH]; cbn [repeat]; constructor; auto.
Qed.

Lemma join_text (sep : str) (chunks : list str) :
  Forall (fun c => is_json_text c = true) sep ->
  Forall (Forall (fun c => is_json_text c = true)) chunks ->
  Forall (fun c => is_json_text c = true) (Json.join sep chunks).
Proof.
  intros Hs. induction 1 as [|x chunks Hx Hc IH]; [constructor|].
  destruct chunks as [|y chunks]; [exact Hx|].
  change (Json.join sep (x :: y :: chunks))
    with (x ++ sep ++ Json.join sep (y :: chunks)).
  repeat (apply Forall_app; split); assumption.
Qed.

Lemma encode_dict_text (level : nat) (items : list (str * str)) :
  Forall (fun c => is_json_text c = true) (Json.encode_dict level items).
Proof.
  unfold Json.encode_dict. destruct items as [|kv items];
    [repeat constructor|].
  apply Forall_app. split; [repeat constructor|].
  apply Forall_app. split; [apply newline_indent_text|].
  apply Forall_app. split;
    [|apply Forall_app; split;
      [apply newline_indent_text|repeat constructor]].
  apply join_text.
  - apply Forall_app. split; [repeat constructor|apply newline_indent_text].
  - apply Forall_forall. intros x Hx. apply in_map_iff in Hx.
    destruct Hx as (kv' & <- & _).
    apply Forall_app. split; [apply encode_string_text|].
    apply Forall_app. split; [repeat constructor|apply encode_string_text].
Qed.

Lemma dump_text (sources : list FlatpakFileSource.t) :
  Forall (fun c => is_json_text c = true) (Json.dump sources).
Proof.
  unfold Json.dump. destruct sources as [|o sources];
    [repeat constructor|].
  apply Forall_app. split; [repeat constructor|].
  apply Forall_app. split; [apply newline_indent_text|].
  apply Forall_app. split;
    [|apply Forall_app; split;
      [apply newline_indent_text|repeat constructor]].
  apply join_text.
  - apply Forall_app. split; [repeat constructor|apply newline_indent_text].
  - apply Forall_forall. intros x Hx. apply in_map_iff in Hx.
    destruct Hx as (o' & <- & _). apply encode_dict_text.
Qed.

(** X16: the text [run_direct] writes is plain ASCII whatever the URLs
    and file names are: every code point of it is a line feed or a
    printable ASCII character, all others having been escaped; and
    [run_direct] fails with the error of the manifest before it turns to
    the build output. *)
Theorem run_direct_writes_ascii (manifest_text : str) (fs : filesystem)
    (repo_directory : PosixPath.t) (stdout : str) :
  match run_direct manifest_text fs repo_directory stdout with
  | Ok written => Forall (fun c => is_json_text c = true) written
  | Raise e =>
      find_mediathekview_source manifest_text = Raise e \/
      ((exists s, find_mediathekview_source manifest_text = Ok s) /\
       update_dependencies fs repo_directory stdout = Raise e)
  end.
Proof.
  unfold run_direct.
  destruct (find_mediathekview_source manifest_text) as [s|e]; cbn [bind].
  - destruct (update_dependencies fs repo_directory stdout) as [srcs|e];
      cbn [bind].
    + apply dump_text.
    + right. split; [exists s|]; reflexivity.
  - left. reflexivity.
Qed.

End MoreOutput.

Section MoreTarget.

Import PosixPath.

(** X17: the file [run_direct] writes is [maven-dependencies.json] in
    the directory of the manifest, whatever the path of the manifest. *)
Theorem run_direct_target_beside_manifest (manifest : t) :
  name (run_direct_target manifest) = py "maven-dependencies.json" /\
  to_str (parent (run_direct_target manifest)) = to_str (parent manifest).
Proof.
  unfold run_direct_target.
  set (P := parent manifest). set (key := py "maven-dependencies.json").
  assert (Hp : parsed (joinpath P key) = (root P, tail P ++ [key])).
  { apply (parsed_joinpath_relative P key). reflexivity. }
  split.
  - rewrite (name_parsed _ _ _ Hp). apply last_last.
  - rewrite (parent_parsed _ _ _ Hp).
    destruct (tail P ++ [key]) as [|x xs] eqn:E;
      [destruct (tail P); discriminate|].
    rewrite <- E, removelast_last.
    destruct (parse_path_valid (join_all P)) as [Hr Ht].
    rewrite to_str_of_format; [reflexivity|exact Hr|exact Ht].
Qed.

End MoreTarget.

Section MoreUrls.

Lemma log_urls_in (lines : list str) (u : str) :
  In u (log_urls lines) ->
  exists l, In l lines /\ DownloadedRe.search l = Some u.
Proof.
  induction lines as [|l lines IH]; [intros []|].
  cbn [log_urls flat_map]. fold (log_urls lines). intros H.
  apply in_app_or in H. destruct H as [H|H].
  - destruct (DownloadedRe.search l) as [g|] eqn:E; [|destruct H].
    destruct H as [<-|[]]. exists l. split; [left; reflexivity|exact E].
  - destruct (IH H) as (l' & Hl' & Hs). exists l'. split; [right|]; auto.
Qed.

Lemma sources_of_log_urls (fs : filesystem) (repo : PosixPath.t)
    (lines : list str) (urls : list str)
    (srcs : list FlatpakFileSource.t) :
  Forall2 (fun u r => source_of fs repo u = Ok r) urls srcs ->
  (forall u, In u urls -> In u (log_urls lines)) ->
  Forall (fun r => url_token (FlatpakFileSource.url r) /\
                   known_origin (FlatpakFileSource.url r) /\
                   exists l, In l lines /\
                             download_line l (FlatpakFileSource.url r)) srcs.
Proof.
  induction 1 as [|u r urls srcs Hr _ IH]; intros Hin; [constructor|].
  constructor.
  - rewrite (source_of_url fs repo u r Hr).
    destruct (log_urls_in _ u (Hin u (or_introl eq_refl)))
      as (l & Hl & Hsearch).
    pose proof (search_sound l u Hsearch) as Hd.
    split; [destruct Hd as (_ & _ & _ & _ & Hu & _); exact Hu|].
    split; [|exists l; auto].
    unfold source_of in Hr.
    destruct (ArtifactUrl.parse_url u) as [a|e] eqn:Ea; [|discriminate Hr].
    destruct (parse_url_in_ok_inv REPO_BASES u a Ea) as (_ & Hb & Hc).
    exists (ArtifactUrl.repo_base_url a). split; [exact Hb|].
    exists (ArtifactUrl.relpath a). symmetry. exact Hc.
  - apply IH. intros v Hv. apply Hin. right. exact Hv.
Qed.

(** X18: every url in the result of [update_dependencies] is a URL token
    of the build output, [http://] or [https://] followed by at least one
    code point and free of spaces, and it starts with one of the known
    base URLs. *)
Theorem update_dependencies_urls (fs : filesystem) (repo : PosixPath.t)
    (stdout : str) (out : list FlatpakFileSource.t) :
  update_dependencies fs repo stdout = Ok out ->
  Forall (fun r => url_token (FlatpakFileSource.url r) /\
                   known_origin (FlatpakFileSource.url r) /\
                   exists l, In l (PyStr.splitlines stdout) /\
                             download_line l (FlatpakFileSource.url r)) out.
Proof.
  intros H.
  destruct (update_dependencies_ok_inv fs repo stdout out H)
    as (srcs & Hs & ->).
  apply synthesize_sources_iff in Hs.
  apply (Permutation_Forall (sort_by_key_perm _ FlatpakFileSource.url srcs)).
  apply (sources_of_log_urls fs repo (PyStr.splitlines stdout)
           (log_urls (PyStr.splitlines stdout)) srcs Hs).
  auto.
Qed.

Lemma update_dependencies_urls_witness :
  exists out,
    update_dependencies example_fs example_repo example_log = Ok out /\
    Forall (fun r => url_token (FlatpakFileSource.url r) /\
                     known_origin (FlatpakFileSource.url r)) out.
Proof.
  destruct (update_dependencies example_fs example_repo example_log)
    as [out|e] eqn:E; [|vm_compute in E; discriminate E].
  exists out. split; [reflexivity|].
  eapply Forall_impl;
    [|exact (update_dependencies_urls example_fs example_repo example_log
               out E)].
  intros r (H1 & H2 & _). auto.
Defined.

End MoreUrls.

Section MoreSuccess.

Lemma update_dependencies_succeeds_iff_witness :
  (forall u, In u (log_urls (PyStr.splitlines example_log)) ->
     exists a content,
       ArtifactUrl.parse_url u = Ok a /\
       example_fs (PosixPath.to_str (artifact_path example_repo a))
         = Some (File content)) /\
  exists out, update_dependencies example_fs example_repo example_log = Ok out.
Proof.
  assert (H : forall u, In u (log_urls (PyStr.splitlines example_log)) ->
     exists a content,
       ArtifactUrl.parse_url u = Ok a /\
       example_fs (PosixPath.to_str (artifact_path example_repo a))
         = Some (File content)).
  { intros u Hu. vm_compute in Hu.
    destruct Hu as [<-|[<-|[<-|[<-|[]]]]]; eexists; eexists;
      (split; [reflexivity|vm_compute; reflexivity]). }
  split; [exact H|].
  exact (proj2 (update_dependencies_succeeds_iff example_fs example_repo
                  example_log) H).
Defined.

End MoreSuccess.

(* ================================================================== *)
(** * The destination directory *)
(* ================================================================== *)

Section DestinationDirectory.

Import PosixPath.

Lemma join_sep_nonempty (x : str) (tl : list str) :
  component x -> PyStr.is_empty (join_sep (x :: tl)) = false.
Proof.
  intros Hx. destruct (component_head x Hx) as (c & x' & -> & _).
  destruct tl; reflexivity.
Qed.

(** The parent directory of a relative path with components: its
    components are all but the last, and its string is their join. *)
Lemma parent_of_relative (relpath : str) :
  is_absolute relpath = false -> components relpath <> [] ->
  tail (parent (of_str relpath)) = removelast (components relpath) /\
  (removelast (components relpath) <> [] ->
   as_posix (parent (of_str relpath))
     = join_sep (removelast (components relpath))).
Proof.
  intros Ha Hne.
  pose proof (removelast_valid _ (components_valid relpath)) as Hv.
  rewrite (parent_parsed (of_str relpath) [] (components relpath))
    by (rewrite parsed_of_str; apply parse_path_relative; exact Ha).
  destruct (components relpath) as [|x tl] eqn:Ec; [contradiction|].
  rewrite <- Ec in *. split.
  - unfold tail. rewrite parsed_of_str, parse_format; auto.
    left. reflexivity.
  - intros Hne'. unfold as_posix.
    rewrite to_str_of_format; [|left; reflexivity|exact Hv].
    unfold format_parsed. cbn [app].
    destruct (removelast (components relpath)) as [|y tl'] eqn:Er;
      [contradiction|].
    inversion Hv as [|? ? Hy _]; subst.
    rewrite (join_sep_nonempty y tl' Hy). reflexivity.
Qed.

(** C7, as amended: in a repository directory, for a reference with a
    readable artifact whose relative path does not start with a slash,
    the [dest] field of the source is the prefix [.m2/repository] joined,
    with forward slashes, with the parent directory of the relative path:
    the prefix alone when the relative path is a single file name, the
    prefix, a slash and the parent directory otherwise; for
    [foo/bar/1.0/bar-1.0.jar] it is [.m2/repository/foo/bar/1.0]. *)
Theorem dest_is_parent_under_m2 (fs : filesystem) (repo : t)
    (u : ArtifactUrl.t) (content : list Byte.byte) :
  fs_is_directory fs repo ->
  read_bytes fs (artifact_path repo u) = Ok content ->
  is_absolute (ArtifactUrl.relpath u) = false ->
  exists r,
    create_flatpak_source fs repo u = Ok r /\
    FlatpakFileSource.dest r =
      dest_of_prefix_and_parent (ArtifactUrl.relpath u) /\
    FlatpakFileSource.dest r =
      match tail (parent (of_str (ArtifactUrl.relpath u))) with
      | [] => py ".m2/repository"
      | _ :: _ =>
          py ".m2/repository/" ++
          as_posix (parent (of_str (ArtifactUrl.relpath u)))
      end /\
    (ArtifactUrl.relpath u = py "foo/bar/1.0/bar-1.0.jar" ->
     FlatpakFileSource.dest r = py ".m2/repository/foo/bar/1.0").
Proof.
  intros [entries Hd] Hr Ha.
  assert (Hne : components (ArtifactUrl.relpath u) <> []).
  { destruct (readable_names_a_file fs repo u entries content Hd Hr)
      as [K|K]; [congruence|exact K]. }
  destruct (parent_of_relative _ Ha Hne) as [Ht Hs].
  eexists. split; [apply (create_flatpak_source_ok fs repo u content Hr)|].
  cbn [FlatpakFileSource.dest].
  rewrite (dest_of_joined_relative _ Ha Hne).
  split; [|split].
  - unfold dest_of_prefix_and_parent. rewrite Ht. reflexivity.
  - rewrite Ht.
    destruct (removelast (components (ArtifactUrl.relpath u)))
      as [|y tl'] eqn:Er; [reflexivity|].
    rewrite Hs by discriminate. reflexivity.
  - intros E. rewrite E. reflexivity.
Qed.

Lemma dest_is_parent_under_m2_witness :
  fs_is_directory example_fs example_repo /\
  PosixPath.is_absolute (ArtifactUrl.relpath example_jar) = false /\
  exists r,
    create_flatpak_source example_fs example_repo example_jar = Ok r /\
    FlatpakFileSource.dest r = py ".m2/repository/foo/bar/1.0".
Proof.
  assert (Hd : fs_is_directory example_fs example_repo)
    by (exists [py "foo"; py "g"]; reflexivity).
  split; [exact Hd|]. split; [reflexivity|].
  destruct (dest_is_parent_under_m2 example_fs example_repo example_jar
              (list_byte_of_string "abc") Hd eq_refl eq_refl)
    as (r & Hr & _ & _ & He).
  exists r. split; [exact Hr|]. apply He. reflexivity.
Defined.

(** C7, the claim as stated fails: a URL with a second slash after the
    base has a relative path that starts with a slash; its source is
    built from the file at that absolute path and its [dest] is the
    parent of that path, without the prefix [.m2/repository]. *)
Lemma dest_absolute_relpath_counterexample :
  let fs : filesystem := fun p =>
    if PyStr.eqb p (py "/cache") then Some (Dir [py "foo"])
    else if PyStr.eqb p (py "/etc/hostname") then
      Some (File (list_byte_of_string "abc"))
    else None in
  let u := py "https://repo.maven.apache.org/maven2//etc/hostname" in
  exists a r,
    ArtifactUrl.parse_url u = Ok a /\
    fs_is_directory fs example_repo /\
    create_flatpak_source fs example_repo a = Ok r /\
    FlatpakFileSource.dest r = py "/etc" /\
    dest_of_prefix_and_parent (ArtifactUrl.relpath a)
      = py ".m2/repository/etc" /\
    ~ is_prefix_of (py ".m2/repository") (FlatpakFileSource.dest r).
Proof.
  intros fs u.
  eexists. eexists. split; [reflexivity|].
  split; [exists [py "foo"]; reflexivity|].
  split; [vm_compute; reflexivity|].
  split; [reflexivity|]. split; [reflexivity|].
  intros [rest E]. discriminate E.
Qed.

End DestinationDirectory.
